(** * Clockr: the timer/workspace engine and its reports (src/main.js)

    A shallow embedding of the JavaScript of [src/main.js].

    - JavaScript numbers that hold integers (instants in milliseconds since
      the epoch, durations, ids, counts) are [Z]; the sums the program forms
      stay far below 2^53, where doubles are exact.
    - [state] (the global object of main.js) is the record [State]; its
      properties [timers], [entries] and [workspaceNames], which are objects
      used as maps from workspace id, are [gmap Z _].
    - A timer is a mutable object that [stopTimer] keeps a reference to across
      its [await]; timer objects therefore live in a store ([heap]) and
      [timers] maps a workspace id to a reference.
    - An [async] function runs synchronously up to its first pending [await];
      what is left of it is a [Continuation], resumed later by the event loop.
    - [Date.now()] and [new Date()] read the wall clock; every reading a
      function makes is an argument of its embedding, in reading order.
    - A stored timestamp is the text [new Date(t).toISOString()]; it is
      represented by the instant [t], which [new Date(text)] gives back.
    - The database is the content of its tables. A request takes effect when
      its answer is delivered, and answers may come in any order; requests
      succeed, except the insert of a workspace row that exists or has no
      name.
    - The page (buttons, fields, the display tick) is left out: the text of a
      field is an argument, and an uncaught exception ends the function with
      the state as it is. *)

From Stdlib Require Import ZArith String Ascii List Lia QArith Sorted.
From stdpp Require Import gmap list strings pretty.

#[local] Open Scope string_scope.
#[local] Open Scope list_scope.
#[local] Open Scope Z_scope.

(** ** JavaScript values *)

(** Truthiness of a value that is [null] or a number: [if (timer.startTime)],
    [if (state.activeWorkspace)]. *)
Definition truthy (v : option Z) : bool :=
  match v with
  | Some n => negb (n =? 0)
  | None => false
  end.

(** [a || b] on strings: the empty string is falsy. *)
Definition orDefault (a b : string) : string :=
  match a with
  | EmptyString => b
  | _ => a
  end.

(** The template [`Workspace ${i}`]. *)
Definition defaultName (i : Z) : string := "Workspace " +:+ pretty i.

(** ** Data model *)

Module Timer.
(** [{ startTime: null, elapsed: 0 }] *)
Record t := mk { startTime : option Z; elapsed : Z }.
End Timer.

Module Entry.
(** The entry objects of [state.entries[i]]; [id] is absent until the
    insert has answered. *)
Record t := mk {
  id : option Z;
  startTime : Z;
  endTime : Z;
  duration : Z;
  description : string
}.
End Entry.

Module Row.
(** A row of the table [entries]. *)
Record t := mk {
  id : Z;
  workspace_id : Z;
  start_time : Z;
  end_time : Z;
  duration : Z;
  description : string
}.
End Row.

(** A suspended [async] function: what runs when its [await] is answered. *)
Inductive Caller :=
| NoCaller                          (* the promise is not awaited *)
| CountCaller (newCount : Z).       (* [await stopTimer(..)] of changeWorkspaceCount *)

Inductive Continuation :=
| StopTimerK (workspace : Z) (timer : nat) (entry : Entry.t) (k : Caller)
| ClearAllK
| CountExistsK (newCount i : Z)
| CountInsertK (newCount i : Z) (name : option string)
| CountEntriesK (newCount i : Z)
| CountSaveK (value : Z)
| RenameK (i : Z) (name : string)
| DeleteK (workspace id : Z)
| UpdateK (id : Z) (description : string).

Record State := mkState {
  (* the object [state] *)
  workspaceCount : Z;
  activeWorkspace : option Z;
  timers : gmap Z nat;
  entries : gmap Z (list Entry.t);
  workspaceNames : gmap Z string;
  (* the timer objects, in allocation order *)
  heap : list Timer.t;
  (* the database: tables [entries], [workspaces], and the setting
     [workspace_count] *)
  db_entries : list Row.t;
  db_workspaces : gmap Z string;
  db_count : option Z;
  (* suspended async functions *)
  pending : list Continuation
}.

Definition with_workspaceCount (n : Z) (s : State) : State :=
  mkState n (activeWorkspace s) (timers s) (entries s) (workspaceNames s)
          (heap s) (db_entries s) (db_workspaces s) (db_count s) (pending s).
Definition with_activeWorkspace (a : option Z) (s : State) : State :=
  mkState (workspaceCount s) a (timers s) (entries s) (workspaceNames s)
          (heap s) (db_entries s) (db_workspaces s) (db_count s) (pending s).
Definition with_timers (m : gmap Z nat) (s : State) : State :=
  mkState (workspaceCount s) (activeWorkspace s) m (entries s) (workspaceNames s)
          (heap s) (db_entries s) (db_workspaces s) (db_count s) (pending s).
Definition with_entries (m : gmap Z (list Entry.t)) (s : State) : State :=
  mkState (workspaceCount s) (activeWorkspace s) (timers s) m (workspaceNames s)
          (heap s) (db_entries s) (db_workspaces s) (db_count s) (pending s).
Definition with_workspaceNames (m : gmap Z string) (s : State) : State :=
  mkState (workspaceCount s) (activeWorkspace s) (timers s) (entries s) m
          (heap s) (db_entries s) (db_workspaces s) (db_count s) (pending s).
Definition with_heap (h : list Timer.t) (s : State) : State :=
  mkState (workspaceCount s) (activeWorkspace s) (timers s) (entries s)
          (workspaceNames s) h (db_entries s) (db_workspaces s) (db_count s) (pending s).
Definition with_db_entries (r : list Row.t) (s : State) : State :=
  mkState (workspaceCount s) (activeWorkspace s) (timers s) (entries s)
          (workspaceNames s) (heap s) r (db_workspaces s) (db_count s) (pending s).
Definition with_db_workspaces (m : gmap Z string) (s : State) : State :=
  mkState (workspaceCount s) (activeWorkspace s) (timers s) (entries s)
          (workspaceNames s) (heap s) (db_entries s) m (db_count s) (pending s).
Definition with_db_count (c : option Z) (s : State) : State :=
  mkState (workspaceCount s) (activeWorkspace s) (timers s) (entries s)
          (workspaceNames s) (heap s) (db_entries s) (db_workspaces s) c (pending s).
Definition with_pending (k : list Continuation) (s : State) : State :=
  mkState (workspaceCount s) (activeWorkspace s) (timers s) (entries s)
          (workspaceNames s) (heap s) (db_entries s) (db_workspaces s) (db_count s) k.

(** [await] on a request to the database: the rest of the function waits. *)
Definition suspend (k : Continuation) (s : State) : State :=
  with_pending (pending s ++ [k]) s.

(** [state.timers[w]], dereferenced. *)
Definition timerOf (s : State) (w : Z) : option Timer.t :=
  match timers s !! w with
  | Some l => heap s !! l
  | None => None
  end.

(** The workspace ids the loops [for (let i = 1; i <= count; i++)] visit. *)
Definition ids (count : Z) : list Z := seqZ 1 count.

(** ** Sorting

    [Array.prototype.sort] with a comparator, and [ORDER BY], as the stable
    sort they are: [x] goes before [y] when [cmp x y <= 0]. *)
Section Sort.
Context {A : Type} (cmp : A -> A -> Z).

Fixpoint insertSorted (x : A) (l : list A) : list A :=
  match l with
  | [] => [x]
  | y :: l' => if cmp x y <=? 0 then x :: l else y :: insertSorted x l'
  end.

Definition sortWith (l : list A) : list A := foldr insertSorted [] l.
End Sort.

(** ** The database ([db.select], [db.execute]) *)

(** [result.lastInsertId] of an insert into a table whose key is
    [INTEGER PRIMARY KEY]: one more than the largest id, 1 in an empty table. *)
Definition lastInsertId (rows : list Row.t) : Z :=
  foldr (fun r m => Z.max (Row.id r) m) 0 rows + 1.

(** [SELECT .. FROM entries WHERE workspace_id = ? ORDER BY start_time DESC] *)
Definition selectEntries (i : Z) (rows : list Row.t) : list Row.t :=
  sortWith (fun a b => Row.start_time b - Row.start_time a)
           (filter (fun r => Row.workspace_id r = i) rows).

(** The object that [loadState] and [changeWorkspaceCount] build from a row. *)
Definition entryOfRow (r : Row.t) : Entry.t :=
  Entry.mk (Some (Row.id r)) (Row.start_time r) (Row.end_time r)
           (Row.duration r) (orDefault (Row.description r) "No description").

(** [addEntry(workspaceId, entry)], once the database has run it. *)
Definition addEntry (workspaceId : Z) (entry : Entry.t) (rows : list Row.t)
  : list Row.t * Z :=
  let entryId := lastInsertId rows in
  (rows ++ [Row.mk entryId workspaceId (Entry.startTime entry)
                   (Entry.endTime entry) (Entry.duration entry)
                   (Entry.description entry)],
   entryId).

(** ** initWorkspaceState *)

(** [new] of a timer object. *)
Definition allocTimer (i : Z) (s : State) : State :=
  with_timers (<[i := length (heap s)]> (timers s))
              (with_heap (heap s ++ [Timer.mk None 0]) s).

(** One round of the loop of [initWorkspaceState]. *)
Definition initWorkspace (i : Z) (s : State) : State :=
  let s1 := match timers s !! i with
            | Some _ => s
            | None => allocTimer i s
            end in
  let s2 := match entries s1 !! i with
            | Some _ => s1
            | None => with_entries (<[i := []]> (entries s1)) s1
            end in
  match workspaceNames s2 !! i with
  | Some (String _ _) => s2
  | _ => with_workspaceNames (<[i := defaultName i]> (workspaceNames s2)) s2
  end.

Definition initWorkspaceState (count : Z) (s : State) : State :=
  foldl (fun s i => initWorkspace i s) s (ids count).

(** ** loadState

    [state] as the script declares it, over a database that holds [rows],
    [wss] and the setting [cnt]. *)
Definition initialState (rows : list Row.t) (wss : gmap Z string)
           (cnt : option Z) : State :=
  mkState 1 None ∅ ∅ ∅ [] rows wss cnt [].

(** [INSERT INTO workspaces] for a workspace the table lacks. *)
Definition ensureWorkspace (i : Z) (s : State) : State :=
  match db_workspaces s !! i, workspaceNames s !! i with
  | None, Some name => with_db_workspaces (<[i := name]> (db_workspaces s)) s
  | _, _ => s
  end.

Definition loadEntries (i : Z) (s : State) : State :=
  with_entries (<[i := entryOfRow <$> selectEntries i (db_entries s)]> (entries s)) s.

(** [loadState] runs before any listener is attached, so nothing interleaves
    with its awaits. [parseInt(value) || 1] is 1 for a stored 0. *)
Definition loadState (s : State) : State :=
  let s1 := match db_count s with
            | Some v => with_workspaceCount (if v =? 0 then 1 else v) s
            | None => s
            end in
  let s2 := with_workspaceNames (db_workspaces s1 ∪ workspaceNames s1) s1 in
  let s3 := initWorkspaceState (workspaceCount s2) s2 in
  let s4 := foldl (fun s i => ensureWorkspace i s) s3 (ids (workspaceCount s3)) in
  foldl (fun s i => loadEntries i s) s4 (ids (workspaceCount s4)).

(** ** changeWorkspaceCount, after its [await stopTimer(..)] *)

(** The head of the loop [for (let i = 1; i <= newCount; i++)], and what
    follows the loop: [saveWorkspaceCount()] sends the count of that moment. *)
Definition countLoop (newCount i : Z) (s : State) : State :=
  if i <=? newCount then suspend (CountExistsK newCount i) s
  else suspend (CountSaveK (workspaceCount s)) s.

(** [if (!state.entries[i] || state.entries[i].length === 0)] *)
Definition countEntries (newCount i : Z) (s : State) : State :=
  match entries s !! i with
  | Some (_ :: _) => countLoop newCount (i + 1) s
  | _ => suspend (CountEntriesK newCount i) s
  end.

Definition changeWorkspaceCount_rest (newCount : Z) (s : State) : State :=
  countLoop newCount 1 (initWorkspaceState newCount (with_workspaceCount newCount s)).

Definition afterStop (k : Caller) (s : State) : State :=
  match k with
  | NoCaller => s
  | CountCaller newCount => changeWorkspaceCount_rest newCount s
  end.

(** ** stopTimer *)

(** Lines 381-399: the reset of the timer object and of [activeWorkspace]. *)
Definition stopTimer_tail (workspace : Z) (l : nat) (s : State) : State :=
  let s1 := with_heap (<[l := Timer.mk None 0]> (heap s)) s in
  if decide (activeWorkspace s1 = Some workspace)
  then with_activeWorkspace None s1
  else s1.

Inductive StopOutcome :=
| StopFinished (s : State)                 (* no await was reached *)
| StopAwaits (l : nat) (entry : Entry.t)   (* waiting at [await addEntry(..)] *)
| StopRejected.                            (* [timer] is undefined: TypeError *)

(** Lines 350-366, up to the await. [tDuration] is the [Date.now()] of the
    duration, [tEnd] the [new Date()] of [endTime], [desc] the trimmed text of
    the description field (empty when the field is missing). *)
Definition stopTimer_enter (workspace tDuration tEnd : Z) (desc : string)
           (s : State) : StopOutcome :=
  match timers s !! workspace with
  | None => StopRejected
  | Some l =>
    match heap s !! l with
    | None => StopRejected
    | Some timer =>
      if truthy (Timer.startTime timer) then
        let t0 := default 0 (Timer.startTime timer) in
        StopAwaits l
          (Entry.mk None t0 tEnd (Timer.elapsed timer + (tDuration - t0))
                    (orDefault desc "No description"))
      else StopFinished (stopTimer_tail workspace l s)
    end
  end.

(** Lines 367-408, after the await: the database has run the insert. *)
Definition stopTimer_resume (workspace : Z) (l : nat) (entry : Entry.t)
           (s : State) : State :=
  let '(rows, entryId) := addEntry workspace entry (db_entries s) in
  let entry' := Entry.mk (Some entryId) (Entry.startTime entry) (Entry.endTime entry)
                         (Entry.duration entry) (Entry.description entry) in
  let s1 := with_db_entries rows s in
  let s2 := with_entries
              (<[workspace := entry' :: default [] (entries s1 !! workspace)]> (entries s1))
              s1 in
  stopTimer_tail workspace l s2.

(** A call of [stopTimer]; [k] is the caller that awaits it, if one does. *)
Definition stopTimer (k : Caller) (workspace tDuration tEnd : Z) (desc : string)
           (s : State) : State :=
  match stopTimer_enter workspace tDuration tEnd desc s with
  | StopFinished s' => afterStop k s'
  | StopAwaits l entry => suspend (StopTimerK workspace l entry k) s
  | StopRejected => s
  end.

(** ** startTimer

    [tDuration], [tEnd] and [desc] are read by the [stopTimer] of the other
    workspace, [tStart] is the [Date.now()] of line 328. The call of
    [stopTimer] is not awaited. When [state.timers[workspace]] is undefined,
    line 328 throws after line 327 has run. *)
Definition startTimer (workspace tDuration tEnd : Z) (desc : string) (tStart : Z)
           (s : State) : State :=
  let s1 := match activeWorkspace s with
            | Some a => if decide (a = workspace) then s
                        else stopTimer NoCaller a tDuration tEnd desc s
            | None => s
            end in
  let s2 := with_activeWorkspace (Some workspace) s1 in
  match timers s2 !! workspace with
  | Some l =>
    match heap s2 !! l with
    | Some timer =>
        with_heap (<[l := Timer.mk (Some tStart) (Timer.elapsed timer)]> (heap s2)) s2
    | None => s2
    end
  | None => s2
  end.

(** ** clearAll *)

(** Lines 604-625: up to [await clearAllEntries()]. *)
Definition clearAll (s : State) : State :=
  if truthy (activeWorkspace s) then
    match timers s !! default 0 (activeWorkspace s) with
    | Some l =>
        suspend ClearAllK
          (with_activeWorkspace None
             (with_heap (<[l := Timer.mk None 0]> (heap s)) s))
    | None => s
    end
  else suspend ClearAllK s.

(** One round of the loop of lines 628-631. *)
Definition clearWorkspace (i : Z) (s : State) : State :=
  allocTimer i (with_entries (<[i := []]> (entries s)) s).

Definition clearAll_resume (s : State) : State :=
  foldl (fun s i => clearWorkspace i s) (with_db_entries [] s)
        (ids (workspaceCount s)).

(** ** changeWorkspaceCount *)

Definition changeWorkspaceCount (newCount tDuration tEnd : Z) (desc : string)
           (s : State) : State :=
  if truthy (activeWorkspace s)
  then stopTimer (CountCaller newCount) (default 0 (activeWorkspace s))
                 tDuration tEnd desc s
  else changeWorkspaceCount_rest newCount s.

(** ** Entries and names: delete, edit, rename *)

(** [entries.filter(e => e.id !== id)] *)
Definition withoutId (id : Z) (l : list Entry.t) : list Entry.t :=
  filter (fun e => Entry.id e ≠ Some id) l.

(** [entry.description = newValue] on the entry that [entries.find] returns. *)
Fixpoint describe (id : Z) (newValue : string) (l : list Entry.t) : list Entry.t :=
  match l with
  | [] => []
  | e :: l' =>
      if decide (Entry.id e = Some id)
      then Entry.mk (Entry.id e) (Entry.startTime e) (Entry.endTime e)
                    (Entry.duration e) newValue :: l'
      else e :: describe id newValue l'
  end.

(** [editEntry] with its [saveEdit]; [text] is the trimmed text of the input.
    Nothing happens when the workspace has no list or the list no entry with
    this id. *)
Definition editEntry (workspace id : Z) (text : string) (s : State) : State :=
  let newValue := orDefault text "No description" in
  match entries s !! workspace with
  | Some l =>
      if existsb (fun e => bool_decide (Entry.id e = Some id)) l
      then suspend (UpdateK id newValue)
             (with_entries (<[workspace := describe id newValue l]> (entries s)) s)
      else s
  | None => s
  end.

(** The confirmed [deleteEntry]. *)
Definition deleteEntry (workspace id : Z) (s : State) : State :=
  suspend (DeleteK workspace id) s.

(** The [change] listener of a name field; [text] is the trimmed text. *)
Definition renameWorkspace (i : Z) (text : string) (s : State) : State :=
  let newName := orDefault text (defaultName i) in
  suspend (RenameK i newName)
    (with_workspaceNames (<[i := newName]> (workspaceNames s)) s).

Definition updateRow (id : Z) (description : string) (r : Row.t) : Row.t :=
  if decide (Row.id r = id)
  then Row.mk (Row.id r) (Row.workspace_id r) (Row.start_time r) (Row.end_time r)
              (Row.duration r) description
  else r.

(** ** The event loop *)

(** The answer to the request a continuation waits for has arrived: the
    database has run the request, and the function goes on. *)
Definition resume (k : Continuation) (s : State) : State :=
  match k with
  | StopTimerK workspace l entry c =>
      afterStop c (stopTimer_resume workspace l entry s)
  | ClearAllK => clearAll_resume s
  | CountExistsK newCount i =>
      match db_workspaces s !! i with
      | Some _ => countEntries newCount i s
      | None => suspend (CountInsertK newCount i (workspaceNames s !! i)) s
      end
  | CountInsertK newCount i name =>
      match name, db_workspaces s !! i with
      | Some nm, None =>
          countEntries newCount i
            (with_db_workspaces (<[i := nm]> (db_workspaces s)) s)
      | _, _ => s
      end
  | CountEntriesK newCount i => countLoop newCount (i + 1) (loadEntries i s)
  | CountSaveK value => with_db_count (Some value) s
  | RenameK i name => with_db_workspaces (<[i := name]> (db_workspaces s)) s
  | DeleteK workspace id =>
      let s1 := with_db_entries (filter (fun r => Row.id r ≠ id) (db_entries s)) s in
      with_entries
        (<[workspace := withoutId id (default [] (entries s1 !! workspace))]> (entries s1))
        s1
  | UpdateK id description =>
      with_db_entries (updateRow id description <$> db_entries s) s
  end.

(** What the user and the event loop can do. The clock readings and the text
    of the description field come with the event. *)
Inductive Event :=
| Start (workspace tDuration tEnd : Z) (desc : string) (tStart : Z)
| Stop (workspace tDuration tEnd : Z) (desc : string)
| Clear
| Count (newCount tDuration tEnd : Z) (desc : string)
| Edit (workspace id : Z) (text : string)
| Delete (workspace id : Z)
| Rename (i : Z) (text : string)
| Resume (n : nat).

Definition handle (ev : Event) (s : State) : State :=
  match ev with
  | Start w tDuration tEnd desc tStart => startTimer w tDuration tEnd desc tStart s
  | Stop w tDuration tEnd desc => stopTimer NoCaller w tDuration tEnd desc s
  | Clear => clearAll s
  | Count newCount tDuration tEnd desc =>
      changeWorkspaceCount newCount tDuration tEnd desc s
  | Edit w id text => editEntry w id text s
  | Delete w id => deleteEntry w id s
  | Rename i text => renameWorkspace i text s
  | Resume n =>
      match pending s !! n with
      | Some k => resume k (with_pending (delete n (pending s)) s)
      | None => s
      end
  end.

(** The page has a start and a stop button, a name field and key shortcuts
    for the workspaces 1 to [workspaceCount] only. *)
Definition enabled (ev : Event) (s : State) : Prop :=
  match ev with
  | Start w _ _ _ _ | Stop w _ _ _ | Rename w _ | Edit w _ _ | Delete w _ =>
      1 <= w <= workspaceCount s
  | Count newCount _ _ _ => 1 <= newCount
  | Clear | Resume _ => True
  end.

Inductive reachable : State -> Prop :=
| reachable_load rows wss cnt :
    reachable (loadState (initialState rows wss cnt))
| reachable_handle s ev :
    reachable s -> enabled ev s -> reachable (handle ev s).

(** ** Running timers and the single-active-timer invariant *)

(** A timer with a non-null [startTime]. *)
Definition running (t : Timer.t) : bool :=
  match Timer.startTime t with
  | Some _ => true
  | None => false
  end.

(** The workspaces among [1..workspaceCount] whose timer has a non-null
    [startTime]. *)
Definition runningAt (s : State) (w : Z) : bool :=
  match timerOf s w with
  | Some t => running t
  | None => false
  end.

Definition runningWorkspaces (s : State) : list Z :=
  filter (fun w => Is_true (runningAt s w)) (ids (workspaceCount s)).

(** The single-active-timer invariant of the data model. *)
Definition singleActive (s : State) : Prop :=
  match runningWorkspaces s with
  | [] => activeWorkspace s = None
  | [w] => activeWorkspace s = Some w
  | _ => False
  end.

(** The elapsed time [updateTimerDisplay] shows at the instant [now]. *)
Definition currentElapsed (t : Timer.t) (now : Z) : Z :=
  Timer.elapsed t +
  (if truthy (Timer.startTime t) then now - default 0 (Timer.startTime t) else 0).

(** Every timer object has an empty accumulator. *)
Definition elapsedZero (s : State) : Prop :=
  Forall (fun t => Timer.elapsed t = 0) (heap s).

(** ** The runtime's [Date] (ECMA-262, 21.4.1)

    Time values are milliseconds since the epoch; the time zone of the
    process is a parameter. *)
Module Date.

Definition msPerDay : Z := 86400000.
Definition msPerHour : Z := 3600000.
Definition msPerMinute : Z := 60000.
Definition msPerSecond : Z := 1000.

Definition Day (t : Z) : Z := t / msPerDay.
Definition TimeWithinDay (t : Z) : Z := t mod msPerDay.

Definition isLeap (y : Z) : bool :=
  (y mod 4 =? 0) && (negb (y mod 100 =? 0) || (y mod 400 =? 0)).

Definition DayFromYear (y : Z) : Z :=
  365 * (y - 1970) + (y - 1969) / 4 - (y - 1901) / 100 + (y - 1601) / 400.

(** The largest [y] with [DayFromYear y <= d]: an estimate, corrected by
    one year either way. *)
Definition yearFromDay (d : Z) : Z :=
  let y := 1970 + (d * 400) / 146097 in
  if d <? DayFromYear y then y - 1
  else if DayFromYear (y + 1) <=? d then y + 1
  else y.

Definition YearFromTime (t : Z) : Z := yearFromDay (Day t).
Definition InLeapYear (t : Z) : Z := if isLeap (YearFromTime t) then 1 else 0.
Definition DayWithinYear (t : Z) : Z := Day t - DayFromYear (YearFromTime t).

(** The day of the year on which month [m] (0 to 11) begins. *)
Definition monthStart (leap m : Z) : Z :=
  match m with
  | 0 => 0
  | 1 => 31
  | 2 => 59 + leap
  | 3 => 90 + leap
  | 4 => 120 + leap
  | 5 => 151 + leap
  | 6 => 181 + leap
  | 7 => 212 + leap
  | 8 => 243 + leap
  | 9 => 273 + leap
  | 10 => 304 + leap
  | _ => 334 + leap
  end.

Definition MonthFromTime (t : Z) : Z :=
  let d := DayWithinYear t in
  let leap := InLeapYear t in
  if d <? 31 then 0
  else if d <? 59 + leap then 1
  else if d <? 90 + leap then 2
  else if d <? 120 + leap then 3
  else if d <? 151 + leap then 4
  else if d <? 181 + leap then 5
  else if d <? 212 + leap then 6
  else if d <? 243 + leap then 7
  else if d <? 273 + leap then 8
  else if d <? 304 + leap then 9
  else if d <? 334 + leap then 10
  else 11.

Definition DateFromTime (t : Z) : Z :=
  DayWithinYear t - monthStart (InLeapYear t) (MonthFromTime t) + 1.

Definition WeekDay (t : Z) : Z := (Day t + 4) mod 7.
Definition HourFromTime (t : Z) : Z := (t / msPerHour) mod 24.
Definition MinFromTime (t : Z) : Z := (t / msPerMinute) mod 60.
Definition SecFromTime (t : Z) : Z := (t / msPerSecond) mod 60.

Definition MakeDay (year month date : Z) : Z :=
  let ym := year + month / 12 in
  let mn := month mod 12 in
  DayFromYear ym + monthStart (if isLeap ym then 1 else 0) mn + date - 1.

Definition MakeDate (day time : Z) : Z := day * msPerDay + time.

(** The time zone: the offset of local time in milliseconds, at a UTC
    time value and at a local one. *)
Record Zone := mkZone {
  offsetAtUTC : Z -> Z;
  offsetAtLocal : Z -> Z
}.

(** A zone without daylight saving, [minutes] east of Greenwich. *)
Definition fixedZone (minutes : Z) : Zone :=
  mkZone (fun _ => minutes * msPerMinute) (fun _ => minutes * msPerMinute).

Definition LocalTime (z : Zone) (t : Z) : Z := t + offsetAtUTC z t.
Definition UTC (z : Zone) (t : Z) : Z := t - offsetAtLocal z t.

Definition getFullYear (z : Zone) (t : Z) : Z := YearFromTime (LocalTime z t).
Definition getMonth (z : Zone) (t : Z) : Z := MonthFromTime (LocalTime z t).
Definition getDate (z : Zone) (t : Z) : Z := DateFromTime (LocalTime z t).

(** [new Date(year, month, date)]; a year from 0 to 99 means 1900 + year. *)
Definition ofLocal (z : Zone) (year month date : Z) : Z :=
  let yr := if (0 <=? year) && (year <=? 99) then 1900 + year else year in
  UTC z (MakeDate (MakeDay yr month date) 0).

(** [d.setDate(date)] and [d.setMonth(month)]: the new time value. *)
Definition setDate (z : Zone) (t date : Z) : Z :=
  let lt := LocalTime z t in
  UTC z (MakeDate (MakeDay (YearFromTime lt) (MonthFromTime lt) date)
                  (TimeWithinDay lt)).

Definition setMonth (z : Zone) (t month : Z) : Z :=
  let lt := LocalTime z t in
  UTC z (MakeDate (MakeDay (YearFromTime lt) month (DateFromTime lt))
                  (TimeWithinDay lt)).

(** [padStart(n, ..)] with the digit zero as the filler. *)
Fixpoint zeros (n : nat) : string :=
  match n with
  | O => EmptyString
  | S n' => String "0" (zeros n')
  end.

Definition padStart (n : nat) (s : string) : string :=
  zeros (n - String.length s) +:+ s.

Definition pad (n : nat) (x : Z) : string := padStart n (pretty x).

Definition monthName (m : Z) : string :=
  match m with
  | 0 => "Jan" | 1 => "Feb" | 2 => "Mar" | 3 => "Apr" | 4 => "May"
  | 5 => "Jun" | 6 => "Jul" | 7 => "Aug" | 8 => "Sep" | 9 => "Oct"
  | 10 => "Nov" | _ => "Dec"
  end.

Definition dayName (d : Z) : string :=
  match d with
  | 0 => "Sun" | 1 => "Mon" | 2 => "Tue" | 3 => "Wed" | 4 => "Thu"
  | 5 => "Fri" | _ => "Sat"
  end.

(** [d.toDateString()]: the local calendar day, as [Tue Jan 02 2024]. *)
Definition toDateString (z : Zone) (t : Z) : string :=
  let lt := LocalTime z t in
  let yv := YearFromTime lt in
  dayName (WeekDay lt) +:+ " " +:+ monthName (MonthFromTime lt) +:+ " " +:+
  pad 2 (DateFromTime lt) +:+ " " +:+
  (if 0 <=? yv then EmptyString else "-") +:+ pad 4 (Z.abs yv).

(** The text of [d.toISOString()] before its letter T: the UTC calendar day. *)
Definition isoDate (t : Z) : string :=
  let y := YearFromTime t in
  (if (0 <=? y) && (y <=? 9999) then pad 4 y
   else (if 0 <=? y then "+" else "-") +:+ pad 6 (Z.abs y)) +:+
  "-" +:+ pad 2 (MonthFromTime t + 1) +:+ "-" +:+ pad 2 (DateFromTime t).

(** The text of [d.toTimeString()] before its first space: the local time
    of day. *)
Definition localTimeOfDay (z : Zone) (t : Z) : string :=
  let lt := LocalTime z t in
  pad 2 (HourFromTime lt) +:+ ":" +:+ pad 2 (MinFromTime lt) +:+ ":" +:+
  pad 2 (SecFromTime lt).

End Date.

(** ** Formatting *)

(** [formatTime(ms)]; [%] is the remainder that takes the sign of the
    dividend. *)
Definition formatTime (ms : Z) : string :=
  let totalSeconds := ms / 1000 in
  let hours := totalSeconds / 3600 in
  let minutes := Z.rem totalSeconds 3600 / 60 in
  let seconds := Z.rem totalSeconds 60 in
  Date.pad 2 hours +:+ ":" +:+ Date.pad 2 minutes +:+ ":" +:+ Date.pad 2 seconds.

Definition formatDateCSV (date : Z) : string := Date.isoDate date.

Definition formatTimeCSV (z : Date.Zone) (date : Z) : string :=
  Date.localTimeOfDay z date.

(** ** updateTotalTime *)

(** Lines 229-233: the entries of one workspace that began today. *)
Definition addToday (z : Date.Zone) (today : string) (total : Z)
           (l : list Entry.t) : Z :=
  foldl (fun total entry =>
           if String.eqb (Date.toDateString z (Entry.startTime entry)) today
           then total + Entry.duration entry
           else total) total l.

(** The number that [updateTotalTime] formats into the page; [tToday] is the
    [new Date()] of line 223, [tNow] the [Date.now()] of line 239. *)
Definition updateTotalTime (z : Date.Zone) (tToday tNow : Z) (s : State) : Z :=
  let today := Date.toDateString z tToday in
  foldl (fun total i =>
           let total1 := match entries s !! i with
                         | Some l => addToday z today total l
                         | None => total
                         end in
           if decide (activeWorkspace s = Some i) then
             match timerOf s i with
             | Some timer =>
                 total1 + (Timer.elapsed timer +
                           (if truthy (Timer.startTime timer)
                            then tNow - default 0 (Timer.startTime timer)
                            else 0))
             | None => total1
             end
           else total1)
        0 (ids (workspaceCount s)).

(** ** The records view *)

Module Record.
(** The objects [loadAllRecords] builds. *)
Record t := mk {
  id : Z;
  workspaceId : Z;
  workspaceName : string;
  startTime : Z;
  endTime : Z;
  duration : Z;
  description : string
}.
End Record.

(** [loadAllRecords], once the database has answered. *)
Definition loadAllRecords (s : State) : list Record.t :=
  (fun r =>
     Record.mk (Row.id r) (Row.workspace_id r)
               (orDefault (default EmptyString (db_workspaces s !! Row.workspace_id r))
                          (defaultName (Row.workspace_id r)))
               (Row.start_time r) (Row.end_time r) (Row.duration r)
               (orDefault (Row.description r) "No description"))
  <$> sortWith (fun a b => Row.start_time b - Row.start_time a) (db_entries s).

(** [recordsFilter]: the values of the two select fields. *)
Inductive WorkspaceScope := AllWorkspaces | Workspace (wsId : Z).
Inductive DateScope := AllDates | Today | Week | Month.
Record RecordsFilter := mkFilter { workspace : WorkspaceScope; date : DateScope }.

(** [filterRecords(records)]; [recordsFilter] and the [new Date()] of line 745
    are arguments. *)
Definition filterRecords (z : Date.Zone) (now : Z) (recordsFilter : RecordsFilter)
           (records : list Record.t) : list Record.t :=
  let filtered :=
    match workspace recordsFilter with
    | AllWorkspaces => records
    | Workspace wsId => filter (fun r => Record.workspaceId r = wsId) records
    end in
  let today := Date.ofLocal z (Date.getFullYear z now) (Date.getMonth z now)
                            (Date.getDate z now) in
  match date recordsFilter with
  | Today => filter (fun r => today <= Record.startTime r) filtered
  | Week =>
      let weekAgo := Date.setDate z today (Date.getDate z today - 7) in
      filter (fun r => weekAgo <= Record.startTime r) filtered
  | Month =>
      let monthAgo := Date.setMonth z today (Date.getMonth z today - 1) in
      filter (fun r => monthAgo <= Record.startTime r) filtered
  | AllDates => filtered
  end.

(** Lines 778-785 of [loadRecordsView]: the summary over the filtered
    records. [/] is the division of numbers, here of rationals. *)
Record Summary := mkSummary {
  totalEntries : nat;
  totalDuration : Z;
  avgDuration : Q
}.

Definition loadRecordsView_summary (filtered : list Record.t) : Summary :=
  let totalEntries := length filtered in
  let totalDuration := foldl (fun sum r => sum + Record.duration r) 0 filtered in
  let avgDuration :=
    if (0 <? totalEntries)%nat
    then (inject_Z totalDuration / inject_Z (Z.of_nat totalEntries))%Q
    else 0%Q in
  mkSummary totalEntries totalDuration avgDuration.

(** ** exportToCSV *)

Module Csv.
(** The objects pushed to [allEntries]. *)
Record t := mk {
  workspace : string;
  date : string;
  startTime : string;
  endTime : string;
  duration : string;
  durationSeconds : Z;
  description : string
}.
End Csv.

Definition quote : ascii := ascii_of_nat 34.
Definition newline : string := String (ascii_of_nat 10) EmptyString.

(** The [replace] of line 584: every double quote is written twice. *)
Fixpoint doubleQuotes (s : string) : string :=
  match s with
  | EmptyString => EmptyString
  | String c s' =>
      if Ascii.eqb c quote then String quote (String quote (doubleQuotes s'))
      else String c (doubleQuotes s')
  end.

(** The template of lines 578 and 584: [s] between two double quotes. *)
Definition quoted (s : string) : string :=
  String quote (s +:+ String quote EmptyString).

(** [parts.join(sep)] *)
Fixpoint join (sep : string) (parts : list string) : string :=
  match parts with
  | [] => EmptyString
  | [p] => p
  | p :: rest => p +:+ sep +:+ join sep rest
  end.

(** [a.localeCompare(b)] on the rendered dates and times, whose characters
    are digits, [-], [+] and [:]: the order of the code units. *)
Definition localeCompare (a b : string) : Z :=
  match String.compare a b with
  | Lt => -1
  | Eq => 0
  | Gt => 1
  end.

(** The comparator of line 564. *)
Definition byDateAndTime (a b : Csv.t) : Z :=
  let dateCompare := localeCompare (Csv.date b) (Csv.date a) in
  if negb (dateCompare =? 0) then dateCompare
  else localeCompare (Csv.startTime b) (Csv.startTime a).

(** Lines 547-561. *)
Definition csvEntry (z : Date.Zone) (name : string) (entry : Entry.t) : Csv.t :=
  Csv.mk name
         (formatDateCSV (Entry.startTime entry))
         (formatTimeCSV z (Entry.startTime entry))
         (formatTimeCSV z (Entry.endTime entry))
         (formatTime (Entry.duration entry))
         (Entry.duration entry / 1000)
         (Entry.description entry).

Definition allEntries (z : Date.Zone) (s : State) : list Csv.t :=
  i ← ids (workspaceCount s);
  match entries s !! i with
  | Some l =>
      csvEntry z (orDefault (default EmptyString (workspaceNames s !! i))
                            (defaultName i)) <$> l
  | None => []
  end.

(** Lines 577-585: one line of the file. *)
Definition csvLine (e : Csv.t) : string :=
  join "," [quoted (Csv.workspace e); Csv.date e; Csv.startTime e; Csv.endTime e;
            Csv.duration e; pretty (Csv.durationSeconds e);
            quoted (doubleQuotes (Csv.description e))].

Definition headers : list string :=
  ["Workspace"; "Date"; "Start Time"; "End Time"; "Duration";
   "Duration (seconds)"; "Description"].

Inductive ExportResult :=
| Alert (message : string)                 (* [alert(..)], and no file *)
| Download (filename csv : string).        (* the file handed to the browser *)

(** [tNow] is the [new Date()] of the file name. *)
Definition exportToCSV (z : Date.Zone) (tNow : Z) (s : State) : ExportResult :=
  let sorted := sortWith byDateAndTime (allEntries z s) in
  match sorted with
  | [] => Alert "No entries to export"
  | _ =>
      let rows := csvLine <$> sorted in
      let csv := join newline (join "," headers :: rows) in
      Download ("clockr-export-" +:+ formatDateCSV tNow +:+ ".csv") csv
  end.

(** ** Reading a decimal text back

    Used to show that the texts of dates determine the dates. *)
Definition digitValue (c : ascii) : N := (N_of_ascii c - 48)%N.

Fixpoint readDigits (acc : N) (s : string) : N :=
  match s with
  | EmptyString => acc
  | String c s' => readDigits (acc * 10 + digitValue c)%N s'
  end.

(** ** The words of the specification *)

Definition sumZ (l : list Z) : Z := foldr Z.add 0 l.

(** An entry whose [startTime] falls on the calendar day of [tToday]: the
    two instants lie between the same two local midnights. *)
Definition startedToday (z : Date.Zone) (tToday : Z) (e : Entry.t) : bool :=
  Date.Day (Date.LocalTime z (Entry.startTime e))
  =? Date.Day (Date.LocalTime z tToday).

(** The entries of today, in every workspace. *)
Definition todaysEntries (z : Date.Zone) (tToday : Z) (s : State) : list Entry.t :=
  i ← ids (workspaceCount s);
  filter (fun e => Is_true (startedToday z tToday e)) (default [] (entries s !! i)).

(** The live elapsed time of the active workspace. *)
Definition liveElapsed (tNow : Z) (s : State) : Z :=
  match activeWorkspace s with
  | Some a =>
      match timerOf s a with
      | Some t => currentElapsed t tNow
      | None => 0
      end
  | None => 0
  end.

(** The live time that the round of workspace [i] adds in the loop of
    [updateTotalTime]. *)
Definition liveAt (tNow : Z) (s : State) (i : Z) : Z :=
  if decide (activeWorkspace s = Some i) then
    match timerOf s i with
    | Some timer => currentElapsed timer tNow
    | None => 0
    end
  else 0.

(** [totalToday] of the EntryAggregator. *)
Definition totalToday (z : Date.Zone) (tToday tNow : Z) (s : State) : Z :=
  sumZ (Entry.duration <$> todaysEntries z tToday s) + liveElapsed tNow s.

(** ** Scenarios *)

(** Two workspaces over an empty database. *)
Definition twoWorkspaces : State := loadState (initialState [] ∅ (Some 2)).

(** Workspace 1 was started at the instant 1000. *)
Definition firstRunning : State :=
  handle (Start 1 1000 1000 EmptyString 1000) twoWorkspaces.

(** Workspace 2 is started at the instant 5000 while workspace 1 runs. *)
Definition switched : State :=
  handle (Start 2 5000 5000 "write" 5000) firstRunning.

(** The insert of the entry of workspace 1 has been answered. *)
Definition settled : State := handle (Resume 0) switched.

(** Clear All is confirmed while workspace 1 runs, workspace 1 is started
    again at the instant 7000 before the database has answered, and then the
    answer arrives. *)
Definition clearedUnderStart : State :=
  handle (Resume 0)
    (handle (Start 1 7000 7000 EmptyString 7000)
       (handle Clear firstRunning)).

(** Workspace 1 is stopped; the two clock readings of [stopTimer] are one
    millisecond apart. *)
Definition stoppedLate : State :=
  handle (Resume 0) (handle (Stop 1 2000 2001 EmptyString) firstRunning).

(** Five hours west of Greenwich. *)
Definition newYork : Date.Zone := Date.fixedZone (-300).

(** One workspace, whose name has a double quote between the letters a and
    b; an entry from 2024-01-02T04:30:00Z to
    05:30:00Z, which is the evening of January 1 in [newYork]. *)
Definition eveningWork : State :=
  handle (Resume 0)
    (handle (Stop 1 1704173400000 1704173400000 "notes")
       (handle (Start 1 0 0 EmptyString 1704169800000)
          (handle (Resume 0)
             (handle (Rename 1 ("a" +:+ String quote "b"))
                (loadState (initialState [] ∅ None)))))).

(** Two workspaces. The count selector is set to 3; while
    [changeWorkspaceCount] awaits the database, workspace 1 is started at the
    instant 1000; then the eight answers arrive, and [changeWorkspaceCount]
    ends with [renderWorkspaces()] (line 674), which draws every workspace
    anew from [createWorkspaceHTML]: a start button without [disabled]
    (line 258) and a stop button with it (line 259). *)
Definition redrawnRunning : State :=
  Nat.iter 8 (handle (Resume 0))
    (handle (Start 1 1000 1000 EmptyString 1000)
       (handle (Count 3 0 0 EmptyString) twoWorkspaces)).

(** The start button of workspace 1 is clicked at the instant 7000. *)
Definition restarted : State :=
  handle (Start 1 7000 7000 EmptyString 7000) redrawnRunning.

(** Workspace 1 is stopped at the instant 9000, and the insert answered. *)
Definition restartedStopped : State :=
  handle (Resume 0) (handle (Stop 1 9000 9000 EmptyString) restarted).

(** Three workspaces. Workspace 3 is started at the instant 1000; the count
    selector is set to 1 at 2000, and [changeWorkspaceCount] awaits its
    [stopTimer(3)]; workspace 2, still on the page, is started at 3000; then
    the insert of [changeWorkspaceCount]'s stop is answered, and
    [changeWorkspaceCount] sets the count to 1. *)
Definition raceState : State :=
  handle (Resume 0)
    (handle (Start 2 3000 3000 EmptyString 3000)
       (handle (Count 1 2000 2000 EmptyString)
          (handle (Start 3 1000 1000 EmptyString 1000)
             (loadState (initialState [] ∅ (Some 3)))))).

(** The four remaining answers have arrived: nothing is suspended, and the
    page shows workspace 1 only. *)
Definition raceSettled : State := Nat.iter 4 (handle (Resume 0)) raceState.

(** ** Workspaces and their objects *)

(** Every reference in [state.timers] is to a timer object, and no two
    workspaces share one. *)
Definition timersSound (s : State) : Prop :=
  (forall w l, timers s !! w = Some l -> (l < length (heap s))%nat) /\
  (forall w1 w2 l, timers s !! w1 = Some l -> timers s !! w2 = Some l -> w1 = w2).

(** Workspace [w] has a timer, an entry list and a name that is not empty. *)
Definition equipped (s : State) (w : Z) : Prop :=
  is_Some (timers s !! w) /\
  is_Some (entries s !! w) /\
  exists name, workspaceNames s !! w = Some name /\ name <> EmptyString.

(** The workspaces 1 to [count] are equipped. *)
Definition equippedTo (count : Z) (s : State) : Prop :=
  timersSound s /\ forall w, 1 <= w <= count -> equipped s w.

(** The workspaces the page shows are equipped. *)
Definition allEquipped (s : State) : Prop := equippedTo (workspaceCount s) s.

(** ** Answers that come before the next action *)

(** The states reached when the user acts only while no function is
    suspended: every answer of the database arrives before the next click or
    key. *)
Inductive orderly : State -> Prop :=
| orderly_load rows wss cnt :
    orderly (loadState (initialState rows wss cnt))
| orderly_resume s n :
    orderly s -> orderly (handle (Resume n) s)
| orderly_event s ev :
    orderly s -> pending s = [] -> enabled ev s -> orderly (handle ev s).

(** Only the active workspace has a running timer, and it has one. *)
Definition oneRunsOn (count : Z) (active : option Z) (tm : gmap Z nat)
           (h : list Timer.t) : Prop :=
  (forall w l t, tm !! w = Some l -> h !! l = Some t -> running t = true ->
                 active = Some w) /\
  (forall a, active = Some a ->
             1 <= a <= count /\
             exists l t, tm !! a = Some l /\ h !! l = Some t /\ running t = true).

Definition oneRuns (s : State) : Prop :=
  oneRunsOn (workspaceCount s) (activeWorkspace s) (timers s) (heap s).

(** No workspace has a running timer. *)
Definition nobodyRuns (s : State) : Prop :=
  forall w l t, timers s !! w = Some l -> heap s !! l = Some t -> running t = false.

(** A continuation that touches neither the timers nor the active
    workspace. *)
Definition plain (k : Continuation) : Prop :=
  match k with
  | StopTimerK _ _ _ _ | ClearAllK => False
  | _ => True
  end.

(** What holds of an orderly state, by what is suspended in it. *)
Definition orderlyInv (s : State) : Prop :=
  allEquipped s /\
  ((pending s = [] /\ oneRuns s) \/
   (exists w l e c,
      pending s = [StopTimerK w l e c] /\
      timers s !! w = Some l /\
      (c <> NoCaller -> activeWorkspace s = Some w) /\
      oneRunsOn (workspaceCount s)
                (if decide (activeWorkspace s = Some w) then None
                 else activeWorkspace s)
                (timers s) (<[l := Timer.mk None 0]> (heap s))) \/
   (pending s = [ClearAllK] /\ oneRuns s /\ activeWorkspace s = None) \/
   (exists k, pending s = [k] /\ plain k /\ oneRuns s)).

(** ** Entries, apart from their description *)

(** What an edit must not touch: id, start, end and duration. *)
Definition entryTimes (e : Entry.t) : option Z * Z * Z * Z :=
  (Entry.id e, Entry.startTime e, Entry.endTime e, Entry.duration e).

Definition rowTimes (r : Row.t) : Z * Z * Z * Z * Z :=
  (Row.id r, Row.workspace_id r, Row.start_time r, Row.end_time r,
   Row.duration r).

(** ** Reading a quoted field back

    A reader of one quoted field of a CSV text, used to show that the
    description column of the export can be read back. [readField] starts
    after the opening double quote: two double quotes in a row stand for one
    double quote of the text, and a double quote that no other one follows
    ends the field. The result is the text of the field and what follows the
    field; there is none when the field is not closed. *)
Fixpoint readField (s : string) : option (string * string) :=
  match s with
  | EmptyString => None
  | String c s' =>
      if Ascii.eqb c quote then
        match s' with
        | EmptyString => Some (EmptyString, EmptyString)
        | String c' s'' =>
            if Ascii.eqb c' quote
            then (fun p => (String quote (fst p), snd p)) <$> readField s''
            else Some (EmptyString, s')
        end
      else (fun p => (String c (fst p), snd p)) <$> readField s'
  end.

(** A field that starts with its opening double quote. *)
Definition readQuoted (s : string) : option (string * string) :=
  match s with
  | String c s' => if Ascii.eqb c quote then readField s' else None
  | EmptyString => None
  end.

(** * Properties *)

(** ** The elapsed accumulator is never incremented *)

Create HintDb elapsed.

Lemma foldl_preserves {A} (P : State -> Prop) (f : State -> A -> State) (l : list A) :
  (forall s a, P s -> P (f s a)) -> forall s, P s -> P (foldl f s l).
Proof.
  intros Hf. induction l as [|a l IH]; intros s Hs; simpl; auto.
Qed.

Lemma elapsedZero_alloc i s : elapsedZero s -> elapsedZero (allocTimer i s).
Proof.
  unfold elapsedZero, allocTimer. simpl. intros H.
  apply Forall_app. split; [exact H|]. repeat constructor.
Qed.

Lemma elapsedZero_reset l s :
  elapsedZero s -> elapsedZero (with_heap (<[l := Timer.mk None 0]> (heap s)) s).
Proof.
  unfold elapsedZero. simpl. intros H. apply Forall_insert; [exact H|reflexivity].
Qed.

Lemma elapsedZero_initWorkspace i s : elapsedZero s -> elapsedZero (initWorkspace i s).
Proof.
  intros H. unfold initWorkspace.
  assert (H1 : elapsedZero (match timers s !! i with
                            | Some _ => s
                            | None => allocTimer i s
                            end)).
  { destruct (timers s !! i); auto using elapsedZero_alloc. }
  revert H1. generalize (match timers s !! i with
                         | Some _ => s
                         | None => allocTimer i s
                         end).
  intros s1 H1. cbv zeta.
  destruct (entries s1 !! i); simpl;
    repeat case_match; exact H1.
Qed.

Lemma elapsedZero_initWorkspaceState n s :
  elapsedZero s -> elapsedZero (initWorkspaceState n s).
Proof.
  unfold initWorkspaceState. apply foldl_preserves.
  intros; by apply elapsedZero_initWorkspace.
Qed.

Lemma elapsedZero_suspend k s : elapsedZero s -> elapsedZero (suspend k s).
Proof. exact id. Qed.

Lemma elapsedZero_countLoop n i s : elapsedZero s -> elapsedZero (countLoop n i s).
Proof. unfold countLoop. by destruct (i <=? n). Qed.

Lemma elapsedZero_countEntries n i s : elapsedZero s -> elapsedZero (countEntries n i s).
Proof.
  unfold countEntries. intros H.
  destruct (entries s !! i) as [[|e l]|]; auto using elapsedZero_countLoop.
Qed.

Lemma elapsedZero_rest n s : elapsedZero s -> elapsedZero (changeWorkspaceCount_rest n s).
Proof.
  intros H. unfold changeWorkspaceCount_rest.
  apply elapsedZero_countLoop, elapsedZero_initWorkspaceState. exact H.
Qed.

Lemma elapsedZero_afterStop k s : elapsedZero s -> elapsedZero (afterStop k s).
Proof. destruct k; simpl; auto using elapsedZero_rest. Qed.

Lemma elapsedZero_tail w l s : elapsedZero s -> elapsedZero (stopTimer_tail w l s).
Proof.
  intros H. unfold stopTimer_tail. cbv zeta.
  case_decide; by apply (elapsedZero_reset l).
Qed.

Lemma elapsedZero_stopTimer_resume w l e s :
  elapsedZero s -> elapsedZero (stopTimer_resume w l e s).
Proof.
  intros H. unfold stopTimer_resume, addEntry. cbv zeta beta iota.
  apply elapsedZero_tail. exact H.
Qed.

Lemma elapsedZero_stopTimer k w tD tE desc s :
  elapsedZero s -> elapsedZero (stopTimer k w tD tE desc s).
Proof.
  intros H. unfold stopTimer, stopTimer_enter.
  destruct (timers s !! w) as [l|]; [|exact H].
  destruct (heap s !! l) as [timer|]; [|exact H].
  destruct (truthy (Timer.startTime timer)); [exact H|].
  by apply elapsedZero_afterStop, elapsedZero_tail.
Qed.

Lemma elapsedZero_startTimer w tD tE desc tS s :
  elapsedZero s -> elapsedZero (startTimer w tD tE desc tS s).
Proof.
  intros H. unfold startTimer.
  set (s1 := match activeWorkspace s with
             | Some a => if decide (a = w) then s else stopTimer NoCaller a tD tE desc s
             | None => s
             end).
  assert (H1 : elapsedZero s1).
  { subst s1. destruct (activeWorkspace s) as [a|]; [|exact H].
    case_decide; [exact H|]. by apply elapsedZero_stopTimer. }
  clearbody s1. cbv zeta. simpl.
  destruct (timers s1 !! w) as [l|]; [|exact H1].
  destruct (heap s1 !! l) as [timer|] eqn:Hl; [|exact H1].
  unfold elapsedZero. simpl. apply Forall_insert; [exact H1|]. simpl.
  eapply (Forall_lookup_1 _ _ _ _ H1 Hl).
Qed.

Lemma elapsedZero_clearAll s : elapsedZero s -> elapsedZero (clearAll s).
Proof.
  intros H. unfold clearAll.
  destruct (truthy (activeWorkspace s)); [|exact H].
  destruct (timers s !! _) as [l|]; [|exact H].
  by apply (elapsedZero_reset l).
Qed.

Lemma elapsedZero_clearAll_resume s : elapsedZero s -> elapsedZero (clearAll_resume s).
Proof.
  intros H. unfold clearAll_resume. apply foldl_preserves; [|exact H].
  intros s' i H'. unfold clearWorkspace. by apply elapsedZero_alloc.
Qed.

#[local] Hint Resolve elapsedZero_alloc elapsedZero_reset elapsedZero_initWorkspaceState
  elapsedZero_suspend elapsedZero_countLoop elapsedZero_countEntries elapsedZero_rest
  elapsedZero_afterStop elapsedZero_tail elapsedZero_stopTimer_resume
  elapsedZero_stopTimer elapsedZero_startTimer elapsedZero_clearAll
  elapsedZero_clearAll_resume : elapsed.

Lemma elapsedZero_resume k s : elapsedZero s -> elapsedZero (resume k s).
Proof.
  intros H.
  destruct k as [w l e c| |c i|c i name|c i|v|i name|w i|i d]; simpl;
    repeat case_match; auto with elapsed.
Qed.

Lemma elapsedZero_handle ev s : elapsedZero s -> elapsedZero (handle ev s).
Proof.
  intros H.
  destruct ev as [w tD tE desc tS|w tD tE desc| |c tD tE desc|w i text|w i|i text|n];
    simpl; unfold changeWorkspaceCount, editEntry;
    repeat case_match; auto using elapsedZero_resume with elapsed.
Qed.

Lemma elapsedZero_loadState rows wss cnt :
  elapsedZero (loadState (initialState rows wss cnt)).
Proof.
  unfold loadState. cbv zeta.
  apply foldl_preserves; [intros s i H; exact H|].
  apply foldl_preserves.
  { intros s i H. unfold ensureWorkspace. by repeat case_match. }
  apply elapsedZero_initWorkspaceState.
  destruct cnt; constructor.
Qed.

Lemma reachable_elapsedZero s : reachable s -> elapsedZero s.
Proof.
  induction 1 as [rows wss cnt|s ev _ IH _].
  - apply elapsedZero_loadState.
  - by apply elapsedZero_handle.
Qed.

(** ** Scenarios are reachable *)

Lemma reachable_twoWorkspaces : reachable twoWorkspaces.
Proof. apply reachable_load. Qed.

Lemma reachable_firstRunning : reachable firstRunning.
Proof.
  apply reachable_handle; [apply reachable_twoWorkspaces|].
  vm_compute. split; discriminate.
Qed.

Lemma reachable_switched : reachable switched.
Proof.
  apply reachable_handle; [apply reachable_firstRunning|].
  vm_compute. split; discriminate.
Qed.

(** ** C10 *)

(** C10. In every reachable state the elapsed accumulator of every timer
    object is 0: the timer of each workspace shows [now - startTime] while it
    runs and 0 otherwise, and the duration that [stopTimer] gives an entry is
    the clock reading minus [startTime], with no banked term. *)
Theorem elapsed_always_zero (s : State) :
  reachable s ->
  Forall (fun t => Timer.elapsed t = 0) (heap s) /\
  (forall w t, timerOf s w = Some t ->
     Timer.elapsed t = 0 /\
     forall now, currentElapsed t now =
                 if truthy (Timer.startTime t)
                 then now - default 0 (Timer.startTime t) else 0) /\
  (forall w tDuration tEnd desc l e,
     stopTimer_enter w tDuration tEnd desc s = StopAwaits l e ->
     Entry.duration e = tDuration - Entry.startTime e).
Proof.
  intros Hr. pose proof (reachable_elapsedZero s Hr) as Hz.
  assert (Hl : forall l t, heap s !! l = Some t -> Timer.elapsed t = 0).
  { intros l t Ht. exact (Forall_lookup_1 _ _ _ _ Hz Ht). }
  split; [exact Hz|]. split.
  - intros w t Ht. unfold timerOf in Ht.
    destruct (timers s !! w) as [l|]; [|discriminate].
    pose proof (Hl l t Ht) as He. split; [exact He|].
    intros now. unfold currentElapsed. rewrite He. lia.
  - intros w tD tE desc l e. unfold stopTimer_enter.
    destruct (timers s !! w) as [l'|]; [|discriminate].
    destruct (heap s !! l') as [timer|] eqn:Ht; [|discriminate].
    destruct (truthy (Timer.startTime timer)); [|discriminate].
    intros [= <- <-]. simpl. rewrite (Hl l' timer Ht). lia.
Qed.

(** The invariant at the state in which workspace 1 runs. *)
Lemma elapsed_always_zero_witness :
  reachable firstRunning /\
  Forall (fun t => Timer.elapsed t = 0) (heap firstRunning) /\
  (forall w t, timerOf firstRunning w = Some t ->
     Timer.elapsed t = 0 /\
     forall now, currentElapsed t now =
                 if truthy (Timer.startTime t)
                 then now - default 0 (Timer.startTime t) else 0) /\
  (forall w tDuration tEnd desc l e,
     stopTimer_enter w tDuration tEnd desc firstRunning = StopAwaits l e ->
     Entry.duration e = tDuration - Entry.startTime e).
Proof.
  assert (H : reachable firstRunning).
  { apply reachable_handle; [apply reachable_load|].
    vm_compute. split; discriminate. }
  split; [exact H|]. exact (elapsed_always_zero firstRunning H).
Defined.

(** ** Switching from one workspace to another *)

(** [startTimer] on a workspace other than the running one: the entry of
    the running workspace is built and its insert requested, and the new
    workspace is started at once; the old timer object is untouched. *)
Lemma startTimer_other_running (s : State) (a b : Z) (la lb : nat)
      (ta tb : Timer.t) (tDuration tEnd : Z) (desc : string) (tStart : Z) :
  activeWorkspace s = Some a -> a <> b ->
  timers s !! a = Some la -> heap s !! la = Some ta ->
  truthy (Timer.startTime ta) = true ->
  timers s !! b = Some lb -> heap s !! lb = Some tb ->
  startTimer b tDuration tEnd desc tStart s =
  with_heap (<[lb := Timer.mk (Some tStart) (Timer.elapsed tb)]> (heap s))
    (with_activeWorkspace (Some b)
       (suspend (StopTimerK a la
                   (Entry.mk None (default 0 (Timer.startTime ta)) tEnd
                             (Timer.elapsed ta +
                              (tDuration - default 0 (Timer.startTime ta)))
                             (orDefault desc "No description"))
                   NoCaller) s)).
Proof.
  intros Ha Hab Hla Hta Hrun Hlb Htb.
  unfold startTimer. rewrite Ha.
  destruct (decide (a = b)) as [->|_]; [done|].
  unfold stopTimer, stopTimer_enter. rewrite Hla, Hta, Hrun.
  cbv zeta. simpl. rewrite Hlb, Htb. reflexivity.
Qed.

(** When the insert is answered next, the switch is complete: the old
    workspace is stopped with one new entry, in its list and in the database,
    and the new workspace is the only one that runs. *)
Lemma switch_settles (s : State) (a b : Z) (la lb : nat) (ta tb : Timer.t)
      (tDuration tEnd : Z) (desc : string) (tStart : Z) :
  pending s = [] ->
  activeWorkspace s = Some a -> a <> b -> la <> lb ->
  timers s !! a = Some la -> heap s !! la = Some ta ->
  truthy (Timer.startTime ta) = true ->
  timers s !! b = Some lb -> heap s !! lb = Some tb ->
  let s' := handle (Resume 0) (startTimer b tDuration tEnd desc tStart s) in
  let t0 := default 0 (Timer.startTime ta) in
  let entryId := lastInsertId (db_entries s) in
  let duration := Timer.elapsed ta + (tDuration - t0) in
  let description := orDefault desc "No description" in
  pending s' = [] /\
  activeWorkspace s' = Some b /\
  timerOf s' a = Some (Timer.mk None 0) /\
  timerOf s' b = Some (Timer.mk (Some tStart) (Timer.elapsed tb)) /\
  entries s' !! a
  = Some (Entry.mk (Some entryId) t0 tEnd duration description
          :: default [] (entries s !! a)) /\
  db_entries s'
  = db_entries s ++ [Row.mk entryId a t0 tEnd duration description].
Proof.
  intros Hk Ha Hab Hl Hla Hta Hrun Hlb Htb.
  rewrite (startTimer_other_running s a b la lb ta tb) by done.
  cbv zeta. unfold handle, suspend. simpl. rewrite Hk. simpl.
  unfold stopTimer_resume, addEntry, stopTimer_tail. cbv zeta beta iota. simpl.
  destruct (decide (Some b = Some a)) as [[= ->]|_]; [done|]. simpl.
  pose proof (lookup_lt_Some _ _ _ Hta) as Hlen_a.
  pose proof (lookup_lt_Some _ _ _ Htb) as Hlen_b.
  repeat split.
  - unfold timerOf. simpl. rewrite Hla.
    apply list_lookup_insert_eq. by rewrite length_insert.
  - unfold timerOf. simpl. rewrite Hlb.
    rewrite list_lookup_insert_ne by done.
    by apply list_lookup_insert_eq.
  - apply lookup_insert_eq.
Qed.

(** The answer of the database to Clear All replaces the timer objects: a
    workspace started while the answer was awaited stays the active one, with
    a timer that does not run. *)
Lemma clearAll_resume_after_start :
  reachable clearedUnderStart /\
  pending clearedUnderStart = [] /\
  activeWorkspace clearedUnderStart = Some 1 /\
  timerOf clearedUnderStart 1 = Some (Timer.mk None 0) /\
  ~ singleActive clearedUnderStart.
Proof.
  split.
  { unfold clearedUnderStart.
    do 3 (apply reachable_handle; [|vm_compute; try exact I; split; discriminate]).
    apply reachable_firstRunning. }
  split; [vm_compute; reflexivity|].
  split; [vm_compute; reflexivity|].
  split; [vm_compute; reflexivity|].
  vm_compute. discriminate.
Qed.

(** The state in which the two timers run together is left when the insert
    is answered. *)
Lemma settled_singleActive : singleActive settled.
Proof. vm_compute. reflexivity. Qed.

(** C1. The single-active-timer invariant fails between the call of
    [stopTimer] that [startTimer] makes and the answer to its insert: after
    [startTimer(2)] while workspace 1 runs, a reachable state has the timers
    of workspaces 1 and 2 both with a non-null [startTime]. *)
Theorem switch_leaves_two_running :
  reachable switched /\
  runningWorkspaces switched = [1; 2] /\
  activeWorkspace switched = Some 2 /\
  ~ singleActive switched.
Proof.
  split; [apply reachable_switched|].
  split; [vm_compute; reflexivity|].
  split; [vm_compute; reflexivity|].
  vm_compute. exact id.
Qed.

(** C2. [startTimer(2)] while workspace 1 runs sets the [startTime] of
    workspace 2 before workspace 1 is stopped: when it returns, timer 1 still
    runs and its entry is in neither the entry list nor the database, only in
    the suspended [stopTimer]; the entry (duration 4000) and the reset of
    timer 1 come when the insert is answered. *)
Theorem switch_starts_before_stop_completes :
  timerOf firstRunning 1 = Some (Timer.mk (Some 1000) 0) /\
  activeWorkspace firstRunning = Some 1 /\
  timerOf switched 2 = Some (Timer.mk (Some 5000) 0) /\
  timerOf switched 1 = Some (Timer.mk (Some 1000) 0) /\
  entries switched !! 1 = Some [] /\
  db_entries switched = [] /\
  pending switched = [StopTimerK 1 0 (Entry.mk None 1000 5000 4000 "write") NoCaller] /\
  timerOf settled 1 = Some (Timer.mk None 0) /\
  timerOf settled 2 = Some (Timer.mk (Some 5000) 0) /\
  entries settled !! 1 = Some [Entry.mk (Some 1) 1000 5000 4000 "write"] /\
  db_entries settled = [Row.mk 1 1 1000 5000 4000 "write"].
Proof. repeat split; vm_compute; reflexivity. Qed.

(** ** Starting the workspace that is already active *)

(** Workspace 1 runs since the instant 1000, and [startTimer(1)] at the
    instant 5000 moves its [startTime] to 5000. *)
Lemma startTimer_active_restarts :
  reachable firstRunning /\
  activeWorkspace firstRunning = Some 1 /\
  timerOf firstRunning 1 = Some (Timer.mk (Some 1000) 0) /\
  timerOf (startTimer 1 5000 5000 EmptyString 5000 firstRunning) 1
  = Some (Timer.mk (Some 5000) 0) /\
  startTimer 1 5000 5000 EmptyString 5000 firstRunning <> firstRunning.
Proof.
  split; [apply reachable_firstRunning|].
  split; [vm_compute; reflexivity|].
  split; [vm_compute; reflexivity|].
  split; [vm_compute; reflexivity|].
  intros H. apply (f_equal (fun s => timerOf s 1)) in H.
  vm_compute in H. discriminate.
Qed.

(** What [startTimer] does on the active workspace: it stops nothing and
    creates no entry; the active workspace, the entry lists, the database,
    the suspended functions, the accumulator and every other timer object
    stay as they are; the [startTime] of the workspace becomes the instant of
    the call. *)
Theorem startTimer_active (s : State) (w : Z) (l : nat) (t : Timer.t)
        (tDuration tEnd : Z) (desc : string) (tStart : Z) :
  activeWorkspace s = Some w ->
  timers s !! w = Some l ->
  heap s !! l = Some t ->
  let s' := startTimer w tDuration tEnd desc tStart s in
  s' = with_heap (<[l := Timer.mk (Some tStart) (Timer.elapsed t)]> (heap s)) s /\
  timerOf s' w = Some (Timer.mk (Some tStart) (Timer.elapsed t)) /\
  (forall l', l' <> l -> heap s' !! l' = heap s !! l') /\
  activeWorkspace s' = Some w /\
  entries s' = entries s /\
  db_entries s' = db_entries s /\
  pending s' = pending s.
Proof.
  intros Ha Hl Ht s'.
  assert (Hs : s' = with_heap (<[l := Timer.mk (Some tStart) (Timer.elapsed t)]> (heap s)) s).
  { subst s'. unfold startTimer. rewrite Ha.
    destruct (decide (w = w)) as [_|Hn]; [|done].
    cbv zeta. simpl. rewrite Hl, Ht.
    destruct s; simpl in *. by rewrite Ha. }
  split; [exact Hs|]. rewrite Hs. simpl.
  split.
  { unfold timerOf. simpl. rewrite Hl.
    apply list_lookup_insert_eq. by eapply lookup_lt_Some. }
  split.
  { intros l' Hne. by apply list_lookup_insert_ne. }
  done.
Qed.

(** Workspace 1, running since 1000, is started again at 5000. *)
Lemma startTimer_active_witness :
  activeWorkspace firstRunning = Some 1 /\
  timers firstRunning !! 1 = Some 0%nat /\
  heap firstRunning !! 0%nat = Some (Timer.mk (Some 1000) 0) /\
  let s' := startTimer 1 5000 5000 EmptyString 5000 firstRunning in
  s' = with_heap (<[0%nat := Timer.mk (Some 5000) 0]> (heap firstRunning)) firstRunning /\
  timerOf s' 1 = Some (Timer.mk (Some 5000) 0) /\
  (forall l', l' <> 0%nat -> heap s' !! l' = heap firstRunning !! l') /\
  activeWorkspace s' = Some 1 /\
  entries s' = entries firstRunning /\
  db_entries s' = db_entries firstRunning /\
  pending s' = pending firstRunning.
Proof.
  split; [vm_compute; reflexivity|].
  split; [vm_compute; reflexivity|].
  split; [vm_compute; reflexivity|].
  apply (startTimer_active firstRunning 1 0%nat (Timer.mk (Some 1000) 0));
    vm_compute; reflexivity.
Defined.

Ltac answered :=
  repeat (apply reachable_handle;
          [|first [exact I | vm_compute; first [split; discriminate | discriminate]]]).

Lemma reachable_redrawnRunning : reachable redrawnRunning.
Proof.
  unfold redrawnRunning, twoWorkspaces. cbn [Nat.iter].
  answered. apply reachable_load.
Qed.

(** C3. [startTimer] on the workspace that is already active is not a no-op.
    Workspace 1 is started at the instant 1000 while [changeWorkspaceCount]
    awaits the database; when the page has been drawn anew, nothing is
    suspended and workspace 1 is active and runs since 1000. The click on its
    start button at 7000 moves its [startTime] to 7000, and the stop at 9000
    stores an entry from 7000 to 9000 of 2000 milliseconds: the time from
    1000 to 7000 is in no entry. *)
Theorem startTimer_active_restarts_clock :
  reachable redrawnRunning /\
  pending redrawnRunning = [] /\
  workspaceCount redrawnRunning = 3 /\
  activeWorkspace redrawnRunning = Some 1 /\
  timerOf redrawnRunning 1 = Some (Timer.mk (Some 1000) 0) /\
  enabled (Start 1 7000 7000 EmptyString 7000) redrawnRunning /\
  activeWorkspace restarted = Some 1 /\
  timerOf restarted 1 = Some (Timer.mk (Some 7000) 0) /\
  restarted <> redrawnRunning /\
  entries restartedStopped !! 1
  = Some [Entry.mk (Some 1) 7000 9000 2000 "No description"] /\
  db_entries restartedStopped = [Row.mk 1 1 7000 9000 2000 "No description"].
Proof.
  split; [exact reachable_redrawnRunning|].
  split; [vm_compute; reflexivity|].
  split; [vm_compute; reflexivity|].
  split; [vm_compute; reflexivity|].
  split; [vm_compute; reflexivity|].
  split; [vm_compute; split; discriminate|].
  split; [vm_compute; reflexivity|].
  split; [vm_compute; reflexivity|].
  split.
  { intros H. apply (f_equal (fun s => timerOf s 1)) in H.
    vm_compute in H. discriminate. }
  split; vm_compute; reflexivity.
Qed.

(** ** Sorting keeps the elements *)

Section SortFacts.
Context {A : Type} (cmp : A -> A -> Z).

Lemma insertSorted_Permutation (x : A) (l : list A) :
  insertSorted cmp x l ≡ₚ x :: l.
Proof.
  induction l as [|y l IH]; simpl; [done|].
  destruct (cmp x y <=? 0); [done|].
  rewrite IH. apply Permutation_swap.
Qed.

Lemma sortWith_Permutation (l : list A) : sortWith cmp l ≡ₚ l.
Proof.
  induction l as [|x l IH]; simpl; [done|].
  rewrite insertSorted_Permutation. by rewrite IH.
Qed.

Lemma sortWith_nil (l : list A) : sortWith cmp l = [] <-> l = [].
Proof.
  split; [|intros ->; done].
  intros H. apply Permutation_nil_r. rewrite <- H.
  symmetry. apply sortWith_Permutation.
Qed.

Lemma elem_of_sortWith (x : A) (l : list A) : x ∈ sortWith cmp l <-> x ∈ l.
Proof. by rewrite sortWith_Permutation. Qed.

Lemma length_sortWith (l : list A) : length (sortWith cmp l) = length l.
Proof. by rewrite sortWith_Permutation. Qed.
End SortFacts.

(** ** The entry of a stop *)

Lemma orDefault_idem (a b : string) :
  b <> EmptyString -> orDefault (orDefault a b) b = orDefault a b.
Proof. destruct a, b; simpl; congruence. Qed.

(** C4. The duration of an entry is not always its end minus its start:
    [stopTimer] reads the clock once for the duration (line 353) and once
    more for [endTime] (line 360). With the readings 2000 and 2001 the entry
    of a timer started at 1000 has the duration 1000 and ends at 2001, in the
    entry list, in the database, and in the list that the next [loadState]
    reads back from the database. *)
Theorem stopTimer_duration_differs :
  reachable firstRunning /\
  timerOf firstRunning 1 = Some (Timer.mk (Some 1000) 0) /\
  stopTimer_enter 1 2000 2001 EmptyString firstRunning
  = StopAwaits 0 (Entry.mk None 1000 2001 1000 "No description") /\
  entries stoppedLate !! 1 = Some [Entry.mk (Some 1) 1000 2001 1000 "No description"] /\
  db_entries stoppedLate = [Row.mk 1 1 1000 2001 1000 "No description"] /\
  entries (loadState (initialState (db_entries stoppedLate)
                                   (db_workspaces stoppedLate)
                                   (db_count stoppedLate))) !! 1
  = Some [Entry.mk (Some 1) 1000 2001 1000 "No description"] /\
  ~ (forall e, entries stoppedLate !! 1 = Some [e] ->
               Entry.duration e = Entry.endTime e - Entry.startTime e).
Proof.
  split; [apply reachable_firstRunning|].
  split; [vm_compute; reflexivity|].
  split; [vm_compute; reflexivity|].
  split; [vm_compute; reflexivity|].
  split; [vm_compute; reflexivity|].
  split; [vm_compute; reflexivity|].
  intros H.
  specialize (H (Entry.mk (Some 1) 1000 2001 1000 "No description")).
  vm_compute in H. specialize (H eq_refl). discriminate.
Qed.

(** With a clock that does not go back, the stop of a running timer (one
    whose [startTime] is not the instant 0) creates an entry whose [startTime] is the recorded start, whose
    [endTime] is the clock reading taken for it and whose duration is the
    clock reading taken for the duration minus the start: so
    [startTime <= endTime] and [0 <= duration <= endTime - startTime], with
    equality exactly when the two readings agree. The entry goes to the head
    of the list of the workspace and to the database with these values, and
    reading the workspace back from the database gives it with the same
    values. *)
Theorem stopTimer_entry (s : State) (w : Z) (l : nat) (t : Timer.t)
        (t0 tDuration tEnd : Z) (desc : string) :
  reachable s ->
  timers s !! w = Some l ->
  heap s !! l = Some t ->
  Timer.startTime t = Some t0 ->
  t0 <> 0 ->
  t0 <= tDuration ->
  tDuration <= tEnd ->
  exists e,
    stopTimer_enter w tDuration tEnd desc s = StopAwaits l e /\
    Entry.startTime e = t0 /\
    Entry.endTime e = tEnd /\
    Entry.duration e = tDuration - t0 /\
    Entry.startTime e <= Entry.endTime e /\
    0 <= Entry.duration e <= Entry.endTime e - Entry.startTime e /\
    (Entry.duration e = Entry.endTime e - Entry.startTime e <-> tDuration = tEnd) /\
    forall s1,
      let s' := stopTimer_resume w l e s1 in
      let entryId := lastInsertId (db_entries s1) in
      let stored := Entry.mk (Some entryId) t0 tEnd (tDuration - t0)
                             (Entry.description e) in
      entries s' !! w = Some (stored :: default [] (entries s1 !! w)) /\
      db_entries s' = db_entries s1 ++
                      [Row.mk entryId w t0 tEnd (tDuration - t0) (Entry.description e)] /\
      stored ∈ (entryOfRow <$> selectEntries w (db_entries s')).
Proof.
  intros Hr Hl Ht Hs Hnz Hle1 Hle2.
  pose proof (Forall_lookup_1 _ _ _ _ (reachable_elapsedZero s Hr) Ht) as He.
  simpl in He.
  eexists. split.
  { unfold stopTimer_enter. rewrite Hl, Ht, Hs. simpl.
    destruct (t0 =? 0) eqn:E; [lia|]. simpl. reflexivity. }
  simpl. rewrite He.
  repeat (split; [lia|]).
  intros s1. cbv zeta.
  assert (Hent : forall s2, entries (stopTimer_tail w l s2) = entries s2).
  { intros s2. unfold stopTimer_tail. cbv zeta. by case_decide. }
  assert (Hdb : forall s2, db_entries (stopTimer_tail w l s2) = db_entries s2).
  { intros s2. unfold stopTimer_tail. cbv zeta. by case_decide. }
  unfold stopTimer_resume, addEntry. cbv zeta beta iota.
  rewrite Hent, Hdb. simpl.
  replace (0 + (tDuration - t0)) with (tDuration - t0) by lia.
  split; [apply lookup_insert_eq|]. split; [reflexivity|].
  apply list_elem_of_fmap.
  exists (Row.mk (lastInsertId (db_entries s1)) w t0 tEnd (tDuration - t0)
                 (orDefault desc "No description")).
  split.
  - unfold entryOfRow. simpl. by rewrite orDefault_idem.
  - unfold selectEntries. apply elem_of_sortWith.
    apply list_elem_of_filter. split; [reflexivity|].
    apply elem_of_app. right. by apply list_elem_of_singleton.
Qed.

(** Workspace 1, running since 1000, is stopped with the readings 2000 and
    2001. *)
Lemma stopTimer_entry_witness :
  reachable firstRunning /\
  timers firstRunning !! 1 = Some 0%nat /\
  heap firstRunning !! 0%nat = Some (Timer.mk (Some 1000) 0) /\
  exists e,
    stopTimer_enter 1 2000 2001 EmptyString firstRunning = StopAwaits 0 e /\
    Entry.startTime e = 1000 /\
    Entry.endTime e = 2001 /\
    Entry.duration e = 2000 - 1000 /\
    Entry.startTime e <= Entry.endTime e /\
    0 <= Entry.duration e <= Entry.endTime e - Entry.startTime e /\
    (Entry.duration e = Entry.endTime e - Entry.startTime e <-> 2000 = 2001) /\
    forall s1,
      let s' := stopTimer_resume 1 0 e s1 in
      let entryId := lastInsertId (db_entries s1) in
      let stored := Entry.mk (Some entryId) 1000 2001 (2000 - 1000)
                             (Entry.description e) in
      entries s' !! 1 = Some (stored :: default [] (entries s1 !! 1)) /\
      db_entries s' = db_entries s1 ++
                      [Row.mk entryId 1 1000 2001 (2000 - 1000) (Entry.description e)] /\
      stored ∈ (entryOfRow <$> selectEntries 1 (db_entries s')).
Proof.
  assert (Hr : reachable firstRunning).
  { apply reachable_handle; [apply reachable_load|].
    vm_compute. split; discriminate. }
  split; [exact Hr|].
  split; [vm_compute; reflexivity|].
  split; [vm_compute; reflexivity|].
  apply (stopTimer_entry firstRunning 1 0%nat (Timer.mk (Some 1000) 0)
                         1000 2000 2001 EmptyString).
  - exact Hr.
  - vm_compute; reflexivity.
  - vm_compute; reflexivity.
  - reflexivity.
  - lia.
  - lia.
  - lia.
Defined.

(** ** The calendar of the runtime *)

Lemma DayFromYear_step (y : Z) :
  Date.DayFromYear (y + 1)
  = Date.DayFromYear y + 365 + (if Date.isLeap y then 1 else 0).
Proof.
  unfold Date.DayFromYear, Date.isLeap.
  destruct (y mod 4 =? 0) eqn:E4, (y mod 100 =? 0) eqn:E100,
           (y mod 400 =? 0) eqn:E400;
    simpl; Z.div_mod_to_equations; lia.
Qed.

(** [yearFromDay] is the year of ECMA-262: the one whose first day is the
    last first day not after [d]. *)
Lemma yearFromDay_spec (d : Z) :
  Date.DayFromYear (Date.yearFromDay d) <= d
  < Date.DayFromYear (Date.yearFromDay d + 1).
Proof.
  unfold Date.yearFromDay. cbv zeta.
  set (y := 1970 + d * 400 / 146097).
  assert (Hlo : Date.DayFromYear (y - 1) <= d).
  { subst y. unfold Date.DayFromYear. Z.div_mod_to_equations. lia. }
  assert (Hhi : d < Date.DayFromYear (y + 2)).
  { subst y. unfold Date.DayFromYear. Z.div_mod_to_equations. lia. }
  destruct (d <? Date.DayFromYear y) eqn:E1.
  - replace (y - 1 + 1) with y by lia. lia.
  - destruct (Date.DayFromYear (y + 1) <=? d) eqn:E2.
    + replace (y + 1 + 1) with (y + 2) by lia. lia.
    + lia.
Qed.

Lemma InLeapYear_range (t : Z) : 0 <= Date.InLeapYear t <= 1.
Proof. unfold Date.InLeapYear. destruct (Date.isLeap _); lia. Qed.

Lemma DayWithinYear_range (t : Z) :
  0 <= Date.DayWithinYear t < 365 + Date.InLeapYear t.
Proof.
  unfold Date.DayWithinYear, Date.InLeapYear, Date.YearFromTime.
  pose proof (yearFromDay_spec (Date.Day t)) as H.
  rewrite DayFromYear_step in H. lia.
Qed.

Lemma MonthFromTime_range (t : Z) : 0 <= Date.MonthFromTime t <= 11.
Proof.
  unfold Date.MonthFromTime. cbv zeta.
  repeat match goal with
         | |- context [if ?b then _ else _] => destruct b
         end; lia.
Qed.

Lemma DateFromTime_range (t : Z) : 1 <= Date.DateFromTime t <= 31.
Proof.
  pose proof (DayWithinYear_range t) as Hd.
  pose proof (InLeapYear_range t) as Hl.
  unfold Date.DateFromTime, Date.MonthFromTime. cbv zeta.
  repeat match goal with
         | |- context [if ?b then _ else _] => destruct b eqn:?
         end; simpl; lia.
Qed.

Lemma Day_fields (t : Z) :
  Date.Day t
  = Date.DayFromYear (Date.YearFromTime t)
    + Date.monthStart (Date.InLeapYear t) (Date.MonthFromTime t)
    + Date.DateFromTime t - 1.
Proof. unfold Date.DateFromTime, Date.DayWithinYear. lia. Qed.

(** The fields of a date give back its day: what [new Date(y, m, d)] relies
    on. *)
Lemma MakeDay_fields (t : Z) :
  Date.MakeDay (Date.YearFromTime t) (Date.MonthFromTime t) (Date.DateFromTime t)
  = Date.Day t.
Proof.
  pose proof (MonthFromTime_range t) as Hm.
  unfold Date.MakeDay. cbv zeta.
  rewrite (Z.div_small (Date.MonthFromTime t) 12) by lia.
  rewrite (Z.mod_small (Date.MonthFromTime t) 12) by lia.
  rewrite Z.add_0_r. rewrite (Day_fields t). unfold Date.InLeapYear. lia.
Qed.

(** Two instants are on the same day exactly when year, month and day of the
    month agree. *)
Lemma same_Day_iff (t1 t2 : Z) :
  Date.Day t1 = Date.Day t2 <->
  Date.YearFromTime t1 = Date.YearFromTime t2 /\
  Date.MonthFromTime t1 = Date.MonthFromTime t2 /\
  Date.DateFromTime t1 = Date.DateFromTime t2.
Proof.
  split.
  - intros H.
    assert (Hy : Date.YearFromTime t1 = Date.YearFromTime t2).
    { unfold Date.YearFromTime. by rewrite H. }
    assert (Hl : Date.InLeapYear t1 = Date.InLeapYear t2).
    { unfold Date.InLeapYear. by rewrite Hy. }
    assert (Hd : Date.DayWithinYear t1 = Date.DayWithinYear t2).
    { unfold Date.DayWithinYear. by rewrite H, Hy. }
    assert (Hm : Date.MonthFromTime t1 = Date.MonthFromTime t2).
    { unfold Date.MonthFromTime. by rewrite Hd, Hl. }
    split; [exact Hy|]. split; [exact Hm|].
    unfold Date.DateFromTime. by rewrite Hd, Hl, Hm.
  - intros (Hy & Hm & Hd).
    rewrite (Day_fields t1), (Day_fields t2).
    unfold Date.InLeapYear. by rewrite Hy, Hm, Hd.
Qed.

(** ** The texts of dates *)

Lemma digitValue_char (x : N) : (x < 10)%N -> digitValue (pretty_N_char x) = x.
Proof.
  intros H.
  assert (Hc : exists n : nat, x = N.of_nat n /\ (n < 10)%nat).
  { exists (N.to_nat x). lia. }
  destruct Hc as (n & -> & Hn).
  do 10 (destruct n as [|n]; [reflexivity|]). lia.
Qed.

Lemma readDigits_zeros (k : nat) (s : string) :
  readDigits 0 (Date.zeros k +:+ s) = readDigits 0 s.
Proof. induction k as [|k IH]; simpl; [done|exact IH]. Qed.

Lemma readDigits_go (x : N) :
  exists p : N, forall acc s,
    readDigits acc (pretty_N_go x s) = readDigits (acc * p + x)%N s.
Proof.
  induction (N.lt_wf_0 x) as [x _ IH].
  destruct (decide (0 < x)%N) as [Hx|Hx].
  - destruct (IH (x `div` 10)%N) as [p Hp].
    { apply N.div_lt; lia. }
    exists (p * 10)%N. intros acc s.
    rewrite pretty_N_go_step by done. rewrite Hp. simpl.
    rewrite digitValue_char by (apply N.mod_lt; lia).
    f_equal. pose proof (N.div_mod x 10). lia.
  - assert (x = 0%N) as -> by lia.
    exists 1%N. intros acc s. rewrite pretty_N_go_0. f_equal. lia.
Qed.

Lemma readDigits_pretty_N (n : N) : readDigits 0 (pretty n) = n.
Proof.
  unfold pretty, pretty_N. destruct (decide (n = 0%N)) as [->|Hn]; [done|].
  destruct (readDigits_go n) as [p Hp]. rewrite Hp. simpl. lia.
Qed.

Lemma pretty_Z_nonneg (x : Z) : 0 <= x -> pretty x = pretty (Z.to_N x).
Proof. destruct x as [|p|p]; [done|done|lia]. Qed.

Lemma readDigits_pad (k : nat) (x : Z) :
  0 <= x -> readDigits 0 (Date.pad k x) = Z.to_N x.
Proof.
  intros Hx. unfold Date.pad, Date.padStart.
  rewrite readDigits_zeros, pretty_Z_nonneg by done.
  apply readDigits_pretty_N.
Qed.

Lemma pad_inj (k : nat) (a b : Z) :
  0 <= a -> 0 <= b -> Date.pad k a = Date.pad k b -> a = b.
Proof.
  intros Ha Hb H. apply (f_equal (readDigits 0)) in H.
  rewrite !readDigits_pad in H by done. lia.
Qed.

Lemma pad_no_dash (k : nat) (x : Z) (s : string) :
  0 <= x -> Date.pad k x <> "-" +:+ s.
Proof.
  intros Hx. unfold Date.pad, Date.padStart.
  destruct (k - String.length (pretty x))%nat as [|j]; simpl; [|discriminate].
  rewrite pretty_Z_nonneg by done. unfold pretty, pretty_N.
  destruct (decide (Z.to_N x = 0%N)); [discriminate|].
  apply pretty_N_go_ne_dash. discriminate.
Qed.

Lemma dayName_chars (d : Z) :
  exists a b c, Date.dayName d = String a (String b (String c EmptyString)).
Proof. unfold Date.dayName. repeat case_match; eauto. Qed.

Lemma monthName_chars (m : Z) :
  exists a b c, Date.monthName m = String a (String b (String c EmptyString)).
Proof. unfold Date.monthName. repeat case_match; eauto. Qed.

Lemma monthName_inj (m1 m2 : Z) :
  0 <= m1 <= 11 -> 0 <= m2 <= 11 ->
  Date.monthName m1 = Date.monthName m2 -> m1 = m2.
Proof.
  intros H1 H2.
  assert (E1 : exists n : nat, m1 = Z.of_nat n /\ (n < 12)%nat)
    by (exists (Z.to_nat m1); lia).
  assert (E2 : exists n : nat, m2 = Z.of_nat n /\ (n < 12)%nat)
    by (exists (Z.to_nat m2); lia).
  destruct E1 as (n1 & -> & Hn1), E2 as (n2 & -> & Hn2).
  do 12 (destruct n1 as [|n1]; [
    do 12 (destruct n2 as [|n2]; [vm_compute; congruence|]); lia|]).
  lia.
Qed.

Lemma pad2_chars (d : Z) :
  1 <= d <= 31 -> exists a b, Date.pad 2 d = String a (String b EmptyString).
Proof.
  intros H.
  assert (E : exists n : nat, d = Z.of_nat n /\ (n < 32)%nat)
    by (exists (Z.to_nat d); lia).
  destruct E as (n & -> & Hn).
  do 32 (destruct n as [|n]; [vm_compute; eauto|]). lia.
Qed.

(** The text of a year, as [toDateString] writes it. *)
Lemma yearText_inj (y1 y2 : Z) :
  (if 0 <=? y1 then EmptyString else "-") +:+ Date.pad 4 (Z.abs y1)
  = (if 0 <=? y2 then EmptyString else "-") +:+ Date.pad 4 (Z.abs y2) ->
  y1 = y2.
Proof.
  destruct (0 <=? y1) eqn:E1, (0 <=? y2) eqn:E2; simpl; intros H.
  - apply pad_inj in H; lia.
  - exfalso. by apply (pad_no_dash 4 (Z.abs y1) (Date.pad 4 (Z.abs y2))); [lia|].
  - exfalso. symmetry in H.
    by apply (pad_no_dash 4 (Z.abs y2) (Date.pad 4 (Z.abs y1))); [lia|].
  - injection H as H. apply pad_inj in H; lia.
Qed.

(** [toDateString] names the local calendar day: two instants have the same
    text exactly when they lie between the same two local midnights. *)
Lemma toDateString_same_day (z : Date.Zone) (t1 t2 : Z) :
  Date.toDateString z t1 = Date.toDateString z t2 <->
  Date.Day (Date.LocalTime z t1) = Date.Day (Date.LocalTime z t2).
Proof.
  split.
  - unfold Date.toDateString. cbv zeta.
    generalize (Date.LocalTime z t1) (Date.LocalTime z t2). intros l1 l2 H.
    apply same_Day_iff.
    pose proof (MonthFromTime_range l1) as Hm1.
    pose proof (MonthFromTime_range l2) as Hm2.
    destruct (dayName_chars (Date.WeekDay l1)) as (a1 & b1 & c1 & Hw1).
    destruct (dayName_chars (Date.WeekDay l2)) as (a2 & b2 & c2 & Hw2).
    destruct (monthName_chars (Date.MonthFromTime l1)) as (d1 & e1 & f1 & Hn1).
    destruct (monthName_chars (Date.MonthFromTime l2)) as (d2 & e2 & f2 & Hn2).
    destruct (pad2_chars _ (DateFromTime_range l1)) as (g1 & h1 & Hp1).
    destruct (pad2_chars _ (DateFromTime_range l2)) as (g2 & h2 & Hp2).
    rewrite Hw1, Hw2, Hn1, Hn2, Hp1, Hp2 in H. simpl in H.
    injection H as -> -> -> -> -> -> -> -> Hy.
    apply yearText_inj in Hy.
    split; [exact Hy|]. split.
    + apply monthName_inj; [done|done|congruence].
    + pose proof (DateFromTime_range l1). pose proof (DateFromTime_range l2).
      apply (pad_inj 2); [lia|lia|congruence].
  - intros H. apply same_Day_iff in H as (Hy & Hm & Hd).
    unfold Date.toDateString, Date.WeekDay. cbv zeta.
    rewrite Hy, Hm, Hd.
    assert (Hday : Date.Day (Date.LocalTime z t1) = Date.Day (Date.LocalTime z t2)).
    { apply same_Day_iff. auto. }
    by rewrite Hday.
Qed.

(** ** filterRecords *)

Section FilterFacts.
Context {A : Type} (P : A -> Prop) `{!forall x, Decision (P x)}.

Lemma filter_all (l : list A) : Forall P l -> filter P l = l.
Proof.
  induction 1 as [|x l Hx _ IH]; [done|].
  rewrite filter_cons. destruct (decide (P x)); [by rewrite IH|done].
Qed.

Lemma Forall_filter_self (l : list A) : Forall P (filter P l).
Proof.
  apply Forall_forall. intros x Hx. by apply list_elem_of_filter in Hx as [? _].
Qed.

Lemma Forall_filter_keeps (Q : A -> Prop) (l : list A) :
  Forall Q l -> Forall Q (filter P l).
Proof.
  rewrite !Forall_forall. intros HQ x Hx.
  apply list_elem_of_filter in Hx as [_ Hx]. by apply HQ.
Qed.

Lemma filter_idem (l : list A) : filter P (filter P l) = filter P l.
Proof. apply filter_all, Forall_filter_self. Qed.
End FilterFacts.

Lemma filter_twice {A} (P Q : A -> Prop)
      `{!forall x, Decision (P x)} `{!forall x, Decision (Q x)} (l : list A) :
  filter Q (filter P (filter Q (filter P l))) = filter Q (filter P l).
Proof.
  rewrite (filter_all P (filter Q (filter P l))).
  - apply filter_idem.
  - apply Forall_filter_keeps, Forall_filter_self.
Qed.

(** The threshold of the scope [today] is the local midnight before the
    clock reading (for a year outside 0 to 99, which [new Date(y, m, d)]
    would move to the twentieth century). *)
Lemma today_local_midnight (z : Date.Zone) (now : Z) :
  ~ (0 <= Date.getFullYear z now <= 99) ->
  Date.ofLocal z (Date.getFullYear z now) (Date.getMonth z now) (Date.getDate z now)
  = Date.UTC z (Date.Day (Date.LocalTime z now) * Date.msPerDay).
Proof.
  intros Hy. unfold Date.ofLocal, Date.getFullYear, Date.getMonth, Date.getDate in *.
  cbv zeta.
  destruct ((0 <=? Date.YearFromTime (Date.LocalTime z now))
            && (Date.YearFromTime (Date.LocalTime z now) <=? 99)) eqn:E.
  - apply andb_true_iff in E as [E1 E2]. lia.
  - rewrite MakeDay_fields. unfold Date.MakeDate. f_equal. lia.
Qed.

(** In a zone without daylight saving, the scope [today] keeps the records
    that began on the local calendar day of the clock reading or later. *)
Lemma filterRecords_today (minutes now : Z) (X : list Record.t) :
  let z := Date.fixedZone minutes in
  ~ (0 <= Date.getFullYear z now <= 99) ->
  filterRecords z now (mkFilter AllWorkspaces Today) X
  = filter (fun r => Date.Day (Date.LocalTime z now)
                     <= Date.Day (Date.LocalTime z (Record.startTime r))) X.
Proof.
  intros z Hy. unfold filterRecords. cbn [workspace date]. cbv zeta.
  rewrite (today_local_midnight z now Hy).
  apply list_filter_iff. intros r.
  unfold Date.UTC, Date.LocalTime, Date.Day, z, Date.fixedZone. simpl.
  unfold Date.msPerDay, Date.msPerMinute.
  Z.div_mod_to_equations. lia.
Qed.

(** C6. [filterRecords] returns a new list and leaves its argument alone; for
    one reading of the clock it is idempotent, it keeps the order of its
    input (the result is a sublist), and with both scopes at [all] it returns
    its input. *)
Theorem filterRecords_idempotent (z : Date.Zone) (now : Z) (F : RecordsFilter)
        (X : list Record.t) :
  filterRecords z now F (filterRecords z now F X) = filterRecords z now F X /\
  sublist (filterRecords z now F X) X /\
  filterRecords z now (mkFilter AllWorkspaces AllDates) X = X.
Proof.
  split; [|split; [|reflexivity]].
  - destruct F as [[|wsId] [| | |]]; unfold filterRecords; cbn [workspace date];
      cbv zeta; first [reflexivity | apply filter_idem | apply filter_twice].
  - destruct F as [[|wsId] [| | |]]; unfold filterRecords; cbn [workspace date];
      cbv zeta;
      first [ reflexivity
            | apply sublist_filter
            | etrans; [apply sublist_filter|apply sublist_filter] ].
Qed.

(** ** updateTotalTime *)

Lemma sumZ_app (l1 l2 : list Z) : sumZ (l1 ++ l2) = sumZ l1 + sumZ l2.
Proof. induction l1 as [|x l1 IH]; simpl; lia. Qed.

Lemma sumZ_cons (x : Z) (l : list Z) : sumZ (x :: l) = x + sumZ l.
Proof. reflexivity. Qed.

Lemma startedToday_text (z : Date.Zone) (tToday : Z) (e : Entry.t) :
  String.eqb (Date.toDateString z (Entry.startTime e)) (Date.toDateString z tToday)
  = startedToday z tToday e.
Proof.
  unfold startedToday.
  destruct (String.eqb_spec (Date.toDateString z (Entry.startTime e))
                            (Date.toDateString z tToday)) as [H|H];
    rewrite toDateString_same_day in H; symmetry.
  - by apply Z.eqb_eq.
  - by apply Z.eqb_neq.
Qed.

Lemma addToday_sum (z : Date.Zone) (tToday total : Z) (l : list Entry.t) :
  addToday z (Date.toDateString z tToday) total l
  = total + sumZ (Entry.duration <$>
                  filter (fun e => Is_true (startedToday z tToday e)) l).
Proof.
  unfold addToday. revert total.
  induction l as [|e l IH]; intros total; simpl; [lia|].
  rewrite (startedToday_text z tToday e), IH, filter_cons.
  destruct (startedToday z tToday e).
  - rewrite decide_True by exact I. rewrite fmap_cons, sumZ_cons. lia.
  - rewrite decide_False by exact id. lia.
Qed.

Lemma sum_liveAt_absent (tNow : Z) (s : State) (l : list Z) :
  (forall a, activeWorkspace s = Some a -> a ∉ l) ->
  sumZ (liveAt tNow s <$> l) = 0.
Proof.
  induction l as [|i l IH]; intros H; [done|].
  rewrite fmap_cons, sumZ_cons, IH.
  - unfold liveAt. case_decide as Ha; [|lia].
    exfalso. apply (H i Ha). by left.
  - intros a Ha Hin. apply (H a Ha). by right.
Qed.

Lemma sum_liveAt_present (tNow : Z) (s : State) (a : Z) (l : list Z) :
  activeWorkspace s = Some a -> NoDup l -> a ∈ l ->
  sumZ (liveAt tNow s <$> l) = liveElapsed tNow s.
Proof.
  intros Ha. induction 1 as [|i l Hi Hnd IH]; intros Hin.
  - by apply elem_of_nil in Hin.
  - rewrite fmap_cons, sumZ_cons. apply elem_of_cons in Hin as [<-|Hin].
    + rewrite sum_liveAt_absent.
      * unfold liveAt, liveElapsed. rewrite Ha.
        destruct (decide (Some a = Some a)); [lia|done].
      * intros a' Ha'. congruence.
    + rewrite IH by done. unfold liveAt at 1.
      case_decide as Hi'; [|lia].
      exfalso. apply Hi. congruence.
Qed.

Lemma updateTotalTime_fold (z : Date.Zone) (tToday tNow : Z) (s : State)
      (l : list Z) (total : Z) :
  foldl (fun total i =>
           let total1 := match entries s !! i with
                         | Some l => addToday z (Date.toDateString z tToday) total l
                         | None => total
                         end in
           if decide (activeWorkspace s = Some i) then
             match timerOf s i with
             | Some timer =>
                 total1 + (Timer.elapsed timer +
                           (if truthy (Timer.startTime timer)
                            then tNow - default 0 (Timer.startTime timer)
                            else 0))
             | None => total1
             end
           else total1) total l
  = total +
    sumZ (Entry.duration <$>
          (i ← l; filter (fun e => Is_true (startedToday z tToday e))
                         (default [] (entries s !! i)))) +
    sumZ (liveAt tNow s <$> l).
Proof.
  revert total. induction l as [|i l IH]; intros total; [simpl; lia|].
  cbn [foldl]. rewrite IH. cbv zeta.
  rewrite bind_cons, fmap_app, sumZ_app, fmap_cons, sumZ_cons.
  assert (Hday : match entries s !! i with
                 | Some l0 => addToday z (Date.toDateString z tToday) total l0
                 | None => total
                 end
                 = total + sumZ (Entry.duration <$>
                      filter (fun e => Is_true (startedToday z tToday e))
                             (default [] (entries s !! i)))).
  { destruct (entries s !! i) as [l0|]; simpl; [apply addToday_sum|lia]. }
  rewrite Hday. generalize (sumZ (liveAt tNow s <$> l)). intros rest.
  unfold liveAt, currentElapsed.
  case_decide; [destruct (timerOf s i)|]; lia.
Qed.

(** When the active workspace is one of the workspaces 1 to
    [workspaceCount], [updateTotalTime] computes the sum of the durations of
    the entries, in these workspaces, that began on the local calendar day of
    the clock reading (between the same two local midnights), plus the live
    elapsed time of the active workspace, whenever that interval began;
    without entries and without an active workspace the total is 0. *)
Theorem updateTotalTime_totalToday (z : Date.Zone) (tToday tNow : Z) (s : State) :
  (forall a, activeWorkspace s = Some a -> 1 <= a <= workspaceCount s) ->
  updateTotalTime z tToday tNow s = totalToday z tToday tNow s /\
  ((forall i l, entries s !! i = Some l -> l = []) ->
   activeWorkspace s = None ->
   updateTotalTime z tToday tNow s = 0).
Proof.
  intros Hrange.
  assert (Heq : updateTotalTime z tToday tNow s = totalToday z tToday tNow s).
  { unfold updateTotalTime, totalToday, todaysEntries. cbv zeta.
    rewrite updateTotalTime_fold.
    destruct (activeWorkspace s) as [a|] eqn:Ha.
    - rewrite (sum_liveAt_present tNow s a); [lia|done|apply NoDup_seqZ|].
      unfold ids. apply elem_of_seqZ. specialize (Hrange a eq_refl). lia.
    - rewrite sum_liveAt_absent; [|intros a Ha'; congruence].
      unfold liveElapsed. rewrite Ha. lia. }
  split; [exact Heq|].
  intros Hempty Hnone. rewrite Heq.
  unfold totalToday, liveElapsed, todaysEntries. rewrite Hnone.
  assert (Hnil : forall l : list Z,
             (i ← l; filter (fun e => Is_true (startedToday z tToday e))
                            (default [] (entries s !! i))) = []).
  { induction l as [|i l IH]; [done|].
    rewrite bind_cons, IH.
    destruct (entries s !! i) as [l0|] eqn:Hi; simpl; [|done].
    by rewrite (Hempty i l0 Hi). }
  by rewrite Hnil.
Qed.

(** The total after the switch from workspace 1 to workspace 2. *)
Lemma updateTotalTime_totalToday_witness :
  (forall a, activeWorkspace settled = Some a -> 1 <= a <= workspaceCount settled) /\
  updateTotalTime newYork 9000 9000 settled = totalToday newYork 9000 9000 settled /\
  ((forall i l, entries settled !! i = Some l -> l = []) ->
   activeWorkspace settled = None ->
   updateTotalTime newYork 9000 9000 settled = 0).
Proof.
  assert (H : forall a, activeWorkspace settled = Some a ->
                        1 <= a <= workspaceCount settled).
  { vm_compute. intros a [= <-]. split; discriminate. }
  split; [exact H|].
  exact (updateTotalTime_totalToday newYork 9000 9000 settled H).
Defined.

Lemma reachable_raceState : reachable raceState.
Proof.
  unfold raceState. answered. apply reachable_load.
Qed.

(** C7. [updateTotalTime] leaves out the live time of a running timer whose
    workspace is above [workspaceCount]. Workspace 2 is started while
    [changeWorkspaceCount(1)] awaits its stop of workspace 3: afterwards the
    count is 1, workspace 2 is active and runs since 3000, and at the
    instant 6000 [updateTotalTime] is 0 where [totalToday] is 3000. It stays
    so when every answer has arrived and nothing is suspended. *)
Theorem updateTotalTime_misses_running :
  reachable raceState /\
  workspaceCount raceState = 1 /\
  activeWorkspace raceState = Some 2 /\
  timerOf raceState 2 = Some (Timer.mk (Some 3000) 0) /\
  liveElapsed 6000 raceState = 3000 /\
  updateTotalTime newYork 6000 6000 raceState = 0 /\
  totalToday newYork 6000 6000 raceState = 3000 /\
  reachable raceSettled /\
  pending raceSettled = [] /\
  workspaceCount raceSettled = 1 /\
  activeWorkspace raceSettled = Some 2 /\
  timerOf raceSettled 2 = Some (Timer.mk (Some 3000) 0) /\
  updateTotalTime newYork 6000 6000 raceSettled = 0 /\
  totalToday newYork 6000 6000 raceSettled = 3000.
Proof.
  split; [exact reachable_raceState|].
  do 6 (split; [vm_compute; reflexivity|]).
  split.
  { unfold raceSettled. cbn [Nat.iter].
    answered. apply reachable_load. }
  do 5 (split; [vm_compute; reflexivity|]).
  vm_compute; reflexivity.
Qed.

(** ** The summary of the records view *)

Lemma foldl_duration_sum (l : list Record.t) (acc : Z) :
  foldl (fun sum r => sum + Record.duration r) acc l
  = acc + sumZ (Record.duration <$> l).
Proof.
  revert acc. induction l as [|r l IH]; intros acc; [simpl; lia|].
  cbn [foldl]. rewrite IH, fmap_cons, sumZ_cons. lia.
Qed.

(** C8. The summary counts the entries, sums their durations, and gives as
    the average the quotient of the sum by the count, 0 for no entry. *)
Theorem loadRecordsView_summary_spec (X : list Record.t) :
  totalEntries (loadRecordsView_summary X) = length X /\
  totalDuration (loadRecordsView_summary X) = sumZ (Record.duration <$> X) /\
  match X with
  | [] => avgDuration (loadRecordsView_summary X) = 0%Q
  | _ :: _ =>
      (avgDuration (loadRecordsView_summary X)
       == inject_Z (sumZ (Record.duration <$> X)) / inject_Z (Z.of_nat (length X)))%Q /\
      (avgDuration (loadRecordsView_summary X) * inject_Z (Z.of_nat (length X))
       == inject_Z (sumZ (Record.duration <$> X)))%Q
  end.
Proof.
  assert (Ht : totalDuration (loadRecordsView_summary X) = sumZ (Record.duration <$> X)).
  { unfold loadRecordsView_summary. cbn [totalDuration]. rewrite foldl_duration_sum. lia. }
  split; [reflexivity|]. split; [exact Ht|].
  destruct X as [|r X]; [reflexivity|].
  assert (Ha : (avgDuration (loadRecordsView_summary (r :: X))
                == inject_Z (sumZ (Record.duration <$> r :: X))
                   / inject_Z (Z.of_nat (length (r :: X))))%Q).
  { rewrite <- Ht. unfold loadRecordsView_summary. cbn [avgDuration totalDuration].
    destruct (0 <? length (r :: X))%nat eqn:E; [reflexivity|].
    apply Nat.ltb_ge in E. simpl in E. lia. }
  split; [exact Ha|].
  rewrite Ha. unfold Qdiv. rewrite <- Qmult_assoc.
  rewrite (Qmult_comm (/ _)), Qmult_inv_r, Qmult_1_r; [reflexivity|].
  intros H. unfold Qeq in H. simpl in H. lia.
Qed.

(** The two summaries the specification lists. *)
Example summary_of_none : loadRecordsView_summary [] = mkSummary 0 0 0.
Proof. reflexivity. Qed.

Example summary_of_two :
  let s := loadRecordsView_summary [Record.mk 1 1 "W1" 0 1000 1000 "a";
                      Record.mk 2 1 "W1" 1000 4000 3000 "b"] in
  totalEntries s = 2%nat /\ totalDuration s = 4000 /\ (avgDuration s == 2000)%Q.
Proof. repeat split. Qed.

(** ** exportToCSV *)

Lemma allEntries_nil (z : Date.Zone) (s : State) :
  (forall i l, 1 <= i <= workspaceCount s -> entries s !! i = Some l -> l = []) ->
  allEntries z s = [].
Proof.
  intros H. unfold allEntries.
  assert (Hin : forall i, i ∈ ids (workspaceCount s) -> 1 <= i <= workspaceCount s).
  { intros i Hi. unfold ids in Hi. apply elem_of_seqZ in Hi. lia. }
  revert Hin. generalize (ids (workspaceCount s)).
  induction l as [|i l IH]; intros Hin; [done|].
  rewrite bind_cons, IH.
  - destruct (entries s !! i) as [l0|] eqn:Hi; [|done].
    rewrite (H i l0); [done| |done]. apply Hin. by left.
  - intros j Hj. apply Hin. by right.
Qed.

(** C9. With no entry in any workspace, [exportToCSV] alerts that there is
    nothing to export and hands no file to the browser. *)
Theorem exportToCSV_empty (z : Date.Zone) (tNow : Z) (s : State) :
  (forall i l, 1 <= i <= workspaceCount s -> entries s !! i = Some l -> l = []) ->
  exportToCSV z tNow s = Alert "No entries to export" /\
  forall filename csv, exportToCSV z tNow s <> Download filename csv.
Proof.
  intros H.
  assert (He : exportToCSV z tNow s = Alert "No entries to export").
  { unfold exportToCSV. by rewrite (allEntries_nil z s H). }
  split; [exact He|]. intros filename csv. by rewrite He.
Qed.

(** The export of two workspaces without entries. *)
Lemma exportToCSV_empty_witness :
  (forall i l, 1 <= i <= workspaceCount twoWorkspaces ->
               entries twoWorkspaces !! i = Some l -> l = []) /\
  exportToCSV newYork 9000 twoWorkspaces = Alert "No entries to export" /\
  forall filename csv, exportToCSV newYork 9000 twoWorkspaces <> Download filename csv.
Proof.
  assert (H : forall i l, 1 <= i <= workspaceCount twoWorkspaces ->
                          entries twoWorkspaces !! i = Some l -> l = []).
  { intros i l Hi.
    assert (Hn : workspaceCount twoWorkspaces = 2) by (vm_compute; reflexivity).
    rewrite Hn in Hi.
    assert (Hc : i = 1 \/ i = 2) by lia.
    destruct Hc as [-> | ->]; vm_compute; congruence. }
  split; [exact H|].
  exact (exportToCSV_empty newYork 9000 twoWorkspaces H).
Defined.

(** A file is produced exactly when some workspace has an entry. *)
Lemma exportToCSV_download (z : Date.Zone) (tNow : Z) (s : State) :
  allEntries z s <> [] ->
  exists csv,
    exportToCSV z tNow s
    = Download ("clockr-export-" +:+ formatDateCSV tNow +:+ ".csv") csv.
Proof.
  intros H. unfold exportToCSV.
  destruct (sortWith byDateAndTime (allEntries z s)) eqn:E.
  - by apply sortWith_nil in E.
  - eauto.
Qed.

(** ** The order of the rows *)

Section SortOrder.
Context {A : Type} (cmp : A -> A -> Z).
Hypothesis cmp_total : forall a b, cmp a b <= 0 \/ cmp b a <= 0.

Let before (a b : A) : Prop := cmp a b <= 0.

Lemma insertSorted_Sorted (x : A) (l : list A) :
  Sorted before l -> Sorted before (insertSorted cmp x l).
Proof.
  induction 1 as [|y l Hs IH Hhd]; simpl.
  - repeat constructor.
  - destruct (cmp x y <=? 0) eqn:E.
    + constructor; [by constructor|]. constructor. unfold before. lia.
    + constructor; [exact IH|].
      assert (Hyx : before y x).
      { unfold before. destruct (cmp_total x y); lia. }
      destruct Hhd as [|y' l' Hyy']; simpl.
      * by constructor.
      * destruct (cmp x y' <=? 0); by constructor.
Qed.

Lemma sortWith_Sorted (l : list A) : Sorted before (sortWith cmp l).
Proof.
  induction l as [|x l IH]; [constructor|].
  change (Sorted before (insertSorted cmp x (sortWith cmp l))).
  apply insertSorted_Sorted. exact IH.
Qed.
End SortOrder.

Lemma localeCompare_antisym (a b : string) : localeCompare a b = - localeCompare b a.
Proof.
  unfold localeCompare. rewrite (String.compare_antisym b a).
  by destruct (String.compare a b).
Qed.

Lemma byDateAndTime_total (a b : Csv.t) :
  byDateAndTime a b <= 0 \/ byDateAndTime b a <= 0.
Proof.
  unfold byDateAndTime. cbv zeta.
  rewrite (localeCompare_antisym (Csv.date b) (Csv.date a)).
  rewrite (localeCompare_antisym (Csv.startTime b) (Csv.startTime a)).
  generalize (localeCompare (Csv.date a) (Csv.date b)).
  generalize (localeCompare (Csv.startTime a) (Csv.startTime b)).
  intros t d.
  destruct (- d =? 0) eqn:E1, (d =? 0) eqn:E2; simpl; lia.
Qed.



(** The rows of the file hold the entries of every workspace, each once, in
    descending order of date and start time. *)
Lemma exportToCSV_rows_sorted (z : Date.Zone) (s : State) :
  sortWith byDateAndTime (allEntries z s) ≡ₚ allEntries z s /\
  Sorted (fun a b => byDateAndTime a b <= 0)
         (sortWith byDateAndTime (allEntries z s)).
Proof.
  split; [apply sortWith_Permutation|].
  apply sortWith_Sorted, byDateAndTime_total.
Qed.

(** The description is written with its double quotes doubled; the name is
    written as it is. *)
Lemma doubleQuotes_app (a b : string) :
  doubleQuotes (a +:+ b) = doubleQuotes a +:+ doubleQuotes b.
Proof.
  induction a as [|c a IH]; simpl; [done|].
  destruct (Ascii.eqb c quote); simpl; by rewrite IH.
Qed.

Lemma reachable_eveningWork : reachable eveningWork.
Proof.
  unfold eveningWork.
  repeat (apply reachable_handle; [|vm_compute; try exact I; split; discriminate]).
  apply reachable_load.
Qed.

(** C5. The export of a reachable state, in a time zone five hours west of
    Greenwich: the entry began on the evening of January 1 local time, and
    its row carries the date of January 2 (the UTC day) beside the local
    time 23:30:00; the name of the workspace, which holds a double quote, is
    written between quotes without doubling it, while the description column
    doubles its quotes. *)
Theorem exportToCSV_utc_date_raw_name :
  reachable eveningWork /\
  workspaceNames eveningWork !! 1 = Some ("a" +:+ String quote "b") /\
  entries eveningWork !! 1
  = Some [Entry.mk (Some 1) 1704169800000 1704173400000 3600000 "notes"] /\
  Date.toDateString newYork 1704169800000 = "Mon Jan 01 2024" /\
  formatTimeCSV newYork 1704169800000 = "23:30:00" /\
  formatDateCSV 1704169800000 = "2024-01-02" /\
  exportToCSV newYork 1704173400000 eveningWork
  = Download "clockr-export-2024-01-02.csv"
      (join newline
         [join "," headers;
          join "," [quoted ("a" +:+ String quote "b"); "2024-01-02"; "23:30:00";
                    "00:30:00"; "01:00:00"; "3600"; quoted "notes"]]) /\
  quoted ("a" +:+ String quote "b")
  <> quoted (doubleQuotes ("a" +:+ String quote "b")).
Proof.
  split; [apply reachable_eveningWork|].
  repeat (split; [vm_compute; reflexivity|]).
  vm_compute. discriminate.
Qed.

(** * Further properties *)

(** ** Every workspace has its timer, its entries and its name *)

Lemma defaultName_nonempty (i : Z) : defaultName i <> EmptyString.
Proof. unfold defaultName. discriminate. Qed.

Lemma orDefault_nonempty (a b : string) :
  b <> EmptyString -> orDefault a b <> EmptyString.
Proof. destruct a; simpl; [done|discriminate]. Qed.

Lemma timersSound_alloc (i : Z) (s : State) :
  timersSound s -> timersSound (allocTimer i s).
Proof.
  intros [Hv Hi]. unfold timersSound, allocTimer. simpl. split.
  - intros w l. rewrite length_app. simpl.
    destruct (decide (i = w)) as [->|Hne].
    + rewrite lookup_insert_eq. intros [= <-]. lia.
    + rewrite lookup_insert_ne by done. intros H. apply Hv in H. lia.
  - intros w1 w2 l.
    destruct (decide (i = w1)) as [E1|H1], (decide (i = w2)) as [E2|H2];
      subst; rewrite ?lookup_insert_eq, ?lookup_insert_ne by done.
    + done.
    + intros [= <-] H. apply Hv in H. lia.
    + intros H [= <-]. apply Hv in H. lia.
    + apply Hi.
Qed.

Lemma equipped_alloc (i w : Z) (s : State) :
  equipped s w -> equipped (allocTimer i s) w.
Proof.
  intros (Ht & He & Hn). unfold equipped, allocTimer. simpl.
  split; [|done].
  destruct (decide (i = w)) as [->|Hne];
    [rewrite lookup_insert_eq; eauto|by rewrite lookup_insert_ne].
Qed.

Lemma timersSound_heap_insert (l : nat) (t : Timer.t) (s : State) :
  timersSound s -> timersSound (with_heap (<[l := t]> (heap s)) s).
Proof.
  intros [Hv Hi]. unfold timersSound. simpl. rewrite length_insert. done.
Qed.

(** One round of [initWorkspaceState]: what was there stays, and workspace
    [i] is equipped. *)
Lemma initWorkspace_sound (i : Z) (s : State) :
  timersSound s -> timersSound (initWorkspace i s).
Proof.
  intros H. unfold initWorkspace. cbv zeta.
  assert (H1 : timersSound (match timers s !! i with
                            | Some _ => s
                            | None => allocTimer i s
                            end)).
  { destruct (timers s !! i); auto using timersSound_alloc. }
  revert H1. generalize (match timers s !! i with
                         | Some _ => s
                         | None => allocTimer i s
                         end).
  intros s1 H1. repeat case_match; exact H1.
Qed.

Lemma initWorkspace_keeps (i w : Z) (s : State) :
  equipped s w -> equipped (initWorkspace i s) w.
Proof.
  intros H. unfold initWorkspace. cbv zeta.
  assert (H1 : equipped (match timers s !! i with
                         | Some _ => s
                         | None => allocTimer i s
                         end) w).
  { destruct (timers s !! i); auto using equipped_alloc. }
  revert H1. generalize (match timers s !! i with
                         | Some _ => s
                         | None => allocTimer i s
                         end).
  intros s1 (Ht & He & name & Hn & Hne).
  assert (H2 : equipped (match entries s1 !! i with
                         | Some _ => s1
                         | None => with_entries (<[i := []]> (entries s1)) s1
                         end) w).
  { destruct (entries s1 !! i) eqn:E; [by repeat split; eauto|].
    unfold equipped. simpl. split; [done|]. split; [|eauto].
    destruct (decide (i = w)) as [->|?];
      [rewrite lookup_insert_eq; eauto|by rewrite lookup_insert_ne]. }
  revert H2. generalize (match entries s1 !! i with
                         | Some _ => s1
                         | None => with_entries (<[i := []]> (entries s1)) s1
                         end).
  clear Ht He name Hn Hne. intros s2 (Ht & He & name & Hn & Hne).
  destruct (workspaceNames s2 !! i) as [[|c n]|] eqn:E;
    unfold equipped; simpl; (split; [done|]); (split; [done|]).
  - destruct (decide (i = w)) as [->|?].
    + rewrite lookup_insert_eq. eauto using defaultName_nonempty.
    + rewrite lookup_insert_ne by done. eauto.
  - eauto.
  - destruct (decide (i = w)) as [->|?].
    + rewrite lookup_insert_eq. eauto using defaultName_nonempty.
    + rewrite lookup_insert_ne by done. eauto.
Qed.

Lemma initWorkspace_equips (i : Z) (s : State) : equipped (initWorkspace i s) i.
Proof.
  unfold initWorkspace. cbv zeta.
  assert (H1 : is_Some (timers (match timers s !! i with
                                | Some _ => s
                                | None => allocTimer i s
                                end) !! i)).
  { destruct (timers s !! i) eqn:E; [by rewrite E|].
    unfold allocTimer. simpl. rewrite lookup_insert_eq. eauto. }
  revert H1. generalize (match timers s !! i with
                         | Some _ => s
                         | None => allocTimer i s
                         end).
  intros s1 Ht.
  assert (H2 : let s2 := match entries s1 !! i with
                         | Some _ => s1
                         | None => with_entries (<[i := []]> (entries s1)) s1
                         end in
               is_Some (timers s2 !! i) /\ is_Some (entries s2 !! i)).
  { destruct (entries s1 !! i) eqn:E; simpl; [by rewrite E|].
    rewrite lookup_insert_eq. eauto. }
  revert H2. generalize (match entries s1 !! i with
                         | Some _ => s1
                         | None => with_entries (<[i := []]> (entries s1)) s1
                         end).
  clear Ht. intros s2 [Ht He].
  destruct (workspaceNames s2 !! i) as [[|c n]|] eqn:E;
    unfold equipped; simpl; (split; [done|]); (split; [done|]).
  - rewrite lookup_insert_eq. eauto using defaultName_nonempty.
  - rewrite E. eexists. split; [done|discriminate].
  - rewrite lookup_insert_eq. eauto using defaultName_nonempty.
Qed.

Lemma initWorkspaceState_sound (n : Z) (s : State) :
  timersSound s -> timersSound (initWorkspaceState n s).
Proof.
  unfold initWorkspaceState. apply foldl_preserves.
  intros; by apply initWorkspace_sound.
Qed.

Lemma initWorkspaceState_keeps (n w : Z) (s : State) :
  equipped s w -> equipped (initWorkspaceState n s) w.
Proof.
  unfold initWorkspaceState.
  apply (foldl_preserves (fun s => equipped s w)).
  intros; by apply initWorkspace_keeps.
Qed.

Lemma initWorkspaceState_equips (n w : Z) (s : State) :
  1 <= w <= n -> equipped (initWorkspaceState n s) w.
Proof.
  intros Hw. unfold initWorkspaceState.
  assert (Hin : w ∈ ids n) by (unfold ids; apply elem_of_seqZ; lia).
  revert s. induction (ids n) as [|i l IH]; intros s.
  - by apply elem_of_nil in Hin.
  - simpl. apply elem_of_cons in Hin as [->|Hin].
    + apply (foldl_preserves (fun s => equipped s i)).
      * intros; by apply initWorkspace_keeps.
      * apply initWorkspace_equips.
    + by apply IH.
Qed.

Lemma initWorkspace_count (i : Z) (s : State) :
  workspaceCount (initWorkspace i s) = workspaceCount s.
Proof.
  unfold initWorkspace. cbv zeta.
  destruct (timers s !! i); simpl; repeat case_match; reflexivity.
Qed.

Lemma initWorkspaceState_count (n : Z) (s : State) :
  workspaceCount (initWorkspaceState n s) = workspaceCount s.
Proof.
  unfold initWorkspaceState.
  apply (foldl_preserves (fun s' => workspaceCount s' = workspaceCount s));
    [|done].
  intros s' i H. by rewrite initWorkspace_count.
Qed.

Create HintDb equipment.

Ltac equipment :=
  unfold allEquipped, equippedTo, timersSound, equipped in *; simpl in *.

Lemma allEquipped_suspend k s : allEquipped s -> allEquipped (suspend k s).
Proof. exact id. Qed.

Lemma allEquipped_countLoop n i s : allEquipped s -> allEquipped (countLoop n i s).
Proof. unfold countLoop. by destruct (i <=? n). Qed.

Lemma allEquipped_countEntries n i s :
  allEquipped s -> allEquipped (countEntries n i s).
Proof.
  unfold countEntries. intros H.
  destruct (entries s !! i) as [[|e l]|]; auto using allEquipped_countLoop.
Qed.

Lemma allEquipped_rest n s :
  timersSound s -> allEquipped (changeWorkspaceCount_rest n s).
Proof.
  intros H. unfold changeWorkspaceCount_rest. apply allEquipped_countLoop.
  unfold allEquipped. rewrite initWorkspaceState_count. simpl.
  split.
  - by apply initWorkspaceState_sound.
  - intros w Hw. by apply initWorkspaceState_equips.
Qed.

Lemma allEquipped_sound s : allEquipped s -> timersSound s.
Proof. by intros [H _]. Qed.

Lemma allEquipped_afterStop k s : allEquipped s -> allEquipped (afterStop k s).
Proof. destruct k; simpl; auto using allEquipped_rest, allEquipped_sound. Qed.

Lemma allEquipped_heap_insert l t s :
  allEquipped s -> allEquipped (with_heap (<[l := t]> (heap s)) s).
Proof. equipment. rewrite length_insert. done. Qed.

Lemma allEquipped_tail w l s : allEquipped s -> allEquipped (stopTimer_tail w l s).
Proof.
  intros H. unfold stopTimer_tail. cbv zeta.
  case_decide; by apply (allEquipped_heap_insert l).
Qed.

Lemma is_Some_insert_keeps {V} (m : gmap Z V) (i w : Z) (v : V) :
  is_Some (m !! w) -> is_Some (<[i := v]> m !! w).
Proof.
  intros H. destruct (decide (i = w)) as [->|?];
    [rewrite lookup_insert_eq; eauto|by rewrite lookup_insert_ne].
Qed.

Lemma allEquipped_entries_insert w l s :
  allEquipped s -> allEquipped (with_entries (<[w := l]> (entries s)) s).
Proof.
  equipment. intros [Hs He]. split; [done|].
  intros w' Hw'. destruct (He w' Hw') as (? & ? & ?).
  auto using is_Some_insert_keeps.
Qed.

Lemma allEquipped_db_entries r s :
  allEquipped s -> allEquipped (with_db_entries r s).
Proof. exact id. Qed.

Lemma allEquipped_db_workspaces m s :
  allEquipped s -> allEquipped (with_db_workspaces m s).
Proof. exact id. Qed.

Lemma allEquipped_stopTimer_resume w l e s :
  allEquipped s -> allEquipped (stopTimer_resume w l e s).
Proof.
  intros H. unfold stopTimer_resume, addEntry. cbv zeta beta iota.
  apply allEquipped_tail, allEquipped_entries_insert. exact H.
Qed.

Lemma allEquipped_stopTimer k w tD tE desc s :
  allEquipped s -> allEquipped (stopTimer k w tD tE desc s).
Proof.
  intros H. unfold stopTimer, stopTimer_enter.
  destruct (timers s !! w) as [l|]; [|exact H].
  destruct (heap s !! l) as [timer|]; [|exact H].
  destruct (truthy (Timer.startTime timer)); [exact H|].
  by apply allEquipped_afterStop, allEquipped_tail.
Qed.

Lemma allEquipped_active a s :
  allEquipped s -> allEquipped (with_activeWorkspace a s).
Proof. exact id. Qed.

Lemma allEquipped_startTimer w tD tE desc tS s :
  allEquipped s -> allEquipped (startTimer w tD tE desc tS s).
Proof.
  intros H. unfold startTimer.
  set (s1 := match activeWorkspace s with
             | Some a => if decide (a = w) then s else stopTimer NoCaller a tD tE desc s
             | None => s
             end).
  assert (H1 : allEquipped s1).
  { subst s1. repeat case_match; auto using allEquipped_stopTimer. }
  clearbody s1. cbv zeta.
  repeat case_match; auto using allEquipped_active.
  by apply (allEquipped_heap_insert _ _ (with_activeWorkspace (Some w) s1)).
Qed.

Lemma allEquipped_clearAll s : allEquipped s -> allEquipped (clearAll s).
Proof.
  intros H. unfold clearAll. repeat case_match; try exact H.
  by apply (allEquipped_heap_insert _ _ s).
Qed.

Lemma allEquipped_clearWorkspace i s :
  allEquipped s -> allEquipped (clearWorkspace i s).
Proof.
  intros H. unfold clearWorkspace.
  apply (allEquipped_entries_insert i []) in H. revert H.
  generalize (with_entries (<[i:=[]]> (entries s)) s). clear s.
  intros s [Hs He]. split.
  - by apply timersSound_alloc.
  - intros w Hw. apply equipped_alloc, He. exact Hw.
Qed.

Lemma allEquipped_clearAll_resume s :
  allEquipped s -> allEquipped (clearAll_resume s).
Proof.
  intros H. unfold clearAll_resume. apply foldl_preserves; [|exact H].
  intros; by apply allEquipped_clearWorkspace.
Qed.

Lemma allEquipped_loadEntries i s : allEquipped s -> allEquipped (loadEntries i s).
Proof. intros H. by apply allEquipped_entries_insert. Qed.

Lemma allEquipped_names_insert i name s :
  name <> EmptyString ->
  allEquipped s ->
  allEquipped (with_workspaceNames (<[i := name]> (workspaceNames s)) s).
Proof.
  intros Hname. equipment. intros [Hs He]. split; [done|].
  intros w Hw. destruct (He w Hw) as (Ht & Hl & n & Hn & Hne).
  split; [done|]. split; [done|].
  destruct (decide (i = w)) as [->|?].
  - rewrite lookup_insert_eq. eauto.
  - rewrite lookup_insert_ne by done. eauto.
Qed.

#[local] Hint Resolve allEquipped_suspend allEquipped_countLoop
  allEquipped_countEntries allEquipped_afterStop allEquipped_tail
  allEquipped_stopTimer_resume allEquipped_stopTimer allEquipped_startTimer
  allEquipped_clearAll allEquipped_clearAll_resume allEquipped_loadEntries
  allEquipped_entries_insert allEquipped_db_entries allEquipped_db_workspaces
  : equipment.

Lemma allEquipped_resume k s : allEquipped s -> allEquipped (resume k s).
Proof.
  intros H.
  destruct k as [w l e c| |c i|c i name|c i|v|i name|w i|i d]; cbn [resume];
    repeat case_match; auto 6 with equipment.
  all: cbv zeta; auto 6 with equipment.
Qed.

Lemma allEquipped_handle ev s : allEquipped s -> allEquipped (handle ev s).
Proof.
  intros H.
  destruct ev as [w tD tE desc tS|w tD tE desc| |c tD tE desc|w i text|w i|i text|n];
    cbn [handle];
    unfold changeWorkspaceCount, editEntry, deleteEntry, renameWorkspace;
    cbv zeta; repeat case_match;
    auto using allEquipped_resume, allEquipped_rest, allEquipped_sound
      with equipment.
  apply allEquipped_suspend, allEquipped_names_insert; [|exact H].
  apply orDefault_nonempty, defaultName_nonempty.
Qed.

Lemma allEquipped_loadState rows wss cnt :
  allEquipped (loadState (initialState rows wss cnt)).
Proof.
  unfold loadState. cbv zeta.
  apply foldl_preserves; [intros; by apply allEquipped_loadEntries|].
  apply foldl_preserves.
  { intros s i H. unfold ensureWorkspace. by repeat case_match. }
  unfold allEquipped. rewrite initWorkspaceState_count. split.
  - apply initWorkspaceState_sound. split.
    + intros w l H. destruct cnt; simpl in H; by rewrite lookup_empty in H.
    + intros w1 w2 l H. destruct cnt; simpl in H; by rewrite lookup_empty in H.
  - intros w Hw. by apply initWorkspaceState_equips.
Qed.

Lemma reachable_allEquipped s : reachable s -> allEquipped s.
Proof.
  induction 1 as [rows wss cnt|s ev _ IH _].
  - apply allEquipped_loadState.
  - by apply allEquipped_handle.
Qed.

(** ** At most one timer runs when answers come in time *)

Lemma oneRunsOn_none (c : Z) (tm : gmap Z nat) (h : list Timer.t) :
  oneRunsOn c None tm h <->
  (forall w l t, tm !! w = Some l -> h !! l = Some t -> running t = false).
Proof.
  split.
  - intros [H1 _] w l t Hw Hl. destruct (running t) eqn:E; [|done].
    by specialize (H1 w l t Hw Hl E).
  - intros H. split; [|done]. intros w l t Hw Hl Hr.
    rewrite (H w l t Hw Hl) in Hr. discriminate.
Qed.

Lemma oneRuns_nobody (s : State) :
  activeWorkspace s = None -> (oneRuns s <-> nobodyRuns s).
Proof. intros Ha. unfold oneRuns. rewrite Ha. apply oneRunsOn_none. Qed.

(** The reset of the timer of a stop leaves at most the active workspace
    running. *)
Lemma oneRunsOn_reset (s : State) (w : Z) (l : nat) :
  timersSound s -> oneRuns s -> timers s !! w = Some l ->
  oneRunsOn (workspaceCount s)
            (if decide (activeWorkspace s = Some w) then None else activeWorkspace s)
            (timers s) (<[l := Timer.mk None 0]> (heap s)).
Proof.
  intros [Hv Hi] [H1 H2] Hw. split.
  - intros w' l' t' Hw' Hl' Hr.
    destruct (decide (l' = l)) as [->|Hne].
    + rewrite list_lookup_insert_eq in Hl' by eauto. by injection Hl' as <-.
    + rewrite list_lookup_insert_ne in Hl' by done.
      pose proof (H1 w' l' t' Hw' Hl' Hr) as Ha. rewrite Ha.
      destruct (decide (Some w' = Some w)) as [[= ->]|_]; [congruence|done].
  - intros a Ha.
    destruct (decide (activeWorkspace s = Some w)) as [|Hn]; [done|].
    destruct (H2 a Ha) as (Hr & la & ta & Hla & Hta & Hrun).
    split; [done|]. exists la, ta. split; [done|]. split; [|done].
    rewrite list_lookup_insert_ne; [done|].
    intros <-. apply Hn. rewrite Ha. f_equal. by apply (Hi a w l).
Qed.

Lemma oneRuns_tail (s : State) (w : Z) (l : nat) :
  oneRuns (stopTimer_tail w l s) <->
  oneRunsOn (workspaceCount s)
            (if decide (activeWorkspace s = Some w) then None else activeWorkspace s)
            (timers s) (<[l := Timer.mk None 0]> (heap s)).
Proof.
  unfold stopTimer_tail, oneRuns. cbv zeta. simpl.
  by destruct (decide (activeWorkspace s = Some w)).
Qed.

(** Starting a workspace while no other timer runs. *)
Lemma oneRunsOn_start (c : Z) (tm : gmap Z nat) (h : list Timer.t)
      (b : Z) (lb : nat) (tb : Timer.t) :
  (forall w1 w2 l, tm !! w1 = Some l -> tm !! w2 = Some l -> w1 = w2) ->
  1 <= b <= c -> tm !! b = Some lb -> (lb < length h)%nat -> running tb = true ->
  (forall w l t, tm !! w = Some l -> l <> lb -> h !! l = Some t -> running t = false) ->
  oneRunsOn c (Some b) tm (<[lb := tb]> h).
Proof.
  intros Hi Hb Hlb Hlen Hr Hothers. split.
  - intros w l t Hw Hl Hrun. f_equal.
    destruct (decide (l = lb)) as [->|Hne]; [by apply (Hi b w lb)|].
    rewrite list_lookup_insert_ne in Hl by done.
    rewrite (Hothers w l t Hw Hne Hl) in Hrun. discriminate.
  - intros a [= <-]. split; [done|]. exists lb, tb.
    split; [done|]. split; [|done]. by apply list_lookup_insert_eq.
Qed.

Lemma nobodyRuns_alloc (i : Z) (s : State) :
  timersSound s -> nobodyRuns s -> nobodyRuns (allocTimer i s).
Proof.
  intros [Hv _] H w l t. unfold allocTimer. simpl.
  destruct (decide (i = w)) as [->|Hne].
  - rewrite lookup_insert_eq. intros [= <-].
    rewrite lookup_app_r by lia. rewrite Nat.sub_diag. by intros [= <-].
  - rewrite lookup_insert_ne by done. intros Hw Hl.
    rewrite lookup_app_l in Hl by (by eapply Hv). by apply (H w l t).
Qed.

Lemma nobodyRuns_initWorkspace (i : Z) (s : State) :
  timersSound s /\ nobodyRuns s ->
  timersSound (initWorkspace i s) /\ nobodyRuns (initWorkspace i s).
Proof.
  intros [Hs Hn]. split; [by apply initWorkspace_sound|].
  unfold initWorkspace. cbv zeta.
  assert (H1 : nobodyRuns (match timers s !! i with
                           | Some _ => s
                           | None => allocTimer i s
                           end)).
  { destruct (timers s !! i); auto using nobodyRuns_alloc. }
  revert H1. generalize (match timers s !! i with
                         | Some _ => s
                         | None => allocTimer i s
                         end).
  intros s1 H1. repeat case_match; exact H1.
Qed.

Lemma nobodyRuns_initWorkspaceState (n : Z) (s : State) :
  timersSound s -> nobodyRuns s -> nobodyRuns (initWorkspaceState n s).
Proof.
  intros Hs Hn. unfold initWorkspaceState.
  apply (foldl_preserves (fun s => timersSound s /\ nobodyRuns s)); [|done].
  intros; by apply nobodyRuns_initWorkspace.
Qed.

Lemma nobodyRuns_clearAll_resume (s : State) :
  timersSound s -> nobodyRuns s -> nobodyRuns (clearAll_resume s).
Proof.
  intros Hs Hn. unfold clearAll_resume.
  apply (foldl_preserves (fun s => timersSound s /\ nobodyRuns s)); [|done].
  intros s' i [Hs' Hn']. unfold clearWorkspace. split.
  - by apply timersSound_alloc.
  - by apply nobodyRuns_alloc.
Qed.

Lemma initWorkspace_fields (i : Z) (s : State) :
  activeWorkspace (initWorkspace i s) = activeWorkspace s /\
  pending (initWorkspace i s) = pending s.
Proof.
  unfold initWorkspace. cbv zeta.
  destruct (timers s !! i); simpl; repeat case_match; done.
Qed.

Lemma initWorkspaceState_fields (n : Z) (s : State) :
  activeWorkspace (initWorkspaceState n s) = activeWorkspace s /\
  pending (initWorkspaceState n s) = pending s.
Proof.
  unfold initWorkspaceState.
  apply (foldl_preserves (fun s' => activeWorkspace s' = activeWorkspace s /\
                                    pending s' = pending s)); [|done].
  intros s' i [Ha Hp]. destruct (initWorkspace_fields i s') as [-> ->]. done.
Qed.

Lemma clearAll_resume_fields (s : State) :
  activeWorkspace (clearAll_resume s) = activeWorkspace s /\
  pending (clearAll_resume s) = pending s /\
  workspaceCount (clearAll_resume s) = workspaceCount s.
Proof.
  unfold clearAll_resume.
  apply (foldl_preserves (fun s' => activeWorkspace s' = activeWorkspace s /\
                                    pending s' = pending s /\
                                    workspaceCount s' = workspaceCount s)); done.
Qed.

Lemma orderlyInv_quiet (s : State) :
  allEquipped s -> pending s = [] -> oneRuns s -> orderlyInv s.
Proof. intros. split; [done|]. by left. Qed.

Lemma orderlyInv_plain (s : State) (k : Continuation) :
  allEquipped s -> pending s = [k] -> plain k -> oneRuns s -> orderlyInv s.
Proof. intros. split; [done|]. do 3 right. eauto. Qed.

Lemma orderlyInv_countLoop (n i : Z) (s : State) :
  allEquipped s -> pending s = [] -> oneRuns s -> orderlyInv (countLoop n i s).
Proof.
  intros He Hp Hr. unfold countLoop.
  destruct (i <=? n);
    (eapply orderlyInv_plain;
     [by apply allEquipped_suspend
     |unfold suspend; simpl; rewrite Hp; reflexivity
     |exact I
     |exact Hr]).
Qed.

Lemma orderlyInv_countEntries (n i : Z) (s : State) :
  allEquipped s -> pending s = [] -> oneRuns s -> orderlyInv (countEntries n i s).
Proof.
  intros He Hp Hr. unfold countEntries.
  destruct (entries s !! i) as [[|e l]|]; auto using orderlyInv_countLoop;
    (eapply orderlyInv_plain;
     [by apply allEquipped_suspend
     |unfold suspend; simpl; rewrite Hp; reflexivity
     |exact I
     |exact Hr]).
Qed.

Lemma orderlyInv_rest (n : Z) (s : State) :
  timersSound s -> activeWorkspace s = None -> nobodyRuns s -> pending s = [] ->
  orderlyInv (changeWorkspaceCount_rest n s).
Proof.
  intros Hs Ha Hn Hp. unfold changeWorkspaceCount_rest.
  set (s' := initWorkspaceState n (with_workspaceCount n s)).
  destruct (initWorkspaceState_fields n (with_workspaceCount n s)) as [Ha' Hp'].
  fold s' in Ha', Hp'. simpl in Ha', Hp'.
  apply orderlyInv_countLoop.
  - unfold allEquipped. subst s'. rewrite initWorkspaceState_count. simpl.
    split; [by apply initWorkspaceState_sound|].
    intros w Hw. by apply initWorkspaceState_equips.
  - by rewrite Hp'.
  - apply oneRuns_nobody; [by rewrite Ha'|].
    subst s'. by apply nobodyRuns_initWorkspaceState.
Qed.

Lemma stopTimer_tail_fields (w : Z) (l : nat) (s : State) :
  pending (stopTimer_tail w l s) = pending s /\
  activeWorkspace (stopTimer_tail w l s)
  = (if decide (activeWorkspace s = Some w) then None else activeWorkspace s) /\
  timers (stopTimer_tail w l s) = timers s /\
  heap (stopTimer_tail w l s) = <[l := Timer.mk None 0]> (heap s) /\
  workspaceCount (stopTimer_tail w l s) = workspaceCount s /\
  entries (stopTimer_tail w l s) = entries s /\
  db_entries (stopTimer_tail w l s) = db_entries s.
Proof.
  unfold stopTimer_tail. cbv zeta. simpl.
  by destruct (decide (activeWorkspace s = Some w)).
Qed.

Lemma orderlyInv_resume (s : State) (n : nat) :
  orderlyInv s -> orderlyInv (handle (Resume n) s).
Proof.
  intros Hinv. pose proof Hinv as [He Hcases]. cbn [handle].
  destruct Hcases as [[Hp Hr]|[(w & l & e & c & Hp & Hw & Hc & Hr)|
                     [(Hp & Hr & Ha)|(k & Hp & Hk & Hr)]]]; rewrite Hp.
  - by rewrite lookup_nil.
  - destruct n as [|n]; [|exact Hinv]. simpl.
    set (s1 := stopTimer_resume w l e (with_pending [] s)).
    assert (He1 : allEquipped s1) by (by apply allEquipped_stopTimer_resume).
    assert (Hp1 : pending s1 = []).
    { subst s1. unfold stopTimer_resume, addEntry. cbv zeta beta iota.
      by rewrite (proj1 (stopTimer_tail_fields w l _)). }
    assert (Hr1 : oneRuns s1).
    { subst s1. unfold stopTimer_resume, addEntry. cbv zeta beta iota.
      apply oneRuns_tail. exact Hr. }
    destruct c as [|n']; simpl; [by apply orderlyInv_quiet|].
    assert (Ha1 : activeWorkspace s1 = None).
    { subst s1. unfold stopTimer_resume, addEntry. cbv zeta beta iota.
      rewrite (proj1 (proj2 (stopTimer_tail_fields w l _))). simpl.
      rewrite Hc by done. by destruct (decide (Some w = Some w)). }
    apply orderlyInv_rest; [by destruct He1|done| |done].
    by apply oneRuns_nobody.
  - destruct n as [|n]; [|exact Hinv]. simpl.
    destruct (clearAll_resume_fields (with_pending [] s)) as (Ha' & Hp' & Hc').
    simpl in Ha', Hp', Hc'.
    apply orderlyInv_quiet.
    + by apply allEquipped_clearAll_resume.
    + done.
    + apply oneRuns_nobody; [by rewrite Ha'|].
      apply nobodyRuns_clearAll_resume; [by destruct He|].
      by apply (oneRuns_nobody s).
  - destruct n as [|n]; [|exact Hinv]. simpl.
    set (s0 := with_pending [] s).
    assert (He0 : allEquipped s0) by exact He.
    assert (Hp0 : pending s0 = []) by reflexivity.
    assert (Hr0 : oneRuns s0) by exact Hr.
    clearbody s0.
    destruct k as [w l e c| |c i|c i name|c i|v|i name|w i|i d];
      try (by destruct Hk); cbn [resume].
    + destruct (db_workspaces s0 !! i).
      * by apply orderlyInv_countEntries.
      * eapply orderlyInv_plain;
          [by apply allEquipped_suspend
          |unfold suspend; simpl; rewrite Hp0; reflexivity
          |exact I
          |exact Hr0].
    + destruct name as [nm|]; [|by apply orderlyInv_quiet].
      destruct (db_workspaces s0 !! i); [by apply orderlyInv_quiet|].
      by apply orderlyInv_countEntries.
    + apply orderlyInv_countLoop; [by apply allEquipped_loadEntries|done|done].
    + by apply orderlyInv_quiet.
    + by apply orderlyInv_quiet.
    + cbv zeta. apply orderlyInv_quiet; [|done|done].
      by apply allEquipped_entries_insert.
    + by apply orderlyInv_quiet.
Qed.

Lemma oneRunsOn_start_alone (s : State) (b : Z) (lb : nat) (tb : Timer.t) :
  timersSound s -> oneRuns s ->
  activeWorkspace s = None \/ activeWorkspace s = Some b ->
  1 <= b <= workspaceCount s -> timers s !! b = Some lb -> running tb = true ->
  oneRunsOn (workspaceCount s) (Some b) (timers s) (<[lb := tb]> (heap s)).
Proof.
  intros [Hv Hi] [H1 _] Ha Hb Hlb Hr.
  apply oneRunsOn_start; eauto.
  intros w l t Hw Hne Hl. destruct (running t) eqn:E; [|done]. exfalso.
  pose proof (H1 w l t Hw Hl E) as Hact.
  destruct Ha as [Ha|Ha]; rewrite Ha in Hact; [discriminate|].
  injection Hact as <-. congruence.
Qed.

Lemma oneRunsOn_switch (s : State) (a b : Z) (la lb : nat) (tb : Timer.t) :
  timersSound s -> oneRuns s ->
  activeWorkspace s = Some a -> a <> b ->
  timers s !! a = Some la -> timers s !! b = Some lb ->
  1 <= b <= workspaceCount s -> running tb = true ->
  oneRunsOn (workspaceCount s) (Some b) (timers s)
            (<[lb := tb]> (<[la := Timer.mk None 0]> (heap s))).
Proof.
  intros [Hv Hi] [H1 _] Ha Hab Hla Hlb Hb Hr.
  apply oneRunsOn_start; eauto.
  { rewrite length_insert. eauto. }
  intros w l t Hw Hne Hl. destruct (running t) eqn:E; [|done]. exfalso.
  destruct (decide (l = la)) as [->|Hne'].
  - rewrite list_lookup_insert_eq in Hl by eauto.
    injection Hl as <-. discriminate.
  - rewrite list_lookup_insert_ne in Hl by done.
    pose proof (H1 w l t Hw Hl E) as Hact. rewrite Ha in Hact.
    injection Hact as <-. congruence.
Qed.

Lemma orderlyInv_startTimer (s : State) (b tD tE : Z) (desc : string) (tS : Z) :
  orderlyInv s -> pending s = [] -> 1 <= b <= workspaceCount s ->
  orderlyInv (startTimer b tD tE desc tS s).
Proof.
  intros [He Hcases] Hp Hb.
  assert (Hr : oneRuns s).
  { destruct Hcases as [[_ Hr]|[(? & ? & ? & ? & Hp' & _)|
                       [(Hp' & _)|(? & Hp' & _)]]]; [done|congruence..]. }
  clear Hcases. pose proof He as [Hs Heq].
  destruct (Heq b Hb) as ([lb Hlb] & _).
  pose proof Hs as [Hv Hi].
  destruct (lookup_lt_is_Some_2 (heap s) lb (Hv b lb Hlb)) as [tb Htb].
  unfold startTimer.
  destruct (activeWorkspace s) as [a|] eqn:Ha.
  - destruct (decide (a = b)) as [->|Hab].
    + cbv zeta. simpl. rewrite Hlb, Htb.
      apply orderlyInv_quiet; [|done|].
      * by apply (allEquipped_heap_insert _ _ (with_activeWorkspace (Some b) s)).
      * apply (oneRunsOn_start_alone s b lb); auto.
    + destruct Hr as [H1 H2].
      destruct (H2 a Ha) as (Hra & la & ta & Hla & Hta & Hrun).
      assert (Hll : la <> lb) by (intros ->; by apply Hab, (Hi a b lb)).
      unfold stopTimer, stopTimer_enter. rewrite Hla, Hta.
      destruct (truthy (Timer.startTime ta)).
      * cbv zeta. simpl. rewrite Hlb, Htb.
        split.
        { by apply (allEquipped_heap_insert _ _
                      (with_activeWorkspace (Some b) (suspend _ s))). }
        right. left. do 4 eexists. simpl. rewrite Hp. simpl.
        split; [reflexivity|]. split; [exact Hla|]. split; [done|].
        destruct (decide (Some b = Some a)) as [[= ->]|_]; [done|].
        rewrite list_insert_insert_ne by done.
        apply (oneRunsOn_switch s a b la lb); auto. by split.
      * simpl afterStop.
        destruct (stopTimer_tail_fields a la s)
          as (Hp' & Ha' & Ht' & Hh' & Hc' & _).
        assert (Heq' : allEquipped (stopTimer_tail a la s))
          by (by apply allEquipped_tail).
        revert Hp' Ha' Ht' Hh' Hc' Heq'.
        generalize (stopTimer_tail a la s). intros st Hp' Ha' Ht' Hh' Hc' Heq'.
        assert (Hlb' : timers st !! b = Some lb) by (by rewrite Ht').
        assert (Htb' : heap st !! lb = Some tb).
        { rewrite Hh'. by rewrite list_lookup_insert_ne. }
        cbv zeta. simpl. rewrite Hlb', Htb'.
        split.
        { by apply (allEquipped_heap_insert _ _
                      (with_activeWorkspace (Some b) st)). }
        left. simpl. split; [by rewrite Hp'|].
        unfold oneRuns. simpl. rewrite Hc', Ht', Hh'.
        apply (oneRunsOn_switch s a b la lb); auto. by split.
  - cbv zeta. simpl. rewrite Hlb, Htb.
    apply orderlyInv_quiet; [|done|].
    + by apply (allEquipped_heap_insert _ _ (with_activeWorkspace (Some b) s)).
    + apply (oneRunsOn_start_alone s b lb); auto.
Qed.

Lemma orderlyInv_oneRuns (s : State) :
  orderlyInv s -> pending s = [] -> oneRuns s.
Proof.
  intros [_ Hcases] Hp.
  destruct Hcases as [[_ Hr]|[(? & ? & ? & ? & Hp' & _)|
                     [(Hp' & _)|(? & Hp' & _)]]]; [done|congruence..].
Qed.

Lemma orderlyInv_stopTimer (s : State) (k : Caller) (w tD tE : Z) (desc : string) :
  orderlyInv s -> pending s = [] -> 1 <= w <= workspaceCount s ->
  (k <> NoCaller -> activeWorkspace s = Some w) ->
  orderlyInv (stopTimer k w tD tE desc s).
Proof.
  intros Hinv Hp Hw Hk.
  pose proof (orderlyInv_oneRuns s Hinv Hp) as Hr.
  destruct Hinv as [He _]. pose proof He as [Hs Heq].
  destruct (Heq w Hw) as ([l Hl] & _).
  unfold stopTimer, stopTimer_enter. rewrite Hl.
  destruct (heap s !! l) as [t|]; [|by apply orderlyInv_quiet].
  destruct (truthy (Timer.startTime t)).
  - split; [exact He|]. right. left. do 4 eexists. simpl. rewrite Hp.
    split; [reflexivity|]. split; [exact Hl|]. split; [exact Hk|].
    by apply oneRunsOn_reset.
  - destruct (stopTimer_tail_fields w l s) as (Hp' & Ha' & Ht' & Hh' & Hc' & _).
    assert (Hr' : oneRuns (stopTimer_tail w l s)).
    { apply oneRuns_tail. by apply oneRunsOn_reset. }
    destruct k as [|n]; simpl.
    + apply orderlyInv_quiet; [by apply allEquipped_tail|by rewrite Hp'|done].
    + assert (Hnone : activeWorkspace (stopTimer_tail w l s) = None).
      { rewrite Ha', Hk by done. by destruct (decide (Some w = Some w)). }
      apply orderlyInv_rest.
      * by apply allEquipped_sound, allEquipped_tail.
      * done.
      * by apply oneRuns_nobody.
      * by rewrite Hp'.
Qed.

Lemma orderlyInv_clearAll (s : State) :
  orderlyInv s -> pending s = [] -> orderlyInv (clearAll s).
Proof.
  intros Hinv Hp.
  pose proof (orderlyInv_oneRuns s Hinv Hp) as Hr.
  destruct Hinv as [He _]. pose proof He as [Hs Heq].
  unfold clearAll. destruct (activeWorkspace s) as [a|] eqn:Ha; simpl.
  - destruct Hr as [H1 H2].
    destruct (H2 a Ha) as (Hra & la & ta & Hla & Hta & Hrun).
    destruct (a =? 0) eqn:E; [lia|]. simpl. rewrite Hla.
    split; [by apply (allEquipped_heap_insert _ _ s)|].
    right. right. left. simpl. rewrite Hp. split; [done|]. split; [|done].
    pose proof (oneRunsOn_reset s a la Hs (conj H1 H2) Hla) as Hreset.
    rewrite Ha in Hreset.
    by destruct (decide (Some a = Some a)).
  - split; [exact He|]. right. right. left. simpl. rewrite Hp.
    split; [done|]. split; [exact Hr|exact Ha].
Qed.

Lemma orderlyInv_changeWorkspaceCount (s : State) (n tD tE : Z) (desc : string) :
  orderlyInv s -> pending s = [] ->
  orderlyInv (changeWorkspaceCount n tD tE desc s).
Proof.
  intros Hinv Hp.
  pose proof (orderlyInv_oneRuns s Hinv Hp) as Hr.
  unfold changeWorkspaceCount.
  destruct (activeWorkspace s) as [a|] eqn:Ha; simpl.
  - destruct (proj2 Hr a Ha) as (Hra & _).
    destruct (a =? 0) eqn:E; [lia|]. simpl.
    by apply orderlyInv_stopTimer.
  - destruct Hinv as [He _].
    apply orderlyInv_rest; [by apply allEquipped_sound|done| |done].
    by apply oneRuns_nobody.
Qed.

Lemma orderlyInv_event (s : State) (ev : Event) :
  orderlyInv s -> pending s = [] -> enabled ev s -> orderlyInv (handle ev s).
Proof.
  intros Hinv Hp Hen.
  pose proof (orderlyInv_oneRuns s Hinv Hp) as Hr.
  pose proof Hinv as [He _].
  destruct ev as [w tD tE desc tS|w tD tE desc| |c tD tE desc|w i text|w i|i text|n];
    cbn [handle].
  - by apply orderlyInv_startTimer.
  - by apply orderlyInv_stopTimer.
  - by apply orderlyInv_clearAll.
  - by apply orderlyInv_changeWorkspaceCount.
  - unfold editEntry. cbv zeta.
    destruct (entries s !! w) as [l|]; [|done].
    destruct (existsb _ l); [|done].
    eapply orderlyInv_plain.
    + by apply allEquipped_suspend, allEquipped_entries_insert.
    + unfold suspend. simpl. by rewrite Hp.
    + exact I.
    + exact Hr.
  - apply (orderlyInv_plain _ (DeleteK w i)); [exact He| |exact I|exact Hr].
    unfold deleteEntry, suspend. simpl. by rewrite Hp.
  - unfold renameWorkspace. cbv zeta. eapply orderlyInv_plain.
    + apply allEquipped_suspend, allEquipped_names_insert; [|exact He].
      apply orDefault_nonempty, defaultName_nonempty.
    + unfold suspend. simpl. by rewrite Hp.
    + exact I.
    + exact Hr.
  - by rewrite Hp, lookup_nil.
Qed.


Lemma loadState_fresh_from (s : State) :
  pending s = [] /\ activeWorkspace s = None /\ timersSound s /\ nobodyRuns s ->
  pending (loadState s) = [] /\ activeWorkspace (loadState s) = None /\
  timersSound (loadState s) /\ nobodyRuns (loadState s).
Proof.
  intros H. unfold loadState. cbv zeta.
  apply (foldl_preserves
           (fun s => pending s = [] /\ activeWorkspace s = None /\
                     timersSound s /\ nobodyRuns s));
    [intros s' i H'; exact H'|].
  apply (foldl_preserves
           (fun s => pending s = [] /\ activeWorkspace s = None /\
                     timersSound s /\ nobodyRuns s)).
  { intros s' i H'. unfold ensureWorkspace. by repeat case_match. }
  set (s0 := with_workspaceNames _ _).
  assert (H0 : pending s0 = [] /\ activeWorkspace s0 = None /\
               timersSound s0 /\ nobodyRuns s0).
  { subst s0. destruct (db_count s); exact H. }
  destruct H0 as (Hp & Ha & Hs & Hn).
  destruct (initWorkspaceState_fields (workspaceCount s0) s0) as [Ha' Hp'].
  split; [by rewrite Hp'|]. split; [by rewrite Ha'|].
  split; [by apply initWorkspaceState_sound|].
  by apply nobodyRuns_initWorkspaceState.
Qed.

Lemma loadState_fresh rows wss cnt :
  let s := loadState (initialState rows wss cnt) in
  pending s = [] /\ activeWorkspace s = None /\ nobodyRuns s.
Proof.
  cbv zeta.
  destruct (loadState_fresh_from (initialState rows wss cnt)) as (? & ? & _ & ?);
    [|done].
  repeat split; try done; intros *; simpl; rewrite lookup_empty; discriminate.
Qed.

Lemma orderlyInv_loadState rows wss cnt :
  orderlyInv (loadState (initialState rows wss cnt)).
Proof.
  destruct (loadState_fresh rows wss cnt) as (Hp & Ha & Hn).
  apply orderlyInv_quiet; [apply allEquipped_loadState|done|].
  by apply oneRuns_nobody.
Qed.

Lemma orderly_orderlyInv (s : State) : orderly s -> orderlyInv s.
Proof.
  induction 1 as [rows wss cnt|s n _ IH|s ev _ IH Hp Hen].
  - apply orderlyInv_loadState.
  - by apply orderlyInv_resume.
  - by apply orderlyInv_event.
Qed.

Lemma filter_all_none {A} (P : A -> Prop) `{!forall x, Decision (P x)}
      (l : list A) :
  (forall x, x ∈ l -> P x -> False) -> filter P l = [].
Proof.
  induction l as [|x l IH]; intros Hall; [done|].
  rewrite filter_cons, decide_False.
  - apply IH. intros y Hy. apply Hall. by right.
  - intros Px. apply (Hall x); [by left|done].
Qed.

Lemma filter_only {A} (P : A -> Prop) `{!forall x, Decision (P x)}
      (a : A) (l : list A) :
  NoDup l -> a ∈ l -> P a -> (forall x, x ∈ l -> P x -> x = a) ->
  filter P l = [a].
Proof.
  induction 1 as [|x l Hx Hnd IH]; intros Hin Ha Hall.
  - by apply elem_of_nil in Hin.
  - rewrite filter_cons. apply elem_of_cons in Hin as [<-|Hin].
    + rewrite decide_True by done. f_equal.
      apply filter_all_none. intros y Hy Py.
      assert (y = a) by (apply Hall; [by right|done]). congruence.
    + rewrite decide_False.
      * apply IH; [done|done|]. intros y Hy Py. apply Hall; [by right|done].
      * intros Px. assert (x = a) by (apply Hall; [by left|done]). congruence.
Qed.

Lemma oneRuns_singleActive (s : State) : oneRuns s -> singleActive s.
Proof.
  intros [H1 H2]. unfold singleActive, runningWorkspaces.
  assert (Hrun : forall w, Is_true (runningAt s w) -> activeWorkspace s = Some w).
  { intros w Hw. unfold runningAt, timerOf in Hw.
    destruct (timers s !! w) as [l|] eqn:El; [|done].
    destruct (heap s !! l) as [t|] eqn:Et; [|done].
    apply (H1 w l t El Et). by apply Is_true_true. }
  destruct (activeWorkspace s) as [a|] eqn:Ha.
  - destruct (H2 a eq_refl) as (Hra & l & t & Hl & Ht & Hr).
    rewrite (filter_only _ a).
    + done.
    + apply NoDup_seqZ.
    + unfold ids. apply elem_of_seqZ. lia.
    + unfold runningAt, timerOf. rewrite Hl, Ht, Hr. exact I.
    + intros w _ Hw. specialize (Hrun w Hw). congruence.
  - rewrite filter_all_none; [done|].
    intros w _ Hw. specialize (Hrun w Hw). discriminate.
Qed.


Lemma orderly_settled : orderly settled.
Proof.
  unfold settled, switched, firstRunning.
  apply orderly_resume.
  apply orderly_event; [|vm_compute; reflexivity|vm_compute; split; discriminate].
  apply orderly_event; [|vm_compute; reflexivity|vm_compute; split; discriminate].
  apply orderly_load.
Qed.


(** X2. In every reachable state, each workspace from 1 to [workspaceCount]
    has a timer object, an entry list and a name that is not empty; so
    [stopTimer] on it never meets an undefined timer. *)
Theorem workspaces_always_equipped (s : State) (w : Z) :
  reachable s -> 1 <= w <= workspaceCount s ->
  (exists l t, timers s !! w = Some l /\ heap s !! l = Some t) /\
  (exists l, entries s !! w = Some l) /\
  (exists name, workspaceNames s !! w = Some name /\ name <> EmptyString) /\
  (forall tDuration tEnd desc,
     stopTimer_enter w tDuration tEnd desc s <> StopRejected).
Proof.
  intros Hr Hw. destruct (reachable_allEquipped s Hr) as [[Hv _] He].
  destruct (He w Hw) as ([l Hl] & [es Hes] & Hname).
  destruct (lookup_lt_is_Some_2 (heap s) l (Hv w l Hl)) as [t Ht].
  split; [eauto|]. split; [eauto|]. split; [exact Hname|].
  intros tD tE desc. unfold stopTimer_enter. rewrite Hl, Ht.
  by destruct (truthy (Timer.startTime t)).
Qed.

(** The workspaces of the state in which workspace 1 runs. *)
Lemma workspaces_always_equipped_witness :
  reachable firstRunning /\ 1 <= 1 <= workspaceCount firstRunning /\
  (exists l t, timers firstRunning !! 1 = Some l /\ heap firstRunning !! l = Some t) /\
  (exists l, entries firstRunning !! 1 = Some l) /\
  (exists name, workspaceNames firstRunning !! 1 = Some name /\ name <> EmptyString) /\
  (forall tDuration tEnd desc,
     stopTimer_enter 1 tDuration tEnd desc firstRunning <> StopRejected).
Proof.
  assert (Hr : reachable firstRunning).
  { apply reachable_handle; [apply reachable_load|].
    vm_compute. split; discriminate. }
  assert (Hw : 1 <= 1 <= workspaceCount firstRunning).
  { vm_compute. split; discriminate. }
  split; [exact Hr|]. split; [exact Hw|].
  exact (workspaces_always_equipped firstRunning 1 Hr Hw).
Defined.

Lemma stopTimer_NoCaller_keeps (a tD tE : Z) (desc : string) (s : State) :
  timers (stopTimer NoCaller a tD tE desc s) = timers s /\
  length (heap (stopTimer NoCaller a tD tE desc s)) = length (heap s).
Proof.
  unfold stopTimer, stopTimer_enter.
  destruct (timers s !! a) as [l|]; [|done].
  destruct (heap s !! l) as [t|]; [|done].
  destruct (truthy (Timer.startTime t)); [done|]. simpl.
  destruct (stopTimer_tail_fields a l s) as (_ & _ & -> & -> & _).
  by rewrite length_insert.
Qed.

(** X3. In every reachable state, [startTimer] on a workspace from 1 to
    [workspaceCount] takes effect: afterwards that workspace is the active
    one and its timer has the instant of the call as [startTime], with an
    empty accumulator. *)
Theorem startTimer_takes_effect (s : State) (w tDuration tEnd : Z)
        (desc : string) (tStart : Z) :
  reachable s -> 1 <= w <= workspaceCount s ->
  activeWorkspace (startTimer w tDuration tEnd desc tStart s) = Some w /\
  timerOf (startTimer w tDuration tEnd desc tStart s) w
  = Some (Timer.mk (Some tStart) 0).
Proof.
  intros Hr Hw.
  assert (Hz : elapsedZero (startTimer w tDuration tEnd desc tStart s)).
  { by apply elapsedZero_startTimer, reachable_elapsedZero. }
  destruct (reachable_allEquipped s Hr) as [[Hv _] He].
  destruct (He w Hw) as ([l Hl] & _).
  revert Hz. unfold startTimer.
  set (s1 := match activeWorkspace s with
             | Some a => if decide (a = w) then s
                         else stopTimer NoCaller a tDuration tEnd desc s
             | None => s
             end).
  assert (H1 : timers s1 = timers s /\ length (heap s1) = length (heap s)).
  { subst s1. destruct (activeWorkspace s) as [a|]; [|done].
    destruct (decide (a = w)); [done|]. apply stopTimer_NoCaller_keeps. }
  destruct H1 as [Ht Hlen]. clearbody s1. cbv zeta. simpl.
  rewrite Ht, Hl.
  assert (Hlt : (l < length (heap s1))%nat) by (rewrite Hlen; by eapply Hv).
  destruct (lookup_lt_is_Some_2 (heap s1) l Hlt) as [t Hl1]. rewrite Hl1.
  intros Hz. split; [done|]. unfold timerOf. simpl. rewrite Ht, Hl.
  rewrite list_lookup_insert_eq by done.
  unfold elapsedZero in Hz. simpl in Hz.
  assert (Hin : (<[l := Timer.mk (Some tStart) (Timer.elapsed t)]> (heap s1)) !! l
                = Some (Timer.mk (Some tStart) (Timer.elapsed t)))
    by (by apply list_lookup_insert_eq).
  pose proof (Forall_lookup_1 _ _ _ _ Hz Hin) as He0. simpl in He0.
  by rewrite He0.
Qed.

(** Workspace 2 is started while workspace 1 runs. *)
Lemma startTimer_takes_effect_witness :
  reachable firstRunning /\ 1 <= 2 <= workspaceCount firstRunning /\
  activeWorkspace (startTimer 2 5000 5000 "write" 5000 firstRunning) = Some 2 /\
  timerOf (startTimer 2 5000 5000 "write" 5000 firstRunning) 2
  = Some (Timer.mk (Some 5000) 0).
Proof.
  assert (Hr : reachable firstRunning).
  { apply reachable_handle; [apply reachable_load|].
    vm_compute. split; discriminate. }
  assert (Hw : 1 <= 2 <= workspaceCount firstRunning).
  { vm_compute. split; discriminate. }
  split; [exact Hr|]. split; [exact Hw|].
  exact (startTimer_takes_effect firstRunning 2 5000 5000 "write" 5000 Hr Hw).
Defined.

(** ** loadState *)

Lemma loadEntries_fold (l : list Z) (s : State) :
  db_entries (foldl (fun s i => loadEntries i s) s l) = db_entries s /\
  workspaceCount (foldl (fun s i => loadEntries i s) s l) = workspaceCount s /\
  forall i, entries (foldl (fun s i => loadEntries i s) s l) !! i
            = if decide (i ∈ l)
              then Some (entryOfRow <$> selectEntries i (db_entries s))
              else entries s !! i.
Proof.
  revert s. induction l as [|x l IH]; intros s.
  - cbn [foldl]. split; [done|]. split; [done|]. intros i.
    destruct (decide (i ∈ [])) as [Hin|_]; [|done].
    by apply elem_of_nil in Hin.
  - cbn [foldl]. destruct (IH (loadEntries x s)) as (Hd & Hc & He).
    split; [by rewrite Hd|]. split; [by rewrite Hc|].
    intros i. rewrite He. simpl.
    destruct (decide (i ∈ l)) as [Hin|Hnin].
    + rewrite decide_True; [done|by right].
    + destruct (decide (i = x)) as [->|Hne].
      * rewrite decide_True by (by left). by rewrite lookup_insert_eq.
      * rewrite decide_False.
        -- by rewrite lookup_insert_ne.
        -- intros [?|?]%elem_of_cons; done.
Qed.

Lemma ensureWorkspace_fold (l : list Z) (s : State) :
  db_entries (foldl (fun s i => ensureWorkspace i s) s l) = db_entries s /\
  workspaceCount (foldl (fun s i => ensureWorkspace i s) s l) = workspaceCount s.
Proof.
  apply (foldl_preserves
           (fun s' => db_entries s' = db_entries s /\
                      workspaceCount s' = workspaceCount s)); [|done].
  intros s' i H. unfold ensureWorkspace. by repeat case_match.
Qed.

Lemma initWorkspace_db (i : Z) (s : State) :
  db_entries (initWorkspace i s) = db_entries s.
Proof.
  unfold initWorkspace. cbv zeta.
  destruct (timers s !! i); simpl; repeat case_match; reflexivity.
Qed.

Lemma initWorkspaceState_db (n : Z) (s : State) :
  db_entries (initWorkspaceState n s) = db_entries s.
Proof.
  unfold initWorkspaceState.
  apply (foldl_preserves (fun s' => db_entries s' = db_entries s)); [|done].
  intros s' i H. by rewrite initWorkspace_db.
Qed.

(** What [loadState] reads: the count, and for each workspace up to the count
    the rows of the workspace, latest start first. *)
Lemma loadState_reads (rows : list Row.t) (wss : gmap Z string) (cnt : option Z) :
  let s := loadState (initialState rows wss cnt) in
  workspaceCount s = match cnt with
                     | Some v => if v =? 0 then 1 else v
                     | None => 1
                     end /\
  db_entries s = rows /\
  forall i, 1 <= i <= workspaceCount s ->
            entries s !! i = Some (entryOfRow <$> selectEntries i rows).
Proof.
  cbv zeta. unfold loadState. cbv zeta.
  set (s2 := with_workspaceNames _ _).
  set (s3 := initWorkspaceState (workspaceCount s2) s2).
  set (s4 := foldl (fun s i => ensureWorkspace i s) s3 (ids (workspaceCount s3))).
  destruct (loadEntries_fold (ids (workspaceCount s4)) s4) as (Hd & Hc & He).
  destruct (ensureWorkspace_fold (ids (workspaceCount s3)) s3) as (Hd4 & Hc4).
  fold s4 in Hd4, Hc4.
  assert (Hc3 : workspaceCount s3 = workspaceCount s2)
    by apply initWorkspaceState_count.
  assert (Hd3 : db_entries s3 = db_entries s2) by apply initWorkspaceState_db.
  assert (Hc2 : workspaceCount s2 = match cnt with
                                    | Some v => if v =? 0 then 1 else v
                                    | None => 1
                                    end).
  { subst s2. by destruct cnt. }
  assert (Hd2 : db_entries s2 = rows).
  { subst s2. by destruct cnt. }
  split; [congruence|]. split; [congruence|].
  intros i Hi. rewrite He. rewrite Hc in Hi.
  rewrite decide_True by (unfold ids; apply elem_of_seqZ; lia).
  congruence.
Qed.

(** X4. Whatever the database holds, [loadState] starts with nothing
    suspended, no active workspace, and every timer stopped at zero: the
    single-active-timer invariant holds at start. *)
Theorem loadState_starts_idle (rows : list Row.t) (wss : gmap Z string)
        (cnt : option Z) :
  let s := loadState (initialState rows wss cnt) in
  pending s = [] /\
  activeWorkspace s = None /\
  singleActive s /\
  forall w t, timerOf s w = Some t -> t = Timer.mk None 0.
Proof.
  cbv zeta. destruct (loadState_fresh rows wss cnt) as (Hp & Ha & Hn).
  split; [done|]. split; [done|]. split.
  - apply oneRuns_singleActive. by apply oneRuns_nobody.
  - intros w t Ht. unfold timerOf in Ht.
    destruct (timers _ !! w) as [l|] eqn:Hl; [|done].
    pose proof (Hn w l t Hl Ht) as Hr.
    pose proof (Forall_lookup_1 _ _ _ _ (elapsedZero_loadState rows wss cnt) Ht)
      as He. simpl in He.
    destruct t as [[st|] el]; simpl in *; [discriminate|by subst].
Qed.

Lemma Sorted_fmap_rel {A B} (f : A -> B) (R : A -> A -> Prop) (R' : B -> B -> Prop)
      (l : list A) :
  (forall a b, R a b -> R' (f a) (f b)) -> Sorted R l -> Sorted R' (f <$> l).
Proof.
  intros Hf. induction 1 as [|x l Hs IH Hhd]; [constructor|].
  rewrite fmap_cons. constructor; [exact IH|].
  destruct Hhd as [|y l' Hxy]; [constructor|].
  rewrite fmap_cons. constructor. by apply Hf.
Qed.

(** X5. [loadState] leaves the table as it is and gives every workspace up
    to the stored count an entry list that holds exactly the rows of the
    table with that [workspace_id], each once, with the id, start, end and
    duration of the row and its description, or [No description] for an
    empty one; in the list no entry starts later than the entry before it.
    An absent or zero count means one workspace. *)
Theorem loadState_reads_database (rows : list Row.t) (wss : gmap Z string)
        (cnt : option Z) (i : Z) :
  let s := loadState (initialState rows wss cnt) in
  1 <= i <= workspaceCount s ->
  workspaceCount s = match cnt with
                     | Some v => if v =? 0 then 1 else v
                     | None => 1
                     end /\
  db_entries s = rows /\
  exists es,
    entries s !! i = Some es /\
    es ≡ₚ (fun r => Entry.mk (Some (Row.id r)) (Row.start_time r) (Row.end_time r)
                             (Row.duration r)
                             (match Row.description r with
                              | EmptyString => "No description"
                              | d => d
                              end))
          <$> filter (fun r => Row.workspace_id r = i) rows /\
    Sorted (fun a b => Entry.startTime b <= Entry.startTime a) es.
Proof.
  cbv zeta. intros Hi.
  destruct (loadState_reads rows wss cnt) as (Hc & Hd & He).
  split; [exact Hc|]. split; [exact Hd|].
  exists (entryOfRow <$> selectEntries i rows).
  split; [by apply He|]. split.
  - unfold selectEntries. rewrite sortWith_Permutation.
    erewrite (list_fmap_ext entryOfRow); [reflexivity|].
    intros _ r _. unfold entryOfRow, orDefault. by destruct (Row.description r).
  - unfold selectEntries.
    apply (Sorted_fmap_rel _ (fun a b => Row.start_time b - Row.start_time a <= 0)).
    + intros a b. simpl. lia.
    + apply sortWith_Sorted. intros a b. lia.
Qed.

(** Two workspaces over a table with three rows, two of workspace 2. *)
Lemma loadState_reads_database_witness :
  let rows := [Row.mk 7 2 1000 5000 4000 "write"; Row.mk 8 1 2000 3000 1000 "read";
               Row.mk 9 2 6000 9000 3000 EmptyString] in
  let s := loadState (initialState rows ∅ (Some 2)) in
  1 <= 2 <= workspaceCount s /\
  workspaceCount s = 2 /\
  db_entries s = rows /\
  exists es,
    entries s !! 2 = Some es /\
    es ≡ₚ (fun r => Entry.mk (Some (Row.id r)) (Row.start_time r) (Row.end_time r)
                             (Row.duration r)
                             (match Row.description r with
                              | EmptyString => "No description"
                              | d => d
                              end))
          <$> filter (fun r => Row.workspace_id r = 2) rows /\
    Sorted (fun a b => Entry.startTime b <= Entry.startTime a) es.
Proof.
  cbv zeta.
  assert (H : 1 <= 2 <= workspaceCount
                (loadState (initialState
                   [Row.mk 7 2 1000 5000 4000 "write"; Row.mk 8 1 2000 3000 1000 "read";
                    Row.mk 9 2 6000 9000 3000 EmptyString] ∅ (Some 2)))).
  { vm_compute. split; discriminate. }
  split; [exact H|].
  exact (loadState_reads_database
           [Row.mk 7 2 1000 5000 4000 "write"; Row.mk 8 1 2000 3000 1000 "read";
            Row.mk 9 2 6000 9000 3000 EmptyString] ∅ (Some 2) 2 H).
Defined.

(** X6. Round trip through the database: the entry that a stop stores is in
    the list of its workspace after the next [loadState], with the same id,
    times, duration and description, provided the stored count shows the
    workspace. *)
Theorem stop_then_reload (s1 : State) (w : Z) (l : nat) (e : Entry.t) :
  let s' := stopTimer_resume w l e s1 in
  let reloaded := loadState (initialState (db_entries s') (db_workspaces s')
                                          (db_count s')) in
  1 <= w <= workspaceCount reloaded ->
  exists es,
    entries reloaded !! w = Some es /\
    Entry.mk (Some (lastInsertId (db_entries s1))) (Entry.startTime e)
             (Entry.endTime e) (Entry.duration e)
             (orDefault (Entry.description e) "No description") ∈ es.
Proof.
  cbv zeta. intros Hw.
  destruct (loadState_reads (db_entries (stopTimer_resume w l e s1))
                            (db_workspaces (stopTimer_resume w l e s1))
                            (db_count (stopTimer_resume w l e s1)))
    as (_ & _ & He).
  eexists. split; [by apply He|].
  apply list_elem_of_fmap.
  exists (Row.mk (lastInsertId (db_entries s1)) w (Entry.startTime e)
                 (Entry.endTime e) (Entry.duration e) (Entry.description e)).
  split; [reflexivity|].
  unfold selectEntries. apply elem_of_sortWith.
  apply list_elem_of_filter. split; [reflexivity|].
  unfold stopTimer_resume, addEntry. cbv zeta beta iota.
  rewrite (proj2 (proj2 (proj2 (proj2 (proj2 (proj2
             (stopTimer_tail_fields w l _))))))).
  simpl. apply elem_of_app. right. by apply list_elem_of_singleton.
Qed.

(** The entry of workspace 1, stored and read back. *)
Lemma stop_then_reload_witness :
  let e := Entry.mk None 1000 5000 4000 "write" in
  let s' := stopTimer_resume 1 0 e firstRunning in
  let reloaded := loadState (initialState (db_entries s') (db_workspaces s')
                                          (db_count s')) in
  1 <= 1 <= workspaceCount reloaded /\
  exists es,
    entries reloaded !! 1 = Some es /\
    Entry.mk (Some (lastInsertId (db_entries firstRunning))) 1000 5000 4000
             (orDefault "write" "No description") ∈ es.
Proof.
  cbv zeta.
  assert (H : 1 <= 1 <= workspaceCount
                (loadState
                   (initialState
                      (db_entries (stopTimer_resume 1 0
                                     (Entry.mk None 1000 5000 4000 "write")
                                     firstRunning))
                      (db_workspaces (stopTimer_resume 1 0
                                        (Entry.mk None 1000 5000 4000 "write")
                                        firstRunning))
                      (db_count (stopTimer_resume 1 0
                                   (Entry.mk None 1000 5000 4000 "write")
                                   firstRunning))))).
  { vm_compute. split; discriminate. }
  split; [exact H|].
  exact (stop_then_reload firstRunning 1 0 (Entry.mk None 1000 5000 4000 "write") H).
Defined.

(** ** Stopping a timer that does not run *)

(** X7. [stopTimer] on a workspace whose timer is not running creates no
    entry and asks nothing of the database: the entry lists, the table and
    the suspended functions stay as they are; the timer is reset, and the
    workspace is no longer the active one. *)
Theorem stopTimer_idle (s : State) (w : Z) (l : nat) (t : Timer.t)
        (tDuration tEnd : Z) (desc : string) :
  timers s !! w = Some l -> heap s !! l = Some t ->
  truthy (Timer.startTime t) = false ->
  let s' := stopTimer NoCaller w tDuration tEnd desc s in
  entries s' = entries s /\
  db_entries s' = db_entries s /\
  pending s' = pending s /\
  timerOf s' w = Some (Timer.mk None 0) /\
  activeWorkspace s' <> Some w /\
  (activeWorkspace s <> Some w -> activeWorkspace s' = activeWorkspace s).
Proof.
  intros Hl Ht Hrun. cbv zeta.
  unfold stopTimer, stopTimer_enter. rewrite Hl, Ht, Hrun. simpl.
  destruct (stopTimer_tail_fields w l s) as (Hp & Ha & Htm & Hh & _ & He & Hd).
  split; [done|]. split; [done|]. split; [done|]. split.
  - unfold timerOf. rewrite Htm, Hl, Hh.
    apply list_lookup_insert_eq. by eapply lookup_lt_Some.
  - rewrite Ha. destruct (decide (activeWorkspace s = Some w)); split; done.
Qed.

(** Stop on workspace 2, which was never started, while workspace 1 runs. *)
Lemma stopTimer_idle_witness :
  timers firstRunning !! 2 = Some 1%nat /\
  heap firstRunning !! 1%nat = Some (Timer.mk None 0) /\
  truthy (Timer.startTime (Timer.mk None 0)) = false /\
  let s' := stopTimer NoCaller 2 9000 9000 "idle" firstRunning in
  entries s' = entries firstRunning /\
  db_entries s' = db_entries firstRunning /\
  pending s' = pending firstRunning /\
  timerOf s' 2 = Some (Timer.mk None 0) /\
  activeWorkspace s' <> Some 2 /\
  (activeWorkspace firstRunning <> Some 2 ->
   activeWorkspace s' = activeWorkspace firstRunning).
Proof.
  split; [vm_compute; reflexivity|].
  split; [vm_compute; reflexivity|].
  split; [reflexivity|].
  apply (stopTimer_idle firstRunning 2 1%nat (Timer.mk None 0) 9000 9000 "idle");
    vm_compute; reflexivity.
Defined.

(** ** Clear All, when the database has answered *)

Lemma clearWorkspace_fold (l : list Z) (s : State) :
  NoDup l ->
  let s' := foldl (fun s i => clearWorkspace i s) s l in
  activeWorkspace s' = activeWorkspace s /\
  db_entries s' = db_entries s /\
  (forall k t, heap s !! k = Some t -> heap s' !! k = Some t) /\
  (forall i, i ∈ l ->
             entries s' !! i = Some [] /\ timerOf s' i = Some (Timer.mk None 0)) /\
  (forall i, i ∉ l ->
             entries s' !! i = entries s !! i /\ timers s' !! i = timers s !! i).
Proof.
  intros Hnd. revert s. induction Hnd as [|x l Hx Hnd IH]; intros s.
  - cbv zeta. cbn [foldl].
    split; [done|]. split; [done|]. split; [done|]. split.
    + intros j Hj. by apply elem_of_nil in Hj.
    + done.
  - cbv zeta. cbn [foldl].
    specialize (IH (clearWorkspace x s)). cbv zeta in IH.
    destruct IH as (Ha & Hd & Hh & Hin & Hout).
    split; [by rewrite Ha|]. split; [by rewrite Hd|]. split.
    { intros k t Hk. apply Hh. unfold clearWorkspace, allocTimer. simpl.
      rewrite lookup_app_l; [done|]. by eapply lookup_lt_Some. }
    split.
    + intros i [->|Hi]%elem_of_cons; [|by apply Hin].
      destruct (Hout x Hx) as [He Ht]. split.
      * rewrite He. unfold clearWorkspace, allocTimer. simpl.
        by rewrite lookup_insert_eq.
      * unfold timerOf. rewrite Ht. unfold clearWorkspace, allocTimer at 1.
        simpl. rewrite lookup_insert_eq. apply Hh.
        unfold clearWorkspace, allocTimer. simpl.
        rewrite lookup_app_r by lia. by rewrite Nat.sub_diag.
    + intros i Hi. apply not_elem_of_cons in Hi as [Hne Hi].
      destruct (Hout i Hi) as [He Ht]. rewrite He, Ht.
      unfold clearWorkspace, allocTimer. simpl.
      by rewrite !lookup_insert_ne.
Qed.

(** X8. When the database has answered Clear All, its table is empty and
    every workspace from 1 to [workspaceCount] has an empty entry list and a
    fresh timer stopped at zero. The active workspace is not touched, and the
    entry lists of the workspaces above [workspaceCount] are kept in memory
    although their rows are gone. *)
Theorem clearAll_resume_resets (s : State) :
  let s' := clearAll_resume s in
  db_entries s' = [] /\
  activeWorkspace s' = activeWorkspace s /\
  (forall i, 1 <= i <= workspaceCount s ->
             entries s' !! i = Some [] /\ timerOf s' i = Some (Timer.mk None 0)) /\
  (forall i, ~ 1 <= i <= workspaceCount s -> entries s' !! i = entries s !! i).
Proof.
  cbv zeta. unfold clearAll_resume.
  destruct (clearWorkspace_fold (ids (workspaceCount (with_db_entries [] s)))
                                (with_db_entries [] s))
    as (Ha & Hd & _ & Hin & Hout); [apply NoDup_seqZ|].
  split; [exact Hd|]. split; [exact Ha|]. split.
  - intros i Hi. apply Hin. unfold ids. apply elem_of_seqZ. simpl. lia.
  - intros i Hi. apply Hout. unfold ids. rewrite elem_of_seqZ. simpl. lia.
Qed.

(** ** Deleting and editing entries *)

(** X9. When the database has answered a delete, no row and no entry of the
    workspace's list has the deleted id; every other row and entry is kept,
    in order, and the lists of the other workspaces, the timers and the
    active workspace are as before. *)
Theorem delete_removes (s : State) (w id : Z) :
  let s' := resume (DeleteK w id) s in
  db_entries s' = filter (fun r => Row.id r <> id) (db_entries s) /\
  (forall r, r ∈ db_entries s' <-> r ∈ db_entries s /\ Row.id r <> id) /\
  entries s' !! w = Some (withoutId id (default [] (entries s !! w))) /\
  (forall e, e ∈ withoutId id (default [] (entries s !! w)) <->
             e ∈ default [] (entries s !! w) /\ Entry.id e <> Some id) /\
  sublist (withoutId id (default [] (entries s !! w))) (default [] (entries s !! w)) /\
  (forall w', w' <> w -> entries s' !! w' = entries s !! w') /\
  timers s' = timers s /\ heap s' = heap s /\
  activeWorkspace s' = activeWorkspace s.
Proof.
  cbv zeta. cbn [resume]. cbv zeta. simpl.
  split; [done|]. split.
  { intros r. rewrite list_elem_of_filter. tauto. }
  split; [by rewrite lookup_insert_eq|]. split.
  { intros e. unfold withoutId. rewrite list_elem_of_filter. tauto. }
  split; [apply sublist_filter|]. split; [|done].
  intros w' Hne. by rewrite lookup_insert_ne.
Qed.

Lemma describe_times (id : Z) (v : string) (l : list Entry.t) :
  entryTimes <$> describe id v l = entryTimes <$> l.
Proof.
  induction l as [|e l IH]; [done|]. cbn [describe].
  destruct (decide (Entry.id e = Some id)); rewrite !fmap_cons; [done|].
  by rewrite IH.
Qed.

Lemma describe_sets (id : Z) (v : string) (l : list Entry.t) :
  existsb (fun e => bool_decide (Entry.id e = Some id)) l = true ->
  exists l1 e l2,
    l = l1 ++ e :: l2 /\
    Forall (fun e' => Entry.id e' <> Some id) l1 /\
    Entry.id e = Some id /\
    describe id v l
    = l1 ++ Entry.mk (Entry.id e) (Entry.startTime e) (Entry.endTime e)
                     (Entry.duration e) v :: l2.
Proof.
  induction l as [|e l IH]; [done|]. simpl.
  destruct (decide (Entry.id e = Some id)) as [He|He].
  - intros _. exists [], e, l. repeat split; [constructor|done].
  - rewrite bool_decide_eq_false_2 by done. simpl. intros H.
    destruct (IH H) as (l1 & e' & l2 & -> & Hl1 & He' & Hd).
    exists (e :: l1), e', l2. rewrite Hd. repeat split; [|done].
    by constructor.
Qed.

(** X10. An edit changes descriptions only. In memory, the first entry of
    the list with the edited id gets the new text, or [No description] for a
    blank one, and every id, start, end and duration of every workspace stays
    as it is; when the database has answered, its rows have their ids,
    workspaces, times and durations as before. *)
Theorem editEntry_changes_description_only (s : State) (w id : Z) (text : string) :
  let s' := editEntry w id text s in
  (forall w', fmap entryTimes <$> entries s' !! w'
              = fmap entryTimes <$> entries s !! w') /\
  (forall l, entries s !! w = Some l ->
             existsb (fun e => bool_decide (Entry.id e = Some id)) l = true ->
             exists l1 e l2,
               l = l1 ++ e :: l2 /\
               Forall (fun e' => Entry.id e' <> Some id) l1 /\
               Entry.id e = Some id /\
               entries s' !! w
               = Some (l1 ++ Entry.mk (Entry.id e) (Entry.startTime e)
                                      (Entry.endTime e) (Entry.duration e)
                                      (orDefault text "No description") :: l2) /\
               pending s' = pending s ++ [UpdateK id (orDefault text "No description")]) /\
  (forall d, rowTimes <$> db_entries (resume (UpdateK id d) s')
             = rowTimes <$> db_entries s) /\
  timers s' = timers s /\ heap s' = heap s /\
  activeWorkspace s' = activeWorkspace s.
Proof.
  cbv zeta. unfold editEntry. cbv zeta.
  assert (Hrows : forall d (rows : list Row.t),
             rowTimes <$> (updateRow id d <$> rows) = rowTimes <$> rows).
  { intros d rows. rewrite <- list_fmap_compose. apply list_fmap_ext.
    intros _ r _. unfold updateRow. simpl. by destruct (decide (Row.id r = id)). }
  destruct (entries s !! w) as [l|] eqn:El.
  - destruct (existsb _ l) eqn:Ex.
    + simpl. split.
      { intros w'. destruct (decide (w = w')) as [<-|Hne].
        - rewrite lookup_insert_eq, El. simpl. by rewrite describe_times.
        - by rewrite lookup_insert_ne. }
      split.
      { intros l' [= <-] _.
        destruct (describe_sets id (orDefault text "No description") l Ex)
          as (l1 & e & l2 & Hl & Hl1 & He & Hd).
        exists l1, e, l2. rewrite lookup_insert_eq, Hd. done. }
      split; [intros d; apply Hrows|done].
    + split; [done|]. split; [intros l' [= <-]; congruence|].
      split; [intros d; apply Hrows|done].
  - split; [done|]. split; [intros l'; discriminate|].
    split; [intros d; apply Hrows|done].
Qed.

(** ** Changing the number of workspaces *)

Lemma initWorkspace_entries (i w : Z) (s : State) :
  entries (initWorkspace i s) !! w
  = match entries s !! w with
    | Some l => Some l
    | None => if decide (w = i) then Some [] else None
    end.
Proof.
  unfold initWorkspace. cbv zeta.
  assert (H1 : entries (match timers s !! i with
                        | Some _ => s
                        | None => allocTimer i s
                        end) = entries s) by (by destruct (timers s !! i)).
  revert H1. generalize (match timers s !! i with
                         | Some _ => s
                         | None => allocTimer i s
                         end).
  intros s1 <-.
  assert (H2 : entries (match entries s1 !! i with
                        | Some _ => s1
                        | None => with_entries (<[i := []]> (entries s1)) s1
                        end) !! w
               = match entries s1 !! w with
                 | Some l => Some l
                 | None => if decide (w = i) then Some [] else None
                 end).
  { destruct (entries s1 !! i) eqn:Ei; simpl.
    - destruct (entries s1 !! w) eqn:Ew; [done|].
      destruct (decide (w = i)) as [->|]; [congruence|done].
    - destruct (decide (w = i)) as [->|Hne].
      + by rewrite lookup_insert_eq, Ei.
      + rewrite lookup_insert_ne by done. by destruct (entries s1 !! w). }
  revert H2. generalize (match entries s1 !! i with
                         | Some _ => s1
                         | None => with_entries (<[i := []]> (entries s1)) s1
                         end).
  intros s2 <-. by repeat case_match.
Qed.

Lemma initWorkspace_timerOf (i w : Z) (t : Timer.t) (s : State) :
  timerOf s w = Some t -> timerOf (initWorkspace i s) w = Some t.
Proof.
  intros Ht. unfold initWorkspace. cbv zeta.
  assert (H1 : timerOf (match timers s !! i with
                        | Some _ => s
                        | None => allocTimer i s
                        end) w = Some t).
  { destruct (timers s !! i) eqn:Ei; [done|].
    unfold timerOf in *. unfold allocTimer. simpl.
    destruct (decide (i = w)) as [->|Hne]; [by rewrite Ei in Ht|].
    rewrite lookup_insert_ne by done.
    destruct (timers s !! w) as [k|]; [|done].
    rewrite lookup_app_l; [done|]. by eapply lookup_lt_Some. }
  revert H1. generalize (match timers s !! i with
                         | Some _ => s
                         | None => allocTimer i s
                         end).
  intros s1 H1. by repeat case_match.
Qed.

Lemma initWorkspaceState_entries (n w : Z) (s : State) :
  entries (initWorkspaceState n s) !! w
  = match entries s !! w with
    | Some l => Some l
    | None => if decide (1 <= w <= n) then Some [] else None
    end.
Proof.
  unfold initWorkspaceState.
  assert (H : forall l s,
             entries (foldl (fun s i => initWorkspace i s) s l) !! w
             = match entries s !! w with
               | Some l0 => Some l0
               | None => if decide (w ∈ l) then Some [] else None
               end).
  { clear s. induction l as [|i l IH]; intros s; cbn [foldl].
    - destruct (entries s !! w); [done|].
      destruct (decide (w ∈ [])) as [Hin|]; [by apply elem_of_nil in Hin|done].
    - rewrite IH, initWorkspace_entries.
      destruct (entries s !! w); [done|].
      destruct (decide (w = i)) as [->|Hne].
      + rewrite decide_True; [done|by left].
      + destruct (decide (w ∈ l)) as [Hin|Hnin].
        * rewrite decide_True; [done|by right].
        * rewrite decide_False; [done|].
          intros [?|?]%elem_of_cons; done. }
  rewrite H. destruct (entries s !! w); [done|].
  destruct (decide (1 <= w <= n)) as [Hw|Hw].
  - rewrite decide_True; [done|]. unfold ids. apply elem_of_seqZ. lia.
  - rewrite decide_False; [done|]. unfold ids. rewrite elem_of_seqZ. lia.
Qed.

Lemma countLoop_fields (n i : Z) (s : State) :
  workspaceCount (countLoop n i s) = workspaceCount s /\
  entries (countLoop n i s) = entries s /\
  timers (countLoop n i s) = timers s /\
  heap (countLoop n i s) = heap s /\
  activeWorkspace (countLoop n i s) = activeWorkspace s /\
  db_entries (countLoop n i s) = db_entries s.
Proof. unfold countLoop. by destruct (i <=? n). Qed.

(** X11. Setting the number of workspaces deletes nothing: the entry list
    and the timer of every workspace that had one are kept as they are, also
    above the new count, so that a smaller count followed by a larger one
    finds them again; a workspace up to the new count that had no list gets
    an empty one. The rows of the database and the active workspace are not
    touched. *)
Theorem changeWorkspaceCount_keeps (n : Z) (s : State) :
  let s' := changeWorkspaceCount_rest n s in
  workspaceCount s' = n /\
  (forall w, entries s' !! w
             = match entries s !! w with
               | Some l => Some l
               | None => if decide (1 <= w <= n) then Some [] else None
               end) /\
  (forall w t, timerOf s w = Some t -> timerOf s' w = Some t) /\
  db_entries s' = db_entries s /\
  activeWorkspace s' = activeWorkspace s.
Proof.
  cbv zeta. unfold changeWorkspaceCount_rest.
  destruct (countLoop_fields n 1 (initWorkspaceState n (with_workspaceCount n s)))
    as (Hc & He & Ht & Hh & Ha & Hd).
  split; [by rewrite Hc, initWorkspaceState_count|]. split.
  { intros w. rewrite He.
    exact (initWorkspaceState_entries n w (with_workspaceCount n s)). }
  split.
  { intros w t Hw. unfold timerOf. rewrite Ht, Hh.
    change (timerOf (initWorkspaceState n (with_workspaceCount n s)) w = Some t).
    unfold initWorkspaceState.
    apply (foldl_preserves (fun s' => timerOf s' w = Some t)); [|exact Hw].
    intros s' i H. by apply initWorkspace_timerOf. }
  split; [by rewrite Hd, initWorkspaceState_db|].
  by rewrite Ha, (proj1 (initWorkspaceState_fields _ _)).
Qed.

(** ** The text of a duration *)

Lemma append_length (a b : string) :
  String.length (a +:+ b) = (String.length a + String.length b)%nat.
Proof. induction a as [|c a IH]; simpl; [done|]. by rewrite IH. Qed.

Lemma append_split (x y u v : string) :
  String.length u = String.length v -> x +:+ u = y +:+ v -> x = y /\ u = v.
Proof.
  revert y. induction x as [|c x IH]; intros [|d y] Hlen H; simpl in H.
  - done.
  - exfalso. apply (f_equal String.length) in H.
    rewrite ?append_length in H. simpl in H. rewrite ?append_length in H. lia.
  - exfalso. apply (f_equal String.length) in H.
    rewrite ?append_length in H. simpl in H. rewrite ?append_length in H. lia.
  - injection H as -> H. destruct (IH y Hlen H) as [-> ->]. done.
Qed.

Lemma pad2_two_chars (d : Z) :
  0 <= d <= 99 -> exists a b, Date.pad 2 d = String a (String b EmptyString).
Proof.
  intros H.
  assert (E : exists n : nat, d = Z.of_nat n /\ (n < 100)%nat)
    by (exists (Z.to_nat d); lia).
  destruct E as (n & -> & Hn).
  do 100 (destruct n as [|n]; [vm_compute; eauto|]). lia.
Qed.

(** X12. Two durations that are not negative have the same text exactly when
    they have the same number of whole seconds: [formatTime] drops the
    milliseconds and nothing else, and the hours are not wrapped at 24 or
    at 100. *)
Theorem formatTime_whole_seconds (a b : Z) :
  0 <= a -> 0 <= b ->
  (formatTime a = formatTime b <-> a / 1000 = b / 1000).
Proof.
  intros Ha Hb. split; [|unfold formatTime; cbv zeta; by intros ->].
  unfold formatTime. cbv zeta.
  assert (Ha' : 0 <= a / 1000) by (apply Z.div_pos; lia).
  assert (Hb' : 0 <= b / 1000) by (apply Z.div_pos; lia).
  revert Ha' Hb'. generalize (a / 1000) (b / 1000). clear. intros x y Hx Hy.
  rewrite !Z.rem_mod_nonneg by lia.
  assert (Hxm : 0 <= x mod 3600 / 60 <= 99).
  { pose proof (Z.mod_pos_bound x 3600). Z.div_mod_to_equations. lia. }
  assert (Hym : 0 <= y mod 3600 / 60 <= 99).
  { pose proof (Z.mod_pos_bound y 3600). Z.div_mod_to_equations. lia. }
  assert (Hxs : 0 <= x mod 60 <= 99) by (pose proof (Z.mod_pos_bound x 60); lia).
  assert (Hys : 0 <= y mod 60 <= 99) by (pose proof (Z.mod_pos_bound y 60); lia).
  destruct (pad2_two_chars _ Hxm) as (m1 & m2 & Em).
  destruct (pad2_two_chars _ Hym) as (n1 & n2 & En).
  destruct (pad2_two_chars _ Hxs) as (s1 & s2 & Es).
  destruct (pad2_two_chars _ Hys) as (t1 & t2 & Et).
  intros H.
  assert (Hh : Date.pad 2 (x / 3600) = Date.pad 2 (y / 3600) /\
               ":" +:+ Date.pad 2 (x mod 3600 / 60) +:+ ":" +:+ Date.pad 2 (x mod 60)
               = ":" +:+ Date.pad 2 (y mod 3600 / 60) +:+ ":" +:+ Date.pad 2 (y mod 60)).
  { apply append_split; [|exact H]. by rewrite Em, En, Es, Et. }
  destruct Hh as [Hh Hrest].
  apply pad_inj in Hh; [|apply Z.div_pos; lia..].
  assert (Hm : Date.pad 2 (x mod 3600 / 60) = Date.pad 2 (y mod 3600 / 60) /\
               Date.pad 2 (x mod 60) = Date.pad 2 (y mod 60)).
  { rewrite Em, En, Es, Et in *. simpl in Hrest.
    injection Hrest as -> -> -> ->. done. }
  destruct Hm as [Hm Hs].
  apply pad_inj in Hm; [|lia..]. apply pad_inj in Hs; [|lia..].
  Z.div_mod_to_equations. lia.
Qed.

(** One hour and a half, with and without 999 milliseconds. *)
Lemma formatTime_whole_seconds_witness :
  0 <= 5400000 /\ 0 <= 5400999 /\
  (formatTime 5400000 = formatTime 5400999 <-> 5400000 / 1000 = 5400999 / 1000).
Proof.
  split; [lia|]. split; [lia|].
  apply (formatTime_whole_seconds 5400000 5400999); lia.
Defined.

(** ** The description column *)

Lemma doubleQuotes_inj (a b : string) : doubleQuotes a = doubleQuotes b -> a = b.
Proof.
  revert b. induction a as [|c a IH]; intros [|d b]; simpl.
  - done.
  - destruct (Ascii.eqb d quote); discriminate.
  - destruct (Ascii.eqb c quote); discriminate.
  - destruct (Ascii.eqb_spec c quote) as [->|Hc],
             (Ascii.eqb_spec d quote) as [->|Hd].
    + intros [= H]. by rewrite (IH b H).
    + intros [= E _]. congruence.
    + intros [= E _]. congruence.
    + intros [= E H]. by rewrite E, (IH b H).
Qed.

Lemma append_cons (c : ascii) (a b : string) :
  String c a +:+ b = String c (a +:+ b).
Proof. reflexivity. Qed.

Lemma append_assoc (a b c : string) : (a +:+ b) +:+ c = a +:+ (b +:+ c).
Proof.
  induction a as [|x a IH]; [done|]. rewrite !append_cons. by rewrite IH.
Qed.

Lemma append_nil_r (a : string) : a +:+ EmptyString = a.
Proof. induction a as [|c a IH]; [done|]. rewrite append_cons. by rewrite IH. Qed.

Lemma append_cancel (a b c : string) : a +:+ b = a +:+ c -> b = c.
Proof.
  induction a as [|x a IH]; [done|]. rewrite !append_cons.
  intros [= H]. by apply IH.
Qed.

Lemma readField_doubleQuotes (d rest : string) :
  (forall r, rest <> String quote r) ->
  readField (doubleQuotes d +:+ String quote rest) = Some (d, rest).
Proof.
  intros Hrest. induction d as [|c d IH].
  - change (readField (String quote rest) = Some (EmptyString, rest)).
    cbn [readField]. rewrite Ascii.eqb_refl. destruct rest as [|c' r]; [done|].
    destruct (Ascii.eqb_spec c' quote) as [->|_]; [|done].
    by destruct (Hrest r).
  - cbn [doubleQuotes]. destruct (Ascii.eqb_spec c quote) as [->|Hc].
    + rewrite !append_cons. cbn [readField]. rewrite !Ascii.eqb_refl.
      by rewrite IH.
    + rewrite append_cons. cbn [readField].
      destruct (Ascii.eqb_spec c quote) as [->|_]; [done|].
      by rewrite IH.
Qed.

(** X13. The description can be read back from every line of the export. A
    line is its first six columns, a comma, and the description between two
    double quotes with every double quote of it written twice; a reader of
    quoted fields that starts after that comma returns the description as it
    was, and stops where the line ends, or before whatever follows the line
    when that does not begin with a double quote. So two rows with the same
    line and the same first six columns have the same description. *)
Theorem description_column_faithful (e : Csv.t) :
  let front := join "," [quoted (Csv.workspace e); Csv.date e; Csv.startTime e;
                         Csv.endTime e; Csv.duration e;
                         pretty (Csv.durationSeconds e)] in
  (exists field,
     csvLine e = front +:+ "," +:+ field /\
     readQuoted field = Some (Csv.description e, EmptyString) /\
     forall rest, (forall r, rest <> String quote r) ->
                  readQuoted (field +:+ rest) = Some (Csv.description e, rest)) /\
  (forall e',
     join "," [quoted (Csv.workspace e'); Csv.date e'; Csv.startTime e';
               Csv.endTime e'; Csv.duration e'; pretty (Csv.durationSeconds e')]
     = front ->
     csvLine e' = csvLine e -> Csv.description e' = Csv.description e).
Proof.
  cbv zeta.
  assert (Hline : forall x : Csv.t,
            csvLine x
            = join "," [quoted (Csv.workspace x); Csv.date x; Csv.startTime x;
                        Csv.endTime x; Csv.duration x;
                        pretty (Csv.durationSeconds x)]
              +:+ "," +:+ quoted (doubleQuotes (Csv.description x))).
  { intros x. unfold csvLine. cbn [join]. by rewrite !append_assoc. }
  assert (Hread : forall d rest, (forall r, rest <> String quote r) ->
            readQuoted (quoted (doubleQuotes d) +:+ rest) = Some (d, rest)).
  { intros d rest Hrest. unfold quoted. rewrite append_cons.
    cbn [readQuoted]. rewrite Ascii.eqb_refl, append_assoc, append_cons.
    by apply readField_doubleQuotes. }
  split.
  - exists (quoted (doubleQuotes (Csv.description e))).
    split; [apply Hline|]. split; [|by apply Hread].
    pose proof (Hread (Csv.description e) EmptyString) as H.
    rewrite append_nil_r in H. by apply H.
  - intros e' Hfront Heq. rewrite !Hline, Hfront in Heq.
    do 2 apply append_cancel in Heq. unfold quoted in Heq.
    injection Heq as Heq.
    apply doubleQuotes_inj.
    apply (append_split _ _ (String quote EmptyString) (String quote EmptyString));
      [done|exact Heq].
Qed.

(** ** The date scopes of the records view *)

Lemma MakeDay_date (y m d k : Z) :
  Date.MakeDay y m (d - k) = Date.MakeDay y m d - k.
Proof. unfold Date.MakeDay. cbv zeta. lia. Qed.

(** The month before: 28 to 31 days earlier. *)
Lemma MakeDay_month_before (y m d : Z) :
  0 <= m <= 11 ->
  Date.MakeDay y m d - 31 <= Date.MakeDay y (m - 1) d <= Date.MakeDay y m d - 28.
Proof.
  intros Hm. unfold Date.MakeDay. cbv zeta.
  rewrite (Z.div_small m 12), (Z.mod_small m 12), Z.add_0_r by lia.
  destruct (decide (m = 0)) as [->|Hne].
  - change ((0 - 1) / 12) with (-1). change ((0 - 1) mod 12) with 11.
    replace (y + -1) with (y - 1) by lia.
    pose proof (DayFromYear_step (y - 1)) as Hs.
    replace (y - 1 + 1) with y in Hs by lia.
    simpl Date.monthStart.
    destruct (Date.isLeap (y - 1)), (Date.isLeap y); lia.
  - rewrite (Z.div_small (m - 1) 12), (Z.mod_small (m - 1) 12), Z.add_0_r by lia.
    assert (Hc : m = 1 \/ m = 2 \/ m = 3 \/ m = 4 \/ m = 5 \/ m = 6 \/ m = 7 \/
                 m = 8 \/ m = 9 \/ m = 10 \/ m = 11) by lia.
    destruct (Date.isLeap y);
      repeat (destruct Hc as [->|Hc]; [simpl; lia|]); subst; simpl; lia.
Qed.

Lemma filter_sublist_mono {A} (P Q : A -> Prop)
      `{!forall x, Decision (P x)} `{!forall x, Decision (Q x)} (l : list A) :
  (forall x, P x -> Q x) -> sublist (filter P l) (filter Q l).
Proof.
  intros HPQ. induction l as [|x l IH]; [done|].
  rewrite !filter_cons.
  destruct (decide (P x)) as [Px|]; destruct (decide (Q x)) as [|NQ].
  - by apply sublist_skip.
  - exfalso. apply NQ, HPQ, Px.
  - by apply sublist_cons.
  - done.
Qed.

(** The three thresholds of [filterRecords], in a zone without daylight
    saving. *)
Lemma thresholds_ordered (minutes now : Z) :
  let z := Date.fixedZone minutes in
  let today := Date.ofLocal z (Date.getFullYear z now) (Date.getMonth z now)
                            (Date.getDate z now) in
  ~ (0 <= Date.getFullYear z now <= 99) ->
  Date.setMonth z today (Date.getMonth z today - 1)
  <= Date.setDate z today (Date.getDate z today - 7) /\
  Date.setDate z today (Date.getDate z today - 7) = today - 7 * Date.msPerDay /\
  today = Date.Day (Date.LocalTime z now) * Date.msPerDay - minutes * Date.msPerMinute.
Proof.
  intros z today Hy.
  assert (Ht : today = Date.Day (Date.LocalTime z now) * Date.msPerDay
                       - minutes * Date.msPerMinute).
  { subst today. rewrite (today_local_midnight z now Hy). reflexivity. }
  set (D := Date.Day (Date.LocalTime z now)) in *.
  assert (Hl : Date.LocalTime z today = D * Date.msPerDay).
  { rewrite Ht. unfold Date.LocalTime, z, Date.fixedZone. simpl. lia. }
  assert (HD : Date.Day (D * Date.msPerDay) = D).
  { unfold Date.Day. apply Z.div_mul. discriminate. }
  assert (HT : Date.TimeWithinDay (D * Date.msPerDay) = 0).
  { unfold Date.TimeWithinDay. apply Z.mod_mul. discriminate. }
  pose proof (MakeDay_fields (D * Date.msPerDay)) as Hf. rewrite HD in Hf.
  pose proof (MonthFromTime_range (D * Date.msPerDay)) as Hm.
  assert (Hw : Date.setDate z today (Date.getDate z today - 7)
               = today - 7 * Date.msPerDay).
  { unfold Date.setDate, Date.getDate. cbv zeta. rewrite Hl, HT.
    rewrite MakeDay_date, Hf, Ht.
    unfold Date.UTC, Date.MakeDate, z, Date.fixedZone. simpl. lia. }
  split; [|split; [exact Hw|exact Ht]].
  rewrite Hw. unfold Date.setMonth, Date.getMonth. cbv zeta. rewrite Hl, HT.
  pose proof (MakeDay_month_before (Date.YearFromTime (D * Date.msPerDay))
                (Date.MonthFromTime (D * Date.msPerDay))
                (Date.DateFromTime (D * Date.msPerDay)) Hm) as Hb.
  rewrite Hf in Hb. rewrite Ht.
  unfold Date.UTC, Date.MakeDate, z, Date.fixedZone, Date.msPerDay. simpl.
  unfold Date.msPerDay in Hb. lia.
Qed.

(** X14. In a zone without daylight saving, a wider date scope never hides a
    record: what [today] shows is among what [week] shows, that among what
    [month] shows, and that among what [all] shows, in the same order, for
    every workspace scope. *)
Theorem date_scopes_nested (minutes now : Z) (ws : WorkspaceScope)
        (X : list Record.t) :
  let z := Date.fixedZone minutes in
  ~ (0 <= Date.getFullYear z now <= 99) ->
  sublist (filterRecords z now (mkFilter ws Today) X)
          (filterRecords z now (mkFilter ws Week) X) /\
  sublist (filterRecords z now (mkFilter ws Week) X)
          (filterRecords z now (mkFilter ws Month) X) /\
  sublist (filterRecords z now (mkFilter ws Month) X)
          (filterRecords z now (mkFilter ws AllDates) X).
Proof.
  intros z Hy. destruct (thresholds_ordered minutes now Hy) as (Hmw & Hw & _).
  fold z in Hmw, Hw.
  unfold filterRecords. cbn [workspace date]. cbv zeta.
  set (today := Date.ofLocal z _ _ _) in *.
  set (filtered := match ws with
                   | AllWorkspaces => X
                   | Workspace wsId =>
                       filter (fun r => Record.workspaceId r = wsId) X
                   end).
  split; [|split].
  - apply filter_sublist_mono. intros r Hr. rewrite Hw.
    unfold Date.msPerDay. lia.
  - apply filter_sublist_mono. intros r Hr. lia.
  - apply sublist_filter.
Qed.

(** The scopes on 2 January 2024, five hours west of Greenwich. *)
Lemma date_scopes_nested_witness :
  let z := Date.fixedZone (-300) in
  let X := [Record.mk 1 1 "W1" 1704169800000 1704173400000 3600000 "notes"] in
  ~ (0 <= Date.getFullYear z 1704169800000 <= 99) /\
  sublist (filterRecords z 1704169800000 (mkFilter AllWorkspaces Today) X)
          (filterRecords z 1704169800000 (mkFilter AllWorkspaces Week) X) /\
  sublist (filterRecords z 1704169800000 (mkFilter AllWorkspaces Week) X)
          (filterRecords z 1704169800000 (mkFilter AllWorkspaces Month) X) /\
  sublist (filterRecords z 1704169800000 (mkFilter AllWorkspaces Month) X)
          (filterRecords z 1704169800000 (mkFilter AllWorkspaces AllDates) X).
Proof.
  cbv zeta.
  assert (H : ~ (0 <= Date.getFullYear (Date.fixedZone (-300)) 1704169800000 <= 99)).
  { vm_compute. intros [_ H]. by apply H. }
  split; [exact H|].
  exact (date_scopes_nested (-300) 1704169800000 AllWorkspaces
           [Record.mk 1 1 "W1" 1704169800000 1704173400000 3600000 "notes"] H).
Defined.

(** X15. In a zone without daylight saving, the scope [today] keeps exactly
    the records that began on the local calendar day of the clock reading or
    on a later one, and the scope [week] those that began at most seven
    local days before it. *)
Theorem today_and_week_scopes (minutes now : Z) (X : list Record.t) :
  let z := Date.fixedZone minutes in
  ~ (0 <= Date.getFullYear z now <= 99) ->
  filterRecords z now (mkFilter AllWorkspaces Today) X
  = filter (fun r => Date.Day (Date.LocalTime z now)
                     <= Date.Day (Date.LocalTime z (Record.startTime r))) X /\
  filterRecords z now (mkFilter AllWorkspaces Week) X
  = filter (fun r => Date.Day (Date.LocalTime z now) - 7
                     <= Date.Day (Date.LocalTime z (Record.startTime r))) X.
Proof.
  intros z Hy. destruct (thresholds_ordered minutes now Hy) as (_ & Hw & Ht).
  fold z in Hw, Ht.
  unfold filterRecords. cbn [workspace date]. cbv zeta.
  set (today := Date.ofLocal z _ _ _) in *.
  split.
  - apply list_filter_iff. intros r. rewrite Ht.
    unfold Date.LocalTime, Date.Day, z, Date.fixedZone. simpl.
    unfold Date.msPerDay, Date.msPerMinute. Z.div_mod_to_equations. lia.
  - apply list_filter_iff. intros r. rewrite Hw, Ht.
    unfold Date.LocalTime, Date.Day, z, Date.fixedZone. simpl.
    unfold Date.msPerDay, Date.msPerMinute. Z.div_mod_to_equations. lia.
Qed.

(** The two scopes on 2 January 2024, five hours west of Greenwich. *)
Lemma today_and_week_scopes_witness :
  let z := Date.fixedZone (-300) in
  let X := [Record.mk 1 1 "W1" 1704169800000 1704173400000 3600000 "notes"] in
  ~ (0 <= Date.getFullYear z 1704169800000 <= 99) /\
  filterRecords z 1704169800000 (mkFilter AllWorkspaces Today) X
  = filter (fun r => Date.Day (Date.LocalTime z 1704169800000)
                     <= Date.Day (Date.LocalTime z (Record.startTime r))) X /\
  filterRecords z 1704169800000 (mkFilter AllWorkspaces Week) X
  = filter (fun r => Date.Day (Date.LocalTime z 1704169800000) - 7
                     <= Date.Day (Date.LocalTime z (Record.startTime r))) X.
Proof.
  cbv zeta.
  assert (H : ~ (0 <= Date.getFullYear (Date.fixedZone (-300)) 1704169800000 <= 99)).
  { vm_compute. intros [_ H]. by apply H. }
  split; [exact H|].
  exact (today_and_week_scopes (-300) 1704169800000
           [Record.mk 1 1 "W1" 1704169800000 1704173400000 3600000 "notes"] H).
Defined.

(** ** The records view and the exported file *)

(** X16. [loadAllRecords] shows every row of the table exactly once, with its
    id, workspace, times and duration, the latest start first; the name of
    the workspace and the description it shows are never empty. *)
Theorem loadAllRecords_complete_sorted (s : State) :
  (fun r => (Record.id r, Record.workspaceId r, Record.startTime r,
             Record.endTime r, Record.duration r)) <$> loadAllRecords s
  ≡ₚ rowTimes <$> db_entries s /\
  Sorted (fun a b => Record.startTime b <= Record.startTime a) (loadAllRecords s) /\
  Forall (fun r => Record.workspaceName r <> EmptyString /\
                   Record.description r <> EmptyString) (loadAllRecords s).
Proof.
  unfold loadAllRecords. split; [|split].
  - rewrite <- list_fmap_compose.
    rewrite <- (sortWith_Permutation
                  (fun a b => Row.start_time b - Row.start_time a) (db_entries s))
      at 2.
    reflexivity.
  - apply (Sorted_fmap_rel _
             (fun a b => Row.start_time b - Row.start_time a <= 0)).
    + intros a b. simpl. lia.
    + apply sortWith_Sorted. intros a b. lia.
  - apply Forall_fmap, Forall_forall. intros r _. simpl. split.
    + apply orDefault_nonempty, defaultName_nonempty.
    + apply orDefault_nonempty. discriminate.
Qed.


(** ** A switch that is answered at once *)

(** X18. In a reachable state with nothing suspended, starting workspace
    [b] while another workspace [a] runs, with the answer of the database
    arriving next, completes the switch: nothing is suspended, [b] is the
    active workspace and runs from the instant of the call, the timer of [a]
    is stopped at zero, and one new entry of [a], lasting from its start to
    the first reading of the clock, is at the head of its list and at the end
    of the table. *)
Theorem switch_completes (s : State) (a b : Z) (ta : Timer.t)
        (tDuration tEnd : Z) (desc : string) (tStart : Z) :
  reachable s -> pending s = [] ->
  activeWorkspace s = Some a -> a <> b -> 1 <= b <= workspaceCount s ->
  timerOf s a = Some ta -> truthy (Timer.startTime ta) = true ->
  let s' := handle (Resume 0) (startTimer b tDuration tEnd desc tStart s) in
  let t0 := default 0 (Timer.startTime ta) in
  let entryId := lastInsertId (db_entries s) in
  let description := orDefault desc "No description" in
  pending s' = [] /\
  activeWorkspace s' = Some b /\
  timerOf s' a = Some (Timer.mk None 0) /\
  timerOf s' b = Some (Timer.mk (Some tStart) 0) /\
  entries s' !! a
  = Some (Entry.mk (Some entryId) t0 tEnd (tDuration - t0) description
          :: default [] (entries s !! a)) /\
  db_entries s'
  = db_entries s ++ [Row.mk entryId a t0 tEnd (tDuration - t0) description].
Proof.
  intros Hr Hp Ha Hab Hb Hta Hrun.
  destruct (reachable_allEquipped s Hr) as [[Hv Hinj] He].
  pose proof (reachable_elapsedZero s Hr) as Hz.
  unfold timerOf in Hta.
  destruct (timers s !! a) as [la|] eqn:Hla; [|done].
  destruct (He b Hb) as ([lb Hlb] & _).
  destruct (lookup_lt_is_Some_2 (heap s) lb (Hv b lb Hlb)) as [tb Htb].
  assert (Hl : la <> lb).
  { intros ->. apply Hab. by apply (Hinj a b lb). }
  pose proof (Forall_lookup_1 _ _ _ _ Hz Hta) as Hza.
  pose proof (Forall_lookup_1 _ _ _ _ Hz Htb) as Hzb.
  simpl in Hza, Hzb.
  pose proof (switch_settles s a b la lb ta tb tDuration tEnd desc tStart
                Hp Ha Hab Hl Hla Hta Hrun Hlb Htb) as H.
  cbv zeta in H. rewrite Hza, Hzb, Z.add_0_l in H. exact H.
Qed.

(** The switch from workspace 1 to workspace 2 at the instant 5000. *)
Lemma switch_completes_witness :
  let s' := handle (Resume 0) (startTimer 2 5000 5000 "write" 5000 firstRunning) in
  reachable firstRunning /\
  pending s' = [] /\
  activeWorkspace s' = Some 2 /\
  timerOf s' 1 = Some (Timer.mk None 0) /\
  timerOf s' 2 = Some (Timer.mk (Some 5000) 0) /\
  entries s' !! 1
  = Some [Entry.mk (Some (lastInsertId (db_entries firstRunning))) 1000 5000
                   (5000 - 1000) "write"] /\
  db_entries s'
  = db_entries firstRunning
    ++ [Row.mk (lastInsertId (db_entries firstRunning)) 1 1000 5000
               (5000 - 1000) "write"].
Proof.
  cbv zeta. split; [exact reachable_firstRunning|].
  exact (switch_completes firstRunning 1 2 (Timer.mk (Some 1000) 0)
           5000 5000 "write" 5000 reachable_firstRunning
           eq_refl eq_refl ltac:(discriminate) ltac:(vm_compute; split; discriminate)
           eq_refl eq_refl).
Defined.

(** ** Undoing a stop, and names across a reload *)

Lemma lastInsertId_above (rows : list Row.t) :
  Forall (fun r => Row.id r < lastInsertId rows) rows.
Proof.
  unfold lastInsertId. induction rows as [|r rows IH]; [constructor|].
  simpl. constructor; [lia|].
  eapply Forall_impl; [exact IH|]. intros r' H. simpl in H. lia.
Qed.

Lemma stopTimer_resume_stores (w : Z) (l : nat) (e : Entry.t) (s : State) :
  let newId := lastInsertId (db_entries s) in
  entries (stopTimer_resume w l e s)
  = <[w := Entry.mk (Some newId) (Entry.startTime e) (Entry.endTime e)
                    (Entry.duration e) (Entry.description e)
           :: default [] (entries s !! w)]> (entries s) /\
  db_entries (stopTimer_resume w l e s)
  = db_entries s ++ [Row.mk newId w (Entry.startTime e) (Entry.endTime e)
                            (Entry.duration e) (Entry.description e)].
Proof.
  cbv zeta. unfold stopTimer_resume, addEntry. cbv zeta beta iota.
  rewrite (proj2 (proj2 (proj2 (proj2 (proj2 (proj2
             (stopTimer_tail_fields w l _))))))).
  rewrite (proj1 (proj2 (proj2 (proj2 (proj2 (proj2
             (stopTimer_tail_fields w l _))))))).
  done.
Qed.

(** X19. The id that the database gives to the entry of a stop is greater
    than every id of the table. Deleting that entry once it is stored gives
    back the table as it was before the stop, and the list of the workspace
    as it was, provided no entry of the list had that id. *)
Theorem stop_then_delete_restores (s : State) (w : Z) (l : nat) (e : Entry.t) :
  let newId := lastInsertId (db_entries s) in
  let s' := resume (DeleteK w newId) (stopTimer_resume w l e s) in
  Forall (fun r => Row.id r < newId) (db_entries s) /\
  db_entries s' = db_entries s /\
  (Forall (fun e' => Entry.id e' <> Some newId) (default [] (entries s !! w)) ->
   entries s' !! w = Some (default [] (entries s !! w))) /\
  (forall w', w' <> w -> entries s' !! w' = entries s !! w').
Proof.
  cbv zeta. pose proof (lastInsertId_above (db_entries s)) as Hab.
  split; [exact Hab|].
  destruct (stopTimer_resume_stores w l e s) as [He Hd]. cbv zeta in He, Hd.
  cbn [resume]. cbv zeta.
  set (s1 := stopTimer_resume w l e s) in *. clearbody s1.
  simpl. rewrite He, Hd.
  split; [|split].
  - rewrite filter_app, filter_cons, filter_nil. simpl.
    rewrite decide_False by (intros H; by apply H).
    rewrite app_nil_r. apply filter_all.
    eapply Forall_impl; [exact Hab|]. intros r Hr. simpl in *. lia.
  - intros Hold. rewrite lookup_insert_eq. f_equal.
    rewrite lookup_insert_eq. simpl. unfold withoutId.
    rewrite filter_cons. simpl.
    rewrite decide_False by (intros H; by apply H).
    by apply filter_all.
  - intros w' Hne. by rewrite !lookup_insert_ne.
Qed.

Lemma initWorkspace_name (i w : Z) (name : string) (s : State) :
  workspaceNames s !! w = Some name -> name <> EmptyString ->
  workspaceNames (initWorkspace i s) !! w = Some name.
Proof.
  intros Hn Hne. unfold initWorkspace. cbv zeta.
  set (s2 := match entries _ !! i with Some _ => _ | None => _ end).
  assert (H2 : workspaceNames s2 = workspaceNames s).
  { subst s2. destruct (timers s !! i); simpl; by case_match. }
  clearbody s2.
  destruct (decide (w = i)) as [->|Hw].
  - rewrite H2, Hn. destruct name; [done|]. by rewrite H2.
  - destruct (workspaceNames s2 !! i) as [[|c n]|]; simpl;
      rewrite ?lookup_insert_ne by done; by rewrite H2.
Qed.

Lemma initWorkspaceState_name (n w : Z) (name : string) (s : State) :
  workspaceNames s !! w = Some name -> name <> EmptyString ->
  workspaceNames (initWorkspaceState n s) !! w = Some name.
Proof.
  intros Hn Hne. unfold initWorkspaceState.
  apply (foldl_preserves (fun s' => workspaceNames s' !! w = Some name));
    [|exact Hn].
  intros s' i H. by apply initWorkspace_name.
Qed.

Lemma loadState_name (rows : list Row.t) (wss : gmap Z string) (cnt : option Z)
      (w : Z) (name : string) :
  wss !! w = Some name -> name <> EmptyString ->
  workspaceNames (loadState (initialState rows wss cnt)) !! w = Some name.
Proof.
  intros Hn Hne. unfold loadState. cbv zeta.
  apply (foldl_preserves (fun s' => workspaceNames s' !! w = Some name)).
  { intros s' i H. exact H. }
  apply (foldl_preserves (fun s' => workspaceNames s' !! w = Some name)).
  { intros s' i H. unfold ensureWorkspace. by repeat case_match. }
  apply initWorkspaceState_name; [|exact Hne].
  destruct cnt; simpl; apply lookup_union_Some_l; exact Hn.
Qed.

(** X20. A change of a name field gives the workspace the trimmed text, or
    [Workspace i] for a blank one, so a name is never empty; once the
    database has answered, the next [loadState] shows the same name,
    whatever the stored count is. The names of the other workspaces are not
    touched. *)
Theorem rename_then_reload (s : State) (i : Z) (text : string) :
  let newName := orDefault text (defaultName i) in
  let s1 := renameWorkspace i text s in
  let s2 := resume (RenameK i newName) s1 in
  let reloaded := loadState (initialState (db_entries s2) (db_workspaces s2)
                                          (db_count s2)) in
  newName <> EmptyString /\
  workspaceNames s1 !! i = Some newName /\
  pending s1 = pending s ++ [RenameK i newName] /\
  (forall w, w <> i -> workspaceNames s1 !! w = workspaceNames s !! w) /\
  workspaceNames reloaded !! i = Some newName.
Proof.
  cbv zeta.
  assert (Hne : orDefault text (defaultName i) <> EmptyString)
    by apply orDefault_nonempty, defaultName_nonempty.
  split; [exact Hne|].
  unfold renameWorkspace. cbv zeta. simpl.
  split; [by rewrite lookup_insert_eq|]. split; [done|]. split.
  - intros w Hw. by rewrite lookup_insert_ne.
  - apply loadState_name; [|exact Hne]. by rewrite lookup_insert_eq.
Qed.

(** ** The total of the day in orderly use *)

Lemma orderly_reachable (s : State) : orderly s -> reachable s.
Proof.
  induction 1 as [rows wss cnt|s n _ IH|s ev _ IH _ Hen].
  - apply reachable_load.
  - by apply reachable_handle.
  - by apply reachable_handle.
Qed.

(** X21. When every answer of the database arrives before the next action of
    the user and nothing is suspended, the total that [updateTotalTime] shows
    is the sum of the durations of the entries that began on the local
    calendar day of the clock reading, in the workspaces from 1 to
    [workspaceCount], plus the time since the active workspace was started;
    with no active workspace it is that sum alone. *)
Theorem orderly_total (z : Date.Zone) (tToday tNow : Z) (s : State) :
  orderly s -> pending s = [] ->
  (activeWorkspace s = None ->
   updateTotalTime z tToday tNow s
   = sumZ (Entry.duration <$> todaysEntries z tToday s)) /\
  (forall a, activeWorkspace s = Some a ->
     exists t0,
       timerOf s a = Some (Timer.mk (Some t0) 0) /\
       updateTotalTime z tToday tNow s
       = sumZ (Entry.duration <$> todaysEntries z tToday s)
         + (if t0 =? 0 then 0 else tNow - t0)).
Proof.
  intros Ho Hp.
  pose proof (reachable_elapsedZero s (orderly_reachable s Ho)) as Hz.
  destruct (orderlyInv_oneRuns s (orderly_orderlyInv s Ho) Hp) as [_ Hact].
  unfold updateTotalTime. cbv zeta. rewrite updateTotalTime_fold.
  fold (todaysEntries z tToday s). split.
  - intros Hn. rewrite sum_liveAt_absent; [lia|]. intros a Ha. congruence.
  - intros a Ha. destruct (Hact a Ha) as (Hr & l & t & Hl & Ht & Hrun).
    pose proof (Forall_lookup_1 _ _ _ _ Hz Ht) as He. simpl in He.
    destruct t as [[t0|] el]; [|discriminate]. simpl in He. subst el.
    exists t0. split; [unfold timerOf; by rewrite Hl|].
    rewrite (sum_liveAt_present tNow s a _ Ha);
      [|apply NoDup_seqZ|unfold ids; apply elem_of_seqZ; lia].
    unfold liveElapsed, timerOf, currentElapsed. rewrite Ha, Hl, Ht. simpl.
    destruct (t0 =? 0); simpl; lia.
Qed.

(** The total after the switch from workspace 1 to workspace 2. *)
Lemma orderly_total_witness :
  orderly settled /\ pending settled = [] /\
  (activeWorkspace settled = None ->
   updateTotalTime newYork 6000 6000 settled
   = sumZ (Entry.duration <$> todaysEntries newYork 6000 settled)) /\
  (forall a, activeWorkspace settled = Some a ->
     exists t0,
       timerOf settled a = Some (Timer.mk (Some t0) 0) /\
       updateTotalTime newYork 6000 6000 settled
       = sumZ (Entry.duration <$> todaysEntries newYork 6000 settled)
         + (if t0 =? 0 then 0 else 6000 - t0)).
Proof.
  split; [exact orderly_settled|]. split; [reflexivity|].
  exact (orderly_total newYork 6000 6000 settled orderly_settled eq_refl).
Defined.
